(** * The ANALYSIS stage executor of the piped agent

    A shallow embedding of [pkg/app/piped/executor/analysis]: the stage
    executor ([Execute], [saveElapsedTime], [retrievePreviousElapsedTime],
    the analyzer constructors, the template resolver and [render]) and
    the dynamic metrics analyzer, followed by the properties the design
    document states about them.

    Durations are Go's [time.Duration]: signed 64-bit nanosecond counts
    with wrap-around arithmetic.  Maps are finite maps keyed by strings.
    Functions of other packages that the executor calls are the fields
    of a record [Lib], over which the executor is parametrised.

    The executors of the Lambda deploy stages and of the Kubernetes
    stages are embedded in the same way, each in a module of its own,
    with what they call outside their file as the fields of a record
    [Env]. *)

From Stdlib Require Import ZArith QArith String Ascii List Bool Lia.
From stdpp Require Import base option list gmap strings pretty sorting.

Local Open Scope string_scope.
Local Open Scope list_scope.
Local Open Scope Z_scope.

(** ** Errors and results

    [fmt.Errorf] with a [%w] verb keeps the wrapped error, which
    [errors.Is] then finds; the two sentinels the executor tests for are
    [config.ErrNotFound] and [metrics.ErrNoDataFound]. *)
Inductive error : Type :=
| ErrNotFound
| ErrNoDataFound
| ErrNew (msg : string)
| ErrWrap (msg : string) (inner : error).

Fixpoint Error (e : error) : string :=
  match e with
  | ErrNotFound => "not found"
  | ErrNoDataFound => "no data found"
  | ErrNew msg => msg
  | ErrWrap msg inner => msg +:+ Error inner
  end.

Definition sentinel_eqb (a b : error) : bool :=
  match a, b with
  | ErrNotFound, ErrNotFound => true
  | ErrNoDataFound, ErrNoDataFound => true
  | _, _ => false
  end.

(** [errors.Is err target] for a sentinel [target]. *)
Fixpoint errors_Is (err target : error) : bool :=
  sentinel_eqb err target ||
  match err with
  | ErrWrap _ inner => errors_Is inner target
  | _ => false
  end.

Inductive result (A : Type) : Type :=
| Ok (a : A)
| Err (e : error).
Arguments Ok {A} a.
Arguments Err {A} e.

Definition isErr {A} (r : result A) : bool :=
  match r with Ok _ => false | Err _ => true end.

Definition isOk {A} (r : result A) : bool := negb (isErr r).

(** ** Go's int64 arithmetic *)

Definition minInt64 : Z := - 2 ^ 63.
Definition maxInt64 : Z := 2 ^ 63 - 1.

Definition inInt64 (z : Z) : Prop := minInt64 <= z <= maxInt64.

(** The value an int64 variable holds after an operation whose exact
    result is [z]. *)
Definition wrap64 (z : Z) : Z := (z + 2 ^ 63) mod 2 ^ 64 - 2 ^ 63.

(** ** time.Duration *)

Definition Duration : Type := Z.

Definition Nanosecond : Duration := 1.
Definition Microsecond : Duration := 1000 * Nanosecond.
Definition Millisecond : Duration := 1000 * Microsecond.
Definition Second : Duration := 1000 * Millisecond.
Definition Minute : Duration := 60 * Second.
Definition Hour : Duration := 60 * Minute.

Definition dur_add (a b : Duration) : Duration := wrap64 (a + b).
Definition dur_sub (a b : Duration) : Duration := wrap64 (a - b).

Definition digit_char (d : Z) : ascii := ascii_of_nat (48 + Z.to_nat d).

(** [fmtFrac]: the last [prec] decimal digits of [v] are written in
    front of [s], trailing zeros and a then useless decimal point left
    out; returns the text and [v / 10^prec]. *)
Fixpoint fmtFrac_loop (prec : nat) (print : bool) (s : string) (v : Z)
  : bool * string * Z :=
  match prec with
  | O => (print, s, v)
  | S p =>
      let digit := v mod 10 in
      let print' := print || negb (digit =? 0) in
      let s' := if print' then String (digit_char digit) s else s in
      fmtFrac_loop p print' s' (v / 10)
  end.

Definition fmtFrac (s : string) (v : Z) (prec : nat) : string * Z :=
  let '(print, s', v') := fmtFrac_loop prec false s v in
  (if print then String "."%char s' else s', v').

(** [fmtInt]: the decimal digits of the non-negative [v] in front of [s]. *)
Definition fmtInt (s : string) (v : Z) : string := pretty v +:+ s.

(** The micro sign of [Duration.String], U+00B5 in UTF-8. *)
Definition micro_sign : string :=
  String (ascii_of_nat 194) (String (ascii_of_nat 181) EmptyString).

(** [time.Duration.String]. *)
Definition Duration_String (d : Duration) : string :=
  let neg := d <? 0 in
  let u := Z.abs d in
  let body :=
    if u <? Second then
      if u =? 0 then "0s"
      else
        let '(prec, unit) :=
          if u <? Microsecond then (0%nat, "ns")
          else if u <? Millisecond then (3%nat, micro_sign +:+ "s")
          else (6%nat, "ms") in
        let '(s1, u1) := fmtFrac unit u prec in
        fmtInt s1 u1
    else
      let '(s1, u1) := fmtFrac "s" u 9 in
      let s2 := fmtInt s1 (u1 mod 60) in
      let u2 := u1 / 60 in
      if 0 <? u2 then
        let s3 := fmtInt (String "m"%char s2) (u2 mod 60) in
        let u3 := u2 / 60 in
        if 0 <? u3 then fmtInt (String "h"%char s3) u3 else s3
      else s2 in
  if neg && negb (u =? 0) then String "-"%char body else body.


(** ** The model and configuration packages

    The executor imports [pkg/model], [pkg/config] and the provider
    packages, which are not among the sources.  The declarations below
    are the parts of them that the executor reads, with the fields the
    source names and the design document lists. *)

(** Modelled from the spec: [model.StageStatus], the statuses of a
    stage.  The executor returns STAGE_SUCCESS, STAGE_FAILURE, or what
    the status helper answers. *)
Inductive StageStatus : Type :=
| STAGE_NOT_STARTED_YET
| STAGE_RUNNING
| STAGE_SUCCESS
| STAGE_FAILURE
| STAGE_CANCELLED.

Global Instance StageStatus_eq_dec : EqDecision StageStatus.
Proof. solve_decision. Defined.

(** Modelled from the spec: the kinds of stop signal that
    [executor.StopSignal.Signal] returns (section 6: NONE, TERMINATE,
    CANCEL). *)
Inductive StopSignalType : Type :=
| StopSignalNone
| StopSignalTerminate
| StopSignalCancel.

(** Modelled from the spec: [config.AnalysisExpected], the optional
    bounds [{ min?, max? }] of a static check.  Metric values are
    rationals here. *)
Module AnalysisExpected.
Record t : Type := mk { Min : option Q; Max : option Q }.
End AnalysisExpected.

(** Modelled from the spec: [config.AnalysisTemplateRef], the
    [{ template: name, args }] of a templatable check. *)
Module AnalysisTemplateRef.
Record t : Type := mk { Name : string; Args : gmap string string }.
End AnalysisTemplateRef.

(** Modelled from the spec: [config.AnalysisMetrics], a MetricsCheck
    [{ provider, query, interval, failureLimit, skipOnNoData,
    expected }]. *)
Module AnalysisMetrics.
Record t : Type := mk {
  Provider : string;
  Query : string;
  Expected : AnalysisExpected.t;
  Interval : Duration;
  FailureLimit : Z;
  SkipOnNoData : bool
}.
End AnalysisMetrics.

(** Modelled from the spec: [config.AnalysisLog], a log check. *)
Module AnalysisLog.
Record t : Type := mk {
  Provider : string;
  Query : string;
  Interval : Duration;
  FailureLimit : Z;
  SkipOnNoData : bool
}.
End AnalysisLog.

(** Modelled from the spec: [config.AnalysisHTTP], an HTTP probe with
    its method, URL, expected status and timeout. *)
Module AnalysisHTTP.
Record t : Type := mk {
  URL : string;
  Method : string;
  ExpectedCode : Z;
  Interval : Duration;
  FailureLimit : Z;
  SkipOnNoData : bool;
  Timeout : Duration
}.
End AnalysisHTTP.

(** Modelled from the spec: the templatable checks, each of which
    embeds the check of its kind and carries a template reference. *)
Module TemplatableAnalysisMetrics.
Record t : Type := mk {
  AnalysisMetrics : AnalysisMetrics.t;
  Template : AnalysisTemplateRef.t
}.
End TemplatableAnalysisMetrics.

Module TemplatableAnalysisLog.
Record t : Type := mk {
  AnalysisLog : AnalysisLog.t;
  Template : AnalysisTemplateRef.t
}.
End TemplatableAnalysisLog.

Module TemplatableAnalysisHTTP.
Record t : Type := mk {
  AnalysisHTTP : AnalysisHTTP.t;
  Template : AnalysisTemplateRef.t
}.
End TemplatableAnalysisHTTP.

(** Modelled from the spec: [config.AnalysisTemplateSpec], the
    analysis template document, a mapping from template name to check
    for each kind. *)
Module AnalysisTemplateSpec.
Record t : Type := mk {
  Metrics : gmap string AnalysisMetrics.t;
  Logs : gmap string AnalysisLog.t;
  HTTPs : gmap string AnalysisHTTP.t
}.
Definition empty : t := mk ∅ ∅ ∅.
End AnalysisTemplateSpec.

(** Modelled from the spec: [config.AnalysisDynamicMetrics], one entry
    [{ template, primaryArgs?, canaryArgs?, baselineArgs? }] of the
    [dynamic] block. *)
Module AnalysisDynamicMetrics.
Record t : Type := mk {
  Template : string;
  PrimaryArgs : gmap string string;
  CanaryArgs : gmap string string;
  BaselineArgs : gmap string string
}.
End AnalysisDynamicMetrics.

(** Modelled from the spec: [config.AnalysisStageOptions], as far as
    [Execute] reads it. *)
Module AnalysisStageOptions.
Record t : Type := mk {
  Duration : Duration;
  Metrics : list TemplatableAnalysisMetrics.t;
  Logs : list TemplatableAnalysisLog.t;
  Https : list TemplatableAnalysisHTTP.t
}.
End AnalysisStageOptions.

(** Modelled from the spec: [config.Config], the deployment
    configuration: its kind and, of the Kubernetes deployment spec, the
    input namespace.  The loader sets the spec that goes with the kind;
    [render] reads the namespace only when the kind is
    [KindKubernetesApp]. *)
Module Config.
Record t : Type := mk {
  Kind : string;
  KubernetesDeploymentSpec_Input_Namespace : string
}.
End Config.

Definition KindKubernetesApp : string := "KubernetesApp".

(** Modelled from the spec: the entry of the agent configuration that
    [PipedConfig.GetAnalysisProvider] returns for a provider name. *)
Module PipedAnalysisProvider.
Record t : Type := mk { Name : string; Type_ : string }.
End PipedAnalysisProvider.

(** ** Analysis providers

    A provider call reaches an external backend; the instant [now] of
    the call stands for the state of that backend. *)

Definition Time : Type := Z.

(** Modelled from the spec: [metrics.QueryRange], [{ from, to }]. *)
Module QueryRange.
Record t : Type := mk { From : Time; To : Time }.
End QueryRange.

(** What a runner returns: [(expected, reason, err)]. *)
Definition verdict : Type := bool * string * option error.

(** Modelled from the spec: the three provider interfaces (section
    4.1), each with its [Type] label. *)
Module MetricsProvider.
Record t : Type := mk {
  Type_ : string;
  Evaluate : string -> QueryRange.t -> AnalysisExpected.t -> verdict
}.
End MetricsProvider.

Module LogProvider.
Record t : Type := mk {
  Type_ : string;
  Evaluate : Time -> string -> verdict
}.
End LogProvider.

Module HTTPProvider.
Record t : Type := mk {
  Type_ : string;
  Run : Time -> AnalysisHTTP.t -> verdict
}.
End HTTPProvider.

(** ** The template engine

    [render] passes the serialised template document through
    [text/template].  A parsed template is a sequence of text and of
    actions; the actions modelled are the field references
    [{{ .A.B.C }}], which is what an analysis template uses to name a
    built-in field or an argument. *)

Inductive node : Type :=
| TextNode (text : string)
| FieldNode (ident : list string).

Definition Template : Type := list node.

(** [templateArgs] allows deployment-specific data to be embedded in
    the analysis template. *)
Module templateArgs.
Record AppT : Type := mkApp { Name : string; Env : string }.
Record K8sT : Type := mkK8s { Namespace : string }.
Record t : Type := mk {
  App : AppT;
  K8s : K8sT;
  (* User-defined custom args. *)
  Args : gmap string string
}.
End templateArgs.

(** The values a field reference can reach in a [templateArgs]; [VZero]
    is the invalid [reflect.Value] that indexing a map with a missing
    key yields under the default [missingkey] option. *)
Inductive value : Type :=
| VRoot (a : templateArgs.t)
| VApp (a : templateArgs.AppT)
| VK8s (k : templateArgs.K8sT)
| VMap (m : gmap string string)
| VString (s : string)
| VZero.

Definition cant_evaluate (fieldName typ : string) : error :=
  ErrNew ("can't evaluate field " +:+ fieldName +:+ " in type " +:+ typ).

(** [evalField]: the field or map element [fieldName] of [receiver]. *)
Definition evalField (fieldName : string) (receiver : value) : result value :=
  match receiver with
  | VZero => Ok VZero
  | VRoot a =>
      if String.eqb fieldName "App" then Ok (VApp (templateArgs.App a))
      else if String.eqb fieldName "K8s" then Ok (VK8s (templateArgs.K8s a))
      else if String.eqb fieldName "Args" then Ok (VMap (templateArgs.Args a))
      else Err (cant_evaluate fieldName "analysis.templateArgs")
  | VApp a =>
      if String.eqb fieldName "Name" then Ok (VString (templateArgs.Name a))
      else if String.eqb fieldName "Env" then Ok (VString (templateArgs.Env a))
      else Err (cant_evaluate fieldName "struct { Name string; Env string }")
  | VK8s k =>
      if String.eqb fieldName "Namespace"
      then Ok (VString (templateArgs.Namespace k))
      else Err (cant_evaluate fieldName "struct { Namespace string }")
  | VMap m =>
      match m !! fieldName with
      | Some v => Ok (VString v)
      | None => Ok VZero
      end
  | VString _ => Err (cant_evaluate fieldName "string")
  end.

(** [evalFieldChain]: the identifiers of a field node applied in order. *)
Fixpoint evalFieldChain (ident : list string) (receiver : value) : result value :=
  match ident with
  | [] => Ok receiver
  | f :: rest =>
      match evalField f receiver with
      | Ok v => evalFieldChain rest v
      | Err e => Err e
      end
  end.

Definition key_le {A : Type} (a b : string * A) : Prop :=
  String.leb (fst a) (fst b) = true.

Global Instance key_le_dec {A : Type} : RelDecision (@key_le A).
Proof. intros a b. unfold key_le. solve_decision. Defined.

Fixpoint join_entries (l : list (string * string)) : string :=
  match l with
  | [] => ""
  | [(k, v)] => k +:+ ":" +:+ v
  | (k, v) :: rest => k +:+ ":" +:+ v +:+ " " +:+ join_entries rest
  end.

(** What [fmt.Fprint] writes for a value; a map is written with its
    keys in increasing order. *)
Definition print_map (m : gmap string string) : string :=
  "map[" +:+ join_entries (merge_sort key_le (map_to_list m)) +:+ "]".

Definition print_App (a : templateArgs.AppT) : string :=
  "{" +:+ templateArgs.Name a +:+ " " +:+ templateArgs.Env a +:+ "}".

Definition print_K8s (k : templateArgs.K8sT) : string :=
  "{" +:+ templateArgs.Namespace k +:+ "}".

Definition no_value : string := "<no value>".

Definition printValue (v : value) : string :=
  match v with
  | VRoot a =>
      "{" +:+ print_App (templateArgs.App a) +:+ " "
          +:+ print_K8s (templateArgs.K8s a) +:+ " "
          +:+ print_map (templateArgs.Args a) +:+ "}"
  | VApp a => print_App a
  | VK8s k => print_K8s k
  | VMap m => print_map m
  | VString s => s
  | VZero => no_value
  end.

(** [Template.Execute]: the nodes are written to the buffer in order;
    the first action that fails ends the execution with its error. *)
Fixpoint template_Execute_from (b : string) (t : Template) (data : templateArgs.t)
  : result string :=
  match t with
  | [] => Ok b
  | TextNode text :: rest => template_Execute_from (b +:+ text) rest data
  | FieldNode ident :: rest =>
      match evalFieldChain ident (VRoot data) with
      | Ok v => template_Execute_from (b +:+ printValue v) rest data
      | Err e => Err e
      end
  end.

Definition template_Execute (t : Template) (data : templateArgs.t) : result string :=
  template_Execute_from "" t data.

(** ** Functions of other packages

    What the executor calls outside its own package and the Go
    libraries modelled above.  [template_Parse] is
    [template.New(name).Parse]; [json_Unmarshal] decodes into a fresh
    document and returns it with the decoder's error. *)
Record Lib : Type := mkLib {
  DetermineStageStatus : StopSignalType -> StageStatus -> StageStatus -> StageStatus;
  ParseDuration : string -> result Duration;
  json_Marshal : AnalysisTemplateSpec.t -> result string;
  template_Parse : string -> result Template;
  json_Unmarshal : string -> AnalysisTemplateSpec.t * option error;
  AnalysisMetrics_Validate : AnalysisMetrics.t -> option error;
  metricsfactory_NewProvider :
    TemplatableAnalysisMetrics.t -> PipedAnalysisProvider.t -> result MetricsProvider.t;
  logfactory_NewProvider : PipedAnalysisProvider.t -> result LogProvider.t;
  httpprovider_NewProvider : Duration -> HTTPProvider.t
}.

(** Modelled from the spec: [deploysource.DeploySource], as far as the
    executor reads it. *)
Module DeploySource.
Record t : Type := mk { RepoDir : string; DeploymentConfig : Config.t }.
End DeploySource.

(** Modelled from the spec: [executor.Input], what the pipeline engine
    hands to the stage (section 6), with the fields [Execute] reads. *)
Module Input.
Record t : Type := mk {
  Stage_Id : string;
  Stage_Status : StageStatus;
  StageConfig_AnalysisStageOptions : option AnalysisStageOptions.t;
  Application_Name : string;
  PipedConfig_GetAnalysisProvider : string -> option PipedAnalysisProvider.t;
  RunningDSP_Get : result DeploySource.t;
  MetadataStore_GetStageMetadata : string -> option (gmap string string)
}.
End Input.

(** What the surroundings answer during one run of the stage: the
    clock at entry, the time elapsed when the stage exits, the stop
    signal, the template file of the repository, the instants at which
    the ticker of each analyzer fires, and whether the two stores accept
    what is written to them. *)
Module World.
Record t : Type := mk {
  Now : Time;
  Since : Duration;
  Signal : StopSignalType;
  LoadAnalysisTemplate : string -> result AnalysisTemplateSpec.t;
  Ticks : string -> list Time;
  SetStageMetadata_err : option error;
  PutLatestAnalysisResult_err : option error
}.
End World.

(** The [Executor] struct. *)
Module Executor.
Record t : Type := mk {
  Input : Input.t;
  repoDir : string;
  config : Config.t;
  startTime : Time;
  previousElapsedTime : Duration
}.
End Executor.

(** What a run of [Execute] does to its surroundings, in order:
    the lines it logs, the deadline it installs on the stage context,
    the analyzers it starts, what each of them has returned when
    [eg.Wait] returns, and the calls to the status helper and to the
    two stores. *)
Inductive event : Type :=
| Logger_Error (msg : string)
| Logger_Info (msg : string)
| LogPersister_Error (msg : string)
| LogPersister_Success (msg : string)
| WithTimeout (timeout : Duration)
| Go (id : string)
| Run_returned (id : string) (err : option error)
| Call_DetermineStageStatus (sig : StopSignalType) (original got : StageStatus)
| PutLatestAnalysisResult (StartTime : Z)
| SetStageMetadata (stageID : string) (metadata : gmap string string).

(** ** The analyzer runner

    analyzer.go is not among the sources; section 4.3 of the design
    document describes what an analyzer owns and the loop it runs. *)

(** Modelled from the spec: the [analyzer] struct, which owns
    [{ id, providerType, query, runner, interval, failureLimit,
    skipOnNoData }]; the count of consecutive failures is the state of
    its loop. *)
Module analyzer.
Record t : Type := mk {
  id : string;
  providerType : string;
  query : string;
  runner : Time -> string -> verdict;
  interval : Duration;
  failureLimit : Z;
  skipOnNoData : bool
}.
End analyzer.

(** Modelled from the spec: [newAnalyzer], with the arguments the
    executor passes (the two loggers apart). *)
Definition newAnalyzer (id providerType query : string)
    (runner : Time -> string -> verdict) (interval : Duration)
    (failureLimit : Z) (skipOnNoData : bool) : analyzer.t :=
  analyzer.mk id providerType query runner interval failureLimit skipOnNoData.

(** How one tick is classified. *)
Inductive tick_class : Type :=
| TickOk
| TickSkipped
| TickFailed.

(** Modelled from the spec: the classification of a tick (section
    4.3): the no-data sentinel under [skipOnNoData] is benign, any
    other error or [ok = false] is a failure, [ok = true] a success. *)
Definition classify (skipOnNoData : bool) (v : verdict) : tick_class :=
  let '(ok, _, err) := v in
  match err with
  | Some e =>
      if errors_Is e ErrNoDataFound && skipOnNoData then TickSkipped
      else TickFailed
  | None => if ok then TickOk else TickFailed
  end.

Definition classify_tick (a : analyzer.t) (now : Time) : tick_class :=
  classify (analyzer.skipOnNoData a) (analyzer.runner a now (analyzer.query a)).

Definition failure_limit_exceeded (a : analyzer.t) : error :=
  ErrNew ("analysis '" +:+ analyzer.id a
          +:+ "' failed because the failure number exceeded the failure limit ("
          +:+ pretty (analyzer.failureLimit a) +:+ ")").

(** Modelled from the spec: the loop of [analyzer.run] (section 4.3)
    over the ticks delivered before the context is done, from a count
    of consecutive failures: a failing tick increments the count and
    ends the run with an error when the count is above the failure
    limit, any other tick resets it, and the end of the context returns
    nil.  Returns the error of [run] and the number of ticks it
    evaluated. *)
Fixpoint analyzer_run_from (a : analyzer.t) (consecutiveFailures : Z)
    (ticks : list Time) : option error * nat :=
  match ticks with
  | [] => (None, O)
  | now :: rest =>
      match classify_tick a now with
      | TickSkipped | TickOk =>
          let '(r, n) := analyzer_run_from a 0 rest in (r, S n)
      | TickFailed =>
          let consecutiveFailures := consecutiveFailures + 1 in
          if consecutiveFailures >? analyzer.failureLimit a
          then (Some (failure_limit_exceeded a), 1%nat)
          else let '(r, n) := analyzer_run_from a consecutiveFailures rest in (r, S n)
      end
  end.

Definition analyzer_run (a : analyzer.t) (ticks : list Time) : option error :=
  fst (analyzer_run_from a 0 ticks).

(** ** The executor *)

Section WithLib.
Context (L : Lib).

(** The argument value that [render] builds before it serialises the
    document: the custom args, the application name, an empty
    environment name, and the namespace for a Kubernetes application. *)
Definition render_args (e : Executor.t) (customArgs : gmap string string)
  : templateArgs.t :=
  let args :=
    templateArgs.mk
      (templateArgs.mkApp (Input.Application_Name (Executor.Input e)) "")
      (templateArgs.mkK8s "")
      customArgs in
  if String.eqb (Config.Kind (Executor.config e)) KindKubernetesApp then
    let namespace :=
      let n := Config.KubernetesDeploymentSpec_Input_Namespace (Executor.config e) in
      if negb (String.eqb n "") then n else "default" in
    templateArgs.mk (templateArgs.App args) (templateArgs.mkK8s namespace)
      (templateArgs.Args args)
  else args.

(** [render] returns a new AnalysisTemplateSpec, where
    deployment-specific arguments populated.  Its callers read the
    document only when the error is nil, so the pair that the Go
    function returns is a [result] here. *)
Definition render (e : Executor.t) (templateCfg : AnalysisTemplateSpec.t)
    (customArgs : gmap string string)
  : result AnalysisTemplateSpec.t :=
  let args := render_args e customArgs in
  match json_Marshal L templateCfg with
  | Err err => Err (ErrWrap "failed to marshal json: " err)
  | Ok cfg =>
      match template_Parse L cfg with
      | Err err => Err (ErrWrap "failed to parse text: " err)
      | Ok t =>
          match template_Execute t args with
          | Err err => Err (ErrWrap "failed to apply template: " err)
          | Ok b =>
              match json_Unmarshal L b with
              | (_, Some err) => Err err
              | (newCfg, None) => Ok newCfg
              end
          end
      end
  end.

Definition template_not_found (name : string) : error :=
  ErrNew ("analysis template " +:+ name +:+ " not found despite template specified").

(** [getMetricsConfig] renders the given template and returns the
    metrics config.  Just returns metrics config if no template
    specified. *)
Definition getMetricsConfig (e : Executor.t)
    (templatableCfg : TemplatableAnalysisMetrics.t)
    (templateCfg : AnalysisTemplateSpec.t) (args : gmap string string)
  : result AnalysisMetrics.t :=
  let name := AnalysisTemplateRef.Name (TemplatableAnalysisMetrics.Template templatableCfg) in
  if String.eqb name "" then
    let cfg := TemplatableAnalysisMetrics.AnalysisMetrics templatableCfg in
    match AnalysisMetrics_Validate L cfg with
    | Some err => Err (ErrWrap "invalid metrics configuration: " err)
    | None => Ok cfg
    end
  else
    match render e templateCfg args with
    | Err err => Err err
    | Ok templateCfg =>
        match AnalysisTemplateSpec.Metrics templateCfg !! name with
        | None => Err (template_not_found name)
        | Some cfg =>
            match AnalysisMetrics_Validate L cfg with
            | Some err => Err (ErrWrap "invalid metrics configuration: " err)
            | None => Ok cfg
            end
        end
    end.

(** [getLogConfig] renders the given template and returns the log
    config.  Just returns log config if no template specified. *)
Definition getLogConfig (e : Executor.t)
    (templatableCfg : TemplatableAnalysisLog.t)
    (templateCfg : AnalysisTemplateSpec.t) (args : gmap string string)
  : result AnalysisLog.t :=
  let name := AnalysisTemplateRef.Name (TemplatableAnalysisLog.Template templatableCfg) in
  if String.eqb name "" then
    Ok (TemplatableAnalysisLog.AnalysisLog templatableCfg)
  else
    match render e templateCfg args with
    | Err err => Err err
    | Ok templateCfg =>
        match AnalysisTemplateSpec.Logs templateCfg !! name with
        | None => Err (template_not_found name)
        | Some cfg => Ok cfg
        end
    end.

(** [getHTTPConfig] renders the given template and returns the http
    config.  Just returns http config if no template specified. *)
Definition getHTTPConfig (e : Executor.t)
    (templatableCfg : TemplatableAnalysisHTTP.t)
    (templateCfg : AnalysisTemplateSpec.t) (args : gmap string string)
  : result AnalysisHTTP.t :=
  let name := AnalysisTemplateRef.Name (TemplatableAnalysisHTTP.Template templatableCfg) in
  if String.eqb name "" then
    Ok (TemplatableAnalysisHTTP.AnalysisHTTP templatableCfg)
  else
    match render e templateCfg args with
    | Err err => Err err
    | Ok templateCfg =>
        match AnalysisTemplateSpec.HTTPs templateCfg !! name with
        | None => Err (template_not_found name)
        | Some cfg => Ok cfg
        end
    end.

Definition unknown_provider (providerName : string) : error :=
  ErrNew ("unknown provider name " +:+ providerName).

Definition newMetricsProvider (e : Executor.t) (providerName : string)
    (templatable : TemplatableAnalysisMetrics.t) : result MetricsProvider.t :=
  match Input.PipedConfig_GetAnalysisProvider (Executor.Input e) providerName with
  | None => Err (unknown_provider providerName)
  | Some cfg => metricsfactory_NewProvider L templatable cfg
  end.

Definition newLogProvider (e : Executor.t) (providerName : string)
  : result LogProvider.t :=
  match Input.PipedConfig_GetAnalysisProvider (Executor.Input e) providerName with
  | None => Err (unknown_provider providerName)
  | Some cfg => logfactory_NewProvider L cfg
  end.

Definition newAnalyzerForMetrics (e : Executor.t) (i : nat)
    (templatable : TemplatableAnalysisMetrics.t)
    (templateCfg : AnalysisTemplateSpec.t) : result analyzer.t :=
  match getMetricsConfig e templatable templateCfg
          (AnalysisTemplateRef.Args (TemplatableAnalysisMetrics.Template templatable)) with
  | Err err => Err err
  | Ok cfg =>
      match newMetricsProvider e (AnalysisMetrics.Provider cfg) templatable with
      | Err err => Err err
      | Ok provider =>
          let id := "metrics-" +:+ pretty i in
          let runner (now : Time) (query : string) : verdict :=
            let queryRange :=
              QueryRange.mk (now - AnalysisMetrics.Interval cfg) now in
            MetricsProvider.Evaluate provider query queryRange
              (AnalysisMetrics.Expected cfg) in
          Ok (newAnalyzer id (MetricsProvider.Type_ provider)
                (AnalysisMetrics.Query cfg) runner
                (AnalysisMetrics.Interval cfg) (AnalysisMetrics.FailureLimit cfg)
                (AnalysisMetrics.SkipOnNoData cfg))
      end
  end.

Definition newAnalyzerForLog (e : Executor.t) (i : nat)
    (templatable : TemplatableAnalysisLog.t)
    (templateCfg : AnalysisTemplateSpec.t) : result analyzer.t :=
  match getLogConfig e templatable templateCfg
          (AnalysisTemplateRef.Args (TemplatableAnalysisLog.Template templatable)) with
  | Err err => Err err
  | Ok cfg =>
      match newLogProvider e (AnalysisLog.Provider cfg) with
      | Err err => Err err
      | Ok provider =>
          let id := "log-" +:+ pretty i in
          let runner (now : Time) (query : string) : verdict :=
            LogProvider.Evaluate provider now query in
          Ok (newAnalyzer id (LogProvider.Type_ provider)
                (AnalysisLog.Query cfg) runner
                (AnalysisLog.Interval cfg) (AnalysisLog.FailureLimit cfg)
                (AnalysisLog.SkipOnNoData cfg))
      end
  end.

Definition newAnalyzerForHTTP (e : Executor.t) (i : nat)
    (templatable : TemplatableAnalysisHTTP.t)
    (templateCfg : AnalysisTemplateSpec.t) : result analyzer.t :=
  match getHTTPConfig e templatable templateCfg
          (AnalysisTemplateRef.Args (TemplatableAnalysisHTTP.Template templatable)) with
  | Err err => Err err
  | Ok cfg =>
      let provider := httpprovider_NewProvider L (AnalysisHTTP.Timeout cfg) in
      let id := "http-" +:+ pretty i in
      let runner (now : Time) (query : string) : verdict :=
        HTTPProvider.Run provider now cfg in
      Ok (newAnalyzer id (HTTPProvider.Type_ provider) "" runner
            (AnalysisHTTP.Interval cfg) (AnalysisHTTP.FailureLimit cfg)
            (AnalysisHTTP.SkipOnNoData cfg))
  end.

Definition elapsedTimeKey : string := "elapsedTime".

(** [saveElapsedTime] stores the elapsed time of analysis stage into
    metadata persister. *)
Definition saveElapsedTime (e : Executor.t) (w : World.t) : list event :=
  let elapsedTime := dur_add (World.Since w) (Executor.previousElapsedTime e) in
  let metadata : gmap string string :=
    {[ elapsedTimeKey := Duration_String elapsedTime ]} in
  SetStageMetadata (Input.Stage_Id (Executor.Input e)) metadata ::
  match World.SetStageMetadata_err w with
  | Some _ => [Logger_Error "failed to store metadata"]
  | None => []
  end.

(** [retrievePreviousElapsedTime] sets the elapsed time of analysis
    stage by decoding metadata. *)
Definition retrievePreviousElapsedTime (e : Executor.t) : Duration * list event :=
  let i := Executor.Input e in
  match Input.MetadataStore_GetStageMetadata i (Input.Stage_Id i) with
  | None => (0, [])
  | Some metadata =>
      match metadata !! elapsedTimeKey with
      | None => (0, [])
      | Some s =>
          match ParseDuration L s with
          | Err _ => (0, [Logger_Error "unexpected elapsed time is stored"])
          | Ok et => (et, [])
          end
      end
  end.

(** The analyzers of one kind are spawned in the order of the
    configuration; the first one that cannot be built ends the stage.
    Returns the analyzers started so far and the failure. *)
Fixpoint spawn {A : Type} (new : nat -> A -> result analyzer.t)
    (i : nat) (l : list A) : list analyzer.t * option (A * error) :=
  match l with
  | [] => ([], None)
  | x :: rest =>
      match new i x with
      | Err err => ([], Some (x, err))
      | Ok a =>
          let '(started, failure) := spawn new (S i) rest in
          (a :: started, failure)
      end
  end.

Definition go_events (started : list analyzer.t) : list event :=
  map (fun a => Go (analyzer.id a)) started.

(** The ticks an analyzer evaluates: those its ticker delivers before
    the deadline of the stage context. *)
Fixpoint ticks_before (deadline : Time) (ticks : list Time) : list Time :=
  match ticks with
  | [] => []
  | t :: rest => if t <? deadline then t :: ticks_before deadline rest else []
  end.

(** [errgroup.Group.Wait]: the first error among the analyzers, which
    are listed in the order they were started. *)
Fixpoint eg_Wait (results : list (option error)) : option error :=
  match results with
  | [] => None
  | Some err :: _ => Some err
  | None :: rest => eg_Wait rest
  end.

(** What [analyzer.run] returns for each started analyzer. *)
Definition run_analyzers (w : World.t) (timeout : Duration)
    (started : list analyzer.t) : list (string * option error) :=
  map (fun a =>
         (analyzer.id a,
          analyzer_run a
            (ticks_before (World.Now w + timeout) (World.Ticks w (analyzer.id a)))))
      started.

Definition returned_events (results : list (string * option error)) : list event :=
  map (fun r => Run_returned (fst r) (snd r)) results.

Definition failed_to_spawn (provider : string) (err : error) : string :=
  "Failed to spawn analyzer for " +:+ provider +:+ ": " +:+ Error err.

(** The three loops of [Execute] that build and start the analyzers:
    the analyzers started, and the message logged when one could not be
    built (the stage then fails at once). *)
Definition spawn_all (e : Executor.t) (options : AnalysisStageOptions.t)
    (templateCfg : AnalysisTemplateSpec.t) : list analyzer.t * option string :=
  (* Run analyses with metrics providers. *)
  match spawn (fun i m => newAnalyzerForMetrics e i m templateCfg) 0
          (AnalysisStageOptions.Metrics options) with
  | (ms, Some (m, err)) =>
      (ms,
       Some (failed_to_spawn
               (AnalysisMetrics.Provider (TemplatableAnalysisMetrics.AnalysisMetrics m))
               err))
  | (ms, None) =>
  (* Run analyses with logging providers. *)
  match spawn (fun i l => newAnalyzerForLog e i l templateCfg) 0
          (AnalysisStageOptions.Logs options) with
  | (ls, Some (l, err)) =>
      (ms ++ ls,
       Some (failed_to_spawn
               (AnalysisLog.Provider (TemplatableAnalysisLog.AnalysisLog l)) err))
  | (ls, None) =>
  (* Run analyses with http providers. *)
  match spawn (fun i h => newAnalyzerForHTTP e i h templateCfg) 0
          (AnalysisStageOptions.Https options) with
  | (hs, Some (_, err)) =>
      (ms ++ ls ++ hs, Some ("Failed to spawn analyzer for HTTP: " +:+ Error err))
  | (hs, None) => (ms ++ ls ++ hs, None)
  end end end.

(** The part of [Execute] that runs between the two deferred calls
    being registered and the return: the stage status and what was
    done. *)
Definition Execute_analyses (e : Executor.t) (w : World.t)
    (options : AnalysisStageOptions.t) (templateCfg : AnalysisTemplateSpec.t)
    (timeout : Duration) : StageStatus * list event :=
  let ev0 := [WithTimeout timeout] in
  match spawn_all e options templateCfg with
  | (started, Some msg) =>
      (STAGE_FAILURE, ev0 ++ go_events started ++ [LogPersister_Error msg])
  | (started, None) =>
      let results := run_analyzers w timeout started in
      let ev1 := ev0 ++ go_events started ++ returned_events results in
      match eg_Wait (map snd results) with
      | Some err =>
          (STAGE_FAILURE,
           ev1 ++ [LogPersister_Error ("Analysis failed: " +:+ Error err)])
      | None =>
          let original := Input.Stage_Status (Executor.Input e) in
          let status :=
            DetermineStageStatus L (World.Signal w) original STAGE_SUCCESS in
          let ev2 :=
            ev1 ++ [Call_DetermineStageStatus (World.Signal w) original STAGE_SUCCESS] in
          if negb (bool_decide (status = STAGE_SUCCESS)) then (status, ev2)
          else
            (status,
             ev2 ++ [LogPersister_Success "All analyses were successful";
                     PutLatestAnalysisResult (Executor.startTime e / Second)] ++
             match World.PutLatestAnalysisResult_err w with
             | Some _ => [Logger_Error "failed to send the analysis metadata"]
             | None => []
             end)
      end
  end.

(** [Execute] spawns and runs multiple analyzer that run a query at the
    regular time.  Any on of those fail then the stage ends with
    failure. *)
Definition Execute (i : Input.t) (w : World.t) : StageStatus * list event :=
  let startTime := World.Now w in
  match Input.StageConfig_AnalysisStageOptions i with
  | None =>
      (STAGE_FAILURE,
       [Logger_Error "missing analysis configuration for ANALYSIS stage"])
  | Some options =>
      match Input.RunningDSP_Get i with
      | Err err =>
          (STAGE_FAILURE,
           [LogPersister_Error
              ("Failed to prepare running deploy source data (" +:+ Error err +:+ ")")])
      | Ok ds =>
          let repoDir := DeploySource.RepoDir ds in
          let config := DeploySource.DeploymentConfig ds in
          let loaded : result AnalysisTemplateSpec.t * list event :=
            match World.LoadAnalysisTemplate w repoDir with
            | Ok templateCfg => (Ok templateCfg, [])
            | Err err =>
                if errors_Is err ErrNotFound then
                  (Ok AnalysisTemplateSpec.empty,
                   [Logger_Info "config file for AnalysisTemplate not found"])
                else (Err err, [LogPersister_Error (Error err)])
            end in
          match loaded with
          | (Err _, ev) => (STAGE_FAILURE, ev)
          | (Ok templateCfg, ev) =>
              let timeout := AnalysisStageOptions.Duration options in
              let '(previousElapsedTime, ev_prev) :=
                retrievePreviousElapsedTime
                  (Executor.mk i repoDir config startTime 0) in
              let e := Executor.mk i repoDir config startTime previousElapsedTime in
              let timeout :=
                if previousElapsedTime >? 0
                then (* Restart from the middle. *)
                  dur_sub timeout previousElapsedTime
                else timeout in
              let '(status, ev_run) :=
                Execute_analyses e w options templateCfg timeout in
              (status, ev ++ ev_prev ++ ev_run ++ saveElapsedTime e w)
          end
      end
  end.

End WithLib.

(** ** The dynamic metrics analyzer (dynamic_analyzer.go) *)

Definition dynamicMetricsStrategy : Type := string.

Definition strategyCanaryWithBaseline : dynamicMetricsStrategy := "CANARY_WITH_BASELINE".
Definition strategyCanaryWithPrimary : dynamicMetricsStrategy := "CANARY_WITH_PRIMARY".
Definition strategyPrevious : dynamicMetricsStrategy := "PREVIOUS".

Module dynamicMetricsAnalyzer.
Record t : Type := mk {
  strategy : dynamicMetricsStrategy;
  cfg : AnalysisMetrics.t;
  primaryArgs : gmap string string;
  canaryArgs : gmap string string;
  baselineArgs : gmap string string
}.
End dynamicMetricsAnalyzer.

Definition dquote : string := String (ascii_of_nat 34) EmptyString.

(** The [%q] verb, for names that need no escaping. *)
Definition quote (s : string) : string := dquote +:+ s +:+ dquote.

Definition dynamic_template_not_found (name : string) : error :=
  ErrNew ("template " +:+ quote name +:+ " not found").

Definition newDynamicMetricsAnalyzer (strategy : dynamicMetricsStrategy)
    (templateRef : AnalysisDynamicMetrics.t)
    (templates : AnalysisTemplateSpec.t) : result dynamicMetricsAnalyzer.t :=
  match AnalysisTemplateSpec.Metrics templates
          !! AnalysisDynamicMetrics.Template templateRef with
  | None => Err (dynamic_template_not_found (AnalysisDynamicMetrics.Template templateRef))
  | Some cfg =>
      Ok (dynamicMetricsAnalyzer.mk strategy cfg
            (AnalysisDynamicMetrics.PrimaryArgs templateRef)
            (AnalysisDynamicMetrics.CanaryArgs templateRef)
            (AnalysisDynamicMetrics.BaselineArgs templateRef))
  end.

(** A query sent to a metrics provider. *)
Inductive provider_query : Type :=
| QueryPoints (query : string) (range : QueryRange.t).

(** [dynamicMetricsAnalyzer.run] over the ticks delivered before the
    context is done: the error it returns and the provider queries it
    issued.  The three cases of the switch on the strategy are empty. *)
Fixpoint dynamic_run_from (d : dynamicMetricsAnalyzer.t)
    (issued : list provider_query) (ticks : list Time)
  : option error * list provider_query :=
  match ticks with
  | [] => (* <-ctx.Done() *) (None, issued)
  | _ :: rest =>
      (* <-ticker.C *)
      let s := dynamicMetricsAnalyzer.strategy d in
      if String.eqb s strategyPrevious then dynamic_run_from d issued rest
      else if String.eqb s strategyCanaryWithBaseline then dynamic_run_from d issued rest
      else if String.eqb s strategyCanaryWithPrimary then dynamic_run_from d issued rest
      else dynamic_run_from d issued rest
  end.

Definition dynamic_run (d : dynamicMetricsAnalyzer.t) (ticks : list Time)
  : option error * list provider_query :=
  dynamic_run_from d [] ticks.

(** ** Threshold evaluation

    The provider clients are not among the sources; section 4.1 of the
    design document gives the contract of [MetricsProvider.Evaluate]. *)

(** Modelled from the spec: [metrics.DataPoint],
    [{ timestamp, value }]. *)
Module DataPoint.
Record t : Type := mk { Timestamp : Time; Value : Q }.
End DataPoint.

(** Modelled from the spec: whether a value lies within the expected
    bounds, each of which is optional. *)
Definition InRange (expected : AnalysisExpected.t) (value : Q) : bool :=
  match AnalysisExpected.Min expected with
  | Some min => Qle_bool min value
  | None => true
  end &&
  match AnalysisExpected.Max expected with
  | Some max => Qle_bool value max
  | None => true
  end.

(** Modelled from the spec: [MetricsProvider.Evaluate] (section 4.1).
    The query is run over the range; a query error is returned as it
    is, a result without points is the no-data sentinel, and otherwise
    the verdict says whether every returned point lies within the
    expected bounds. *)
Definition Evaluate_points (QueryPoints : string -> QueryRange.t -> result (list DataPoint.t))
    (query : string) (queryRange : QueryRange.t) (expected : AnalysisExpected.t)
  : verdict :=
  match QueryPoints query queryRange with
  | Err err => (false, "", Some err)
  | Ok [] => (false, "", Some ErrNoDataFound)
  | Ok points =>
      if forallb (fun p => InRange expected (DataPoint.Value p)) points
      then (true, "", None)
      else (false, "found a value outside the expected range", None)
  end.

(** A metrics provider over a backend that answers point queries. *)
Definition points_provider (type : string)
    (QueryPoints : string -> QueryRange.t -> result (list DataPoint.t))
  : MetricsProvider.t :=
  MetricsProvider.mk type (Evaluate_points QueryPoints).

(** ** The rank-sum comparison

    [compare] and the Mann-Whitney U test are not among the sources,
    which hold their test, [Test_compare]; section 4.6 of the design
    document gives the procedure.  Sample values and ranks are
    rationals.  The conversion of the statistic to a p-value and its
    comparison with the significance level are the parameter
    [rejects]: [rejects z2] says whether a standard normal statistic
    whose square is [z2] has a two-sided p-value below the level. *)

(** Modelled from the spec: the deviation direction of a comparison
    ([HIGH], [LOW] or [EITHER]). *)
Inductive deviation : Type :=
| EITHER
| HIGH
| LOW.

(** Modelled from the spec: what the test returns. *)
Inductive comparison : Type :=
| NoDeviation
| Deviation
| InsufficientData.

Local Open Scope Q_scope.

Definition Qlt_bool (x y : Q) : bool := negb (Qle_bool y x).

Definition Qsum (l : list Q) : Q := fold_right Qplus 0 l.

Definition count (p : Q -> bool) (l : list Q) : Z :=
  Z.of_nat (length (List.filter p l)).

(** Modelled from the spec: the rank of [x] in the pooled sample
    ranked ascending, ties sharing the average of the ranks they
    span. *)
Definition rank (pool : list Q) (x : Q) : Q :=
  inject_Z (count (fun y => Qlt_bool y x) pool)
  + (inject_Z (count (fun y => Qeq_bool y x) pool) + 1) / 2.

Definition rank_sum (a pool : list Q) : Q := Qsum (List.map (rank pool) a).

Definition size (l : list Q) : Q := inject_Z (Z.of_nat (length l)).

(** Modelled from the spec: [U_a = R_a - n_a (n_a + 1) / 2], where
    [R_a] is the sum of the ranks of [a]. *)
Definition U_statistic (a b : list Q) : Q :=
  rank_sum a (a ++ b) - size a * (size a + 1) / 2.

(** Modelled from the spec: the standard tie adjustment, the sum of
    [t^3 - t] over the groups of tied values, a group of [t] values
    contributing [t^2 - 1] per member. *)
Definition tie_term (pool : list Q) : Q :=
  Qsum (List.map (fun x =>
                    let t := inject_Z (count (fun y => Qeq_bool y x) pool) in
                    t * t - 1) pool).

(** Modelled from the spec: the square of the tie-corrected [sigma]
    of the statistic. *)
Definition sigma2 (a b : list Q) : Q :=
  let n := size a + size b in
  size a * size b / 12 * ((n + 1) - tie_term (a ++ b) / (n * (n - 1))).

Definition mean (l : list Q) : Q := Qsum l / size l.

Section RankSum.
Variable rejects : Q -> bool.

(** Modelled from the spec: the two-sided test on
    [z = (U_a - n_a n_b / 2) / sigma]; a zero [sigma] (all values
    identical) is no deviation. *)
Definition significant (a b : list Q) : bool :=
  let s2 := sigma2 a b in
  if Qeq_bool s2 0 then false
  else
    let d := U_statistic a b - size a * size b / 2 in
    rejects (d * d / s2).

(** Modelled from the spec: the decision of the Mann-Whitney U test
    (section 4.6, steps 5 and 6): fewer than two values in a sample is
    insufficient data; [EITHER] fails if [p < alpha], [HIGH] if
    [p < alpha] and [mean(a) > mean(b)], [LOW] if [p < alpha] and
    [mean(a) < mean(b)]. *)
Definition MannWhitneyU (a b : list Q) (dev : deviation) : comparison :=
  if (length a <? 2)%nat || (length b <? 2)%nat then InsufficientData
  else if significant a b then
    match dev with
    | EITHER => Deviation
    | HIGH => if Qlt_bool (mean b) (mean a) then Deviation else NoDeviation
    | LOW => if Qlt_bool (mean a) (mean b) then Deviation else NoDeviation
    end
  else NoDeviation.

Definition significant_deviation : error :=
  ErrNew "the experiment deviates significantly from the control".

(** Modelled from the spec: [compare], which returns an error when the
    experiment deviates from the control in a direction that is not
    allowed, and the no-data sentinel when there is too little data. *)
Definition compare (experiment control : list Q) (dev : deviation) : option error :=
  match MannWhitneyU experiment control dev with
  | NoDeviation => None
  | Deviation => Some significant_deviation
  | InsufficientData => Some ErrNoDataFound
  end.

End RankSum.

(** Modelled from the spec: the recommended level 0.05; a two-sided
    p-value is below it when the statistic exceeds 1.959964 in absolute
    value. *)
Definition rejects_at_5_percent (z2 : Q) : bool :=
  Qlt_bool ((1959964 # 1000000) * (1959964 # 1000000)) z2.

Local Close Scope Q_scope.

(** ** A reference instance of the libraries

    An instance of [Lib] with which the executor can be run on concrete
    inputs: a template parser for text with field references, a JSON
    encoding of the template document, a duration parser for durations
    written without a fraction, and providers over given backend
    data. *)

Module Ref.

Definition is_space (c : ascii) : bool :=
  Ascii.eqb c " "%char || Ascii.eqb c (ascii_of_nat 9)
  || Ascii.eqb c (ascii_of_nat 10) || Ascii.eqb c (ascii_of_nat 13).

Definition is_digit (c : ascii) : bool :=
  let n := nat_of_ascii c in (48 <=? n)%nat && (n <=? 57)%nat.

Definition is_letter (c : ascii) : bool :=
  let n := nat_of_ascii c in
  ((65 <=? n)%nat && (n <=? 90)%nat) || ((97 <=? n)%nat && (n <=? 122)%nat)
  || Ascii.eqb c "_"%char.

(** [break2 c1 c2 s]: the text before the first [c1 c2] in [s], and the
    text after it. *)
Fixpoint break2 (c1 c2 : ascii) (s : string) : option (string * string) :=
  match s with
  | EmptyString => None
  | String a s' =>
      match s' with
      | EmptyString => None
      | String b s'' =>
          if Ascii.eqb a c1 && Ascii.eqb b c2 then Some (EmptyString, s'')
          else
            match break2 c1 c2 s' with
            | Some (before, after) => Some (String a before, after)
            | None => None
            end
      end
  end.

Fixpoint trim_left (s : string) : string :=
  match s with
  | String c s' => if is_space c then trim_left s' else s
  | EmptyString => EmptyString
  end.

Definition trim (s : string) : string :=
  String.rev (trim_left (String.rev (trim_left s))).

(** The identifiers of [.A.B.C], read from after the first dot. *)
Fixpoint split_idents (cur : string) (s : string) : list string :=
  match s with
  | EmptyString => [String.rev cur]
  | String c s' =>
      if Ascii.eqb c "."%char then String.rev cur :: split_idents EmptyString s'
      else split_idents (String c cur) s'
  end.

Definition is_ident (s : string) : bool :=
  match s with
  | EmptyString => false
  | String c s' =>
      is_letter c &&
      forallb (fun c => is_letter c || is_digit c) (list_ascii_of_string s')
  end.

Definition parse_action (action : string) : result node :=
  match trim action with
  | String "."%char s =>
      let idents := split_idents EmptyString s in
      if forallb is_ident idents then Ok (FieldNode idents)
      else Err (ErrNew ("action outside the modelled fragment: " +:+ action))
  | _ => Err (ErrNew ("action outside the modelled fragment: " +:+ action))
  end.

Fixpoint template_Parse_fuel (fuel : nat) (s : string) : result Template :=
  match fuel with
  | O => Err (ErrNew "template too long")
  | S fuel =>
      match break2 "{"%char "{"%char s with
      | None => Ok (if String.eqb s "" then [] else [TextNode s])
      | Some (text, rest) =>
          match break2 "}"%char "}"%char rest with
          | None => Err (ErrNew "unclosed action")
          | Some (action, rest') =>
              match parse_action action, template_Parse_fuel fuel rest' with
              | Ok n, Ok t =>
                  Ok (if String.eqb text "" then n :: t else TextNode text :: n :: t)
              | Err e, _ => Err e
              | _, Err e => Err e
              end
          end
      end
  end.

Definition template_Parse (s : string) : result Template :=
  template_Parse_fuel (S (String.length s)) s.

(** Durations written as [[-+]?([0-9]+unit)+], or [0]. *)
Definition unitMap (u : string) : option Z :=
  if String.eqb u "ns" then Some Nanosecond
  else if String.eqb u "us" then Some Microsecond
  else if String.eqb u (micro_sign +:+ "s") then Some Microsecond
  else if String.eqb u "ms" then Some Millisecond
  else if String.eqb u "s" then Some Second
  else if String.eqb u "m" then Some Minute
  else if String.eqb u "h" then Some Hour
  else None.

Fixpoint leadingInt (acc : Z) (s : string) : Z * string :=
  match s with
  | String c s' =>
      if is_digit c then leadingInt (10 * acc + Z.of_nat (nat_of_ascii c - 48)) s'
      else (acc, s)
  | EmptyString => (acc, s)
  end.

Fixpoint leadingUnit (acc : string) (s : string) : string * string :=
  match s with
  | String c s' =>
      if is_digit c || Ascii.eqb c "."%char then (String.rev acc, s)
      else leadingUnit (String c acc) s'
  | EmptyString => (String.rev acc, s)
  end.

Definition invalid_duration (orig : string) : error :=
  ErrNew ("time: invalid duration " +:+ quote orig).

Fixpoint ParseDuration_fuel (fuel : nat) (orig : string) (d : Z) (s : string)
  : result Z :=
  match fuel with
  | O => Err (invalid_duration orig)
  | S fuel =>
      match s with
      | EmptyString => Ok d
      | String c _ =>
          if negb (is_digit c) then Err (invalid_duration orig)
          else
            let '(v, s1) := leadingInt 0 s in
            let '(u, s2) := leadingUnit EmptyString s1 in
            match unitMap u with
            | None => Err (invalid_duration orig)
            | Some unit =>
                let d' := d + v * unit in
                if d' >? 2 ^ 63 then Err (invalid_duration orig)
                else ParseDuration_fuel fuel orig d' s2
            end
      end
  end.

Definition ParseDuration (orig : string) : result Duration :=
  let '(neg, s) :=
    match orig with
    | String "-"%char s => (true, s)
    | String "+"%char s => (false, s)
    | _ => (false, orig)
    end in
  if String.eqb s "0" then Ok 0
  else if String.eqb s "" then Err (invalid_duration orig)
  else
    match ParseDuration_fuel (S (String.length s)) orig 0 s with
    | Err e => Err e
    | Ok d =>
        if neg then Ok (- d)
        else if d >? 2 ^ 63 - 1 then Err (invalid_duration orig)
        else Ok d
    end.

(** *** JSON

    The template document is serialised as an object with the members
    [metrics], [logs] and [https], each an object from template names
    to checks; durations are written as nanosecond counts. *)

#[warnings="-register-all"]
Inductive json : Type :=
| JNull
| JBool (b : bool)
| JNumber (q : Q)
| JString (s : string)
| JObject (members : list (string * json)).

Definition c_dquote : ascii := ascii_of_nat 34.
Definition c_backslash : ascii := ascii_of_nat 92.

Definition hex_digit (n : Z) : ascii :=
  if n <? 10 then ascii_of_nat (48 + Z.to_nat n) else ascii_of_nat (87 + Z.to_nat n).

Definition escape_u (c : ascii) : string :=
  let n := Z.of_nat (nat_of_ascii c) in
  String c_backslash
    (String "u"%char
       (String "0"%char
          (String "0"%char
             (String (hex_digit (n / 16)) (String (hex_digit (n mod 16)) EmptyString))))).

(** A string literal as [json.Marshal] writes it: quotes, backslashes
    and control characters escaped, and so are the characters that are
    special in HTML. *)
Fixpoint escape (s : string) : string :=
  match s with
  | EmptyString => EmptyString
  | String c s' =>
      let rest := escape s' in
      if Ascii.eqb c c_dquote then String c_backslash (String c_dquote rest)
      else if Ascii.eqb c c_backslash then String c_backslash (String c_backslash rest)
      else if Ascii.eqb c (ascii_of_nat 10) then String c_backslash (String "n"%char rest)
      else if Ascii.eqb c (ascii_of_nat 13) then String c_backslash (String "r"%char rest)
      else if Ascii.eqb c (ascii_of_nat 9) then String c_backslash (String "t"%char rest)
      else if (nat_of_ascii c <? 32)%nat || Ascii.eqb c "<"%char
              || Ascii.eqb c ">"%char || Ascii.eqb c "&"%char
      then escape_u c +:+ rest
      else String c rest
  end.

Definition json_quote (s : string) : string :=
  String c_dquote (escape s +:+ dquote).

Fixpoint frac_digits (fuel : nat) (r den : Z) : string :=
  match fuel with
  | O => EmptyString
  | S fuel =>
      if r =? 0 then EmptyString
      else String (digit_char (10 * r / den)) (frac_digits fuel ((10 * r) mod den) den)
  end.

Definition print_number (q : Q) : string :=
  let n := Qnum q in
  let d := Z.pos (Qden q) in
  let a := Z.abs n in
  let f := frac_digits 20 (a mod d) d in
  (if n <? 0 then "-" else "") +:+ pretty (a / d)
  +:+ (if String.eqb f "" then "" else "." +:+ f).

Fixpoint print_json (j : json) : string :=
  match j with
  | JNull => "null"
  | JBool b => if b then "true" else "false"
  | JNumber q => print_number q
  | JString s => json_quote s
  | JObject members =>
      let fix print_members (l : list (string * json)) : string :=
        match l with
        | [] => ""
        | [(k, v)] => json_quote k +:+ ":" +:+ print_json v
        | (k, v) :: rest =>
            json_quote k +:+ ":" +:+ print_json v +:+ "," +:+ print_members rest
        end in
      "{" +:+ print_members members +:+ "}"
  end.

Fixpoint skip_ws (s : string) : string :=
  match s with
  | String c s' => if is_space c then skip_ws s' else s
  | EmptyString => EmptyString
  end.

Definition hex_val (c : ascii) : option Z :=
  let n := Z.of_nat (nat_of_ascii c) in
  if (48 <=? n) && (n <=? 57) then Some (n - 48)
  else if (97 <=? n) && (n <=? 102) then Some (n - 87)
  else if (65 <=? n) && (n <=? 70) then Some (n - 55)
  else None.

Definition byte (n : Z) : ascii := ascii_of_nat (Z.to_nat n).

(** The UTF-8 bytes of a code point of the basic plane, in reverse. *)
Definition utf8_rev (cp : Z) (acc : string) : string :=
  if cp <? 128 then String (byte cp) acc
  else if cp <? 2048 then
    String (byte (128 + cp mod 64)) (String (byte (192 + cp / 64)) acc)
  else
    String (byte (128 + cp mod 64))
      (String (byte (128 + (cp / 64) mod 64)) (String (byte (224 + cp / 4096)) acc)).

Definition unescape (e : ascii) : option ascii :=
  if Ascii.eqb e c_dquote then Some c_dquote
  else if Ascii.eqb e c_backslash then Some c_backslash
  else if Ascii.eqb e "/"%char then Some "/"%char
  else if Ascii.eqb e "b"%char then Some (ascii_of_nat 8)
  else if Ascii.eqb e "f"%char then Some (ascii_of_nat 12)
  else if Ascii.eqb e "n"%char then Some (ascii_of_nat 10)
  else if Ascii.eqb e "r"%char then Some (ascii_of_nat 13)
  else if Ascii.eqb e "t"%char then Some (ascii_of_nat 9)
  else None.

(** The rest of a string literal, from after its opening quote. *)
Fixpoint parse_string_body (acc : string) (s : string) : option (string * string) :=
  match s with
  | EmptyString => None
  | String c s' =>
      if Ascii.eqb c c_dquote then Some (String.rev acc, s')
      else if Ascii.eqb c c_backslash then
        match s' with
        | String "u"%char (String h1 (String h2 (String h3 (String h4 s'')))) =>
            match hex_val h1, hex_val h2, hex_val h3, hex_val h4 with
            | Some a, Some b, Some c, Some d =>
                parse_string_body (utf8_rev (((a * 16 + b) * 16 + c) * 16 + d) acc) s''
            | _, _, _, _ => None
            end
        | String e s'' =>
            match unescape e with
            | Some c' => parse_string_body (String c' acc) s''
            | None => None
            end
        | EmptyString => None
        end
      else if (nat_of_ascii c <? 32)%nat then None
      else parse_string_body (String c acc) s'
  end.

Fixpoint count_digits (s : string) : nat :=
  match s with
  | String c s' => if is_digit c then S (count_digits s') else O
  | EmptyString => O
  end.

Definition parse_number (s : string) : option (Q * string) :=
  let '(neg, s0) :=
    match s with
    | String "-"%char s' => (true, s')
    | _ => (false, s)
    end in
  if (count_digits s0 =? 0)%nat then None
  else
    let '(i, s1) := leadingInt 0 s0 in
    let '(m, k, s2) :=
      match s1 with
      | String "."%char s' =>
          let '(f, s'') := leadingInt 0 s' in
          (i * 10 ^ Z.of_nat (count_digits s') + f, count_digits s', s'')
      | _ => (i, O, s1)
      end in
    let q := Qred (Qmake (if neg then - m else m) (Pos.pow 10 (Pos.of_nat k))) in
    Some (if (k =? 0)%nat then inject_Z (if neg then - m else m) else q, s2).

Definition strip_prefix (p s : string) : option string :=
  if String.prefix p s
  then Some (String.substring (String.length p) (String.length s - String.length p) s)
  else None.

Fixpoint parse_value (fuel : nat) (s : string) {struct fuel} : option (json * string) :=
  match fuel with
  | O => None
  | S fuel =>
      match skip_ws s with
      | EmptyString => None
      | String c s' =>
          if Ascii.eqb c c_dquote then
            match parse_string_body EmptyString s' with
            | Some (str, rest) => Some (JString str, rest)
            | None => None
            end
          else if Ascii.eqb c "{"%char then
            match skip_ws s' with
            | String "}"%char rest => Some (JObject [], rest)
            | _ =>
                match parse_members fuel [] s' with
                | Some (members, rest) => Some (JObject members, rest)
                | None => None
                end
            end
          else if Ascii.eqb c "t"%char then
            option_map (fun rest => (JBool true, rest)) (strip_prefix "rue" s')
          else if Ascii.eqb c "f"%char then
            option_map (fun rest => (JBool false, rest)) (strip_prefix "alse" s')
          else if Ascii.eqb c "n"%char then
            option_map (fun rest => (JNull, rest)) (strip_prefix "ull" s')
          else
            match parse_number (String c s') with
            | Some (q, rest) => Some (JNumber q, rest)
            | None => None
            end
      end
  end
with parse_members (fuel : nat) (acc : list (string * json)) (s : string)
    {struct fuel} : option (list (string * json) * string) :=
  match fuel with
  | O => None
  | S fuel =>
      match skip_ws s with
      | String c s1 =>
          if Ascii.eqb c c_dquote then
            match parse_string_body EmptyString s1 with
            | Some (k, s2) =>
                match skip_ws s2 with
                | String ":"%char s3 =>
                    match parse_value fuel s3 with
                    | Some (v, s4) =>
                        match skip_ws s4 with
                        | String ","%char s5 => parse_members fuel ((k, v) :: acc) s5
                        | String "}"%char s5 => Some (List.rev ((k, v) :: acc), s5)
                        | _ => None
                        end
                    | None => None
                    end
                | _ => None
                end
            | None => None
            end
          else None
      | EmptyString => None
      end
  end.

Definition parse_json (s : string) : option json :=
  match parse_value (S (String.length s)) s with
  | Some (j, rest) => if String.eqb (skip_ws rest) "" then Some j else None
  | None => None
  end.

(** *** The template document as JSON *)

Definition sorted_members {A : Type} (f : A -> json) (m : gmap string A)
  : list (string * json) :=
  List.map (fun kv => (fst kv, f (snd kv)))
    (merge_sort key_le (map_to_list m)).

Definition encode_bound (k : string) (b : option Q) : list (string * json) :=
  match b with
  | Some q => [(k, JNumber q)]
  | None => []
  end.

Definition encode_metrics (c : AnalysisMetrics.t) : json :=
  JObject
    [("provider", JString (AnalysisMetrics.Provider c));
     ("query", JString (AnalysisMetrics.Query c));
     ("expected",
      JObject (encode_bound "min" (AnalysisExpected.Min (AnalysisMetrics.Expected c))
               ++ encode_bound "max" (AnalysisExpected.Max (AnalysisMetrics.Expected c))));
     ("interval", JNumber (inject_Z (AnalysisMetrics.Interval c)));
     ("failureLimit", JNumber (inject_Z (AnalysisMetrics.FailureLimit c)));
     ("skipOnNoData", JBool (AnalysisMetrics.SkipOnNoData c))].

Definition encode_log (c : AnalysisLog.t) : json :=
  JObject
    [("provider", JString (AnalysisLog.Provider c));
     ("query", JString (AnalysisLog.Query c));
     ("interval", JNumber (inject_Z (AnalysisLog.Interval c)));
     ("failureLimit", JNumber (inject_Z (AnalysisLog.FailureLimit c)));
     ("skipOnNoData", JBool (AnalysisLog.SkipOnNoData c))].

Definition encode_http (c : AnalysisHTTP.t) : json :=
  JObject
    [("url", JString (AnalysisHTTP.URL c));
     ("method", JString (AnalysisHTTP.Method c));
     ("expectedCode", JNumber (inject_Z (AnalysisHTTP.ExpectedCode c)));
     ("interval", JNumber (inject_Z (AnalysisHTTP.Interval c)));
     ("failureLimit", JNumber (inject_Z (AnalysisHTTP.FailureLimit c)));
     ("skipOnNoData", JBool (AnalysisHTTP.SkipOnNoData c));
     ("timeout", JNumber (inject_Z (AnalysisHTTP.Timeout c)))].

Definition encode (doc : AnalysisTemplateSpec.t) : json :=
  JObject
    [("metrics", JObject (sorted_members encode_metrics (AnalysisTemplateSpec.Metrics doc)));
     ("logs", JObject (sorted_members encode_log (AnalysisTemplateSpec.Logs doc)));
     ("https", JObject (sorted_members encode_http (AnalysisTemplateSpec.HTTPs doc)))].

Fixpoint member (k : string) (l : list (string * json)) : option json :=
  match l with
  | [] => None
  | (k', v) :: rest => if String.eqb k k' then Some v else member k rest
  end.

(** A member that is absent or null leaves the zero value. *)
Definition get_string (k : string) (l : list (string * json)) : option string :=
  match member k l with
  | None | Some JNull => Some ""
  | Some (JString s) => Some s
  | Some _ => None
  end.

Definition get_int (k : string) (l : list (string * json)) : option Z :=
  match member k l with
  | None | Some JNull => Some 0
  | Some (JNumber q) => if (Qden q =? 1)%positive then Some (Qnum q) else None
  | Some _ => None
  end.

Definition get_bool (k : string) (l : list (string * json)) : option bool :=
  match member k l with
  | None | Some JNull => Some false
  | Some (JBool b) => Some b
  | Some _ => None
  end.

Definition get_bound (k : string) (l : list (string * json)) : option (option Q) :=
  match member k l with
  | None | Some JNull => Some None
  | Some (JNumber q) => Some (Some q)
  | Some _ => None
  end.

Definition get_object (k : string) (l : list (string * json))
  : option (list (string * json)) :=
  match member k l with
  | None | Some JNull => Some []
  | Some (JObject members) => Some members
  | Some _ => None
  end.

Definition decode_metrics (j : json) : option AnalysisMetrics.t :=
  match j with
  | JObject l =>
      provider ← get_string "provider" l;
      query ← get_string "query" l;
      expected ← get_object "expected" l;
      min ← get_bound "min" expected;
      max ← get_bound "max" expected;
      interval ← get_int "interval" l;
      failureLimit ← get_int "failureLimit" l;
      skipOnNoData ← get_bool "skipOnNoData" l;
      Some (AnalysisMetrics.mk provider query (AnalysisExpected.mk min max)
              interval failureLimit skipOnNoData)
  | _ => None
  end.

Definition decode_log (j : json) : option AnalysisLog.t :=
  match j with
  | JObject l =>
      provider ← get_string "provider" l;
      query ← get_string "query" l;
      interval ← get_int "interval" l;
      failureLimit ← get_int "failureLimit" l;
      skipOnNoData ← get_bool "skipOnNoData" l;
      Some (AnalysisLog.mk provider query interval failureLimit skipOnNoData)
  | _ => None
  end.

Definition decode_http (j : json) : option AnalysisHTTP.t :=
  match j with
  | JObject l =>
      url ← get_string "url" l;
      method ← get_string "method" l;
      expectedCode ← get_int "expectedCode" l;
      interval ← get_int "interval" l;
      failureLimit ← get_int "failureLimit" l;
      skipOnNoData ← get_bool "skipOnNoData" l;
      timeout ← get_int "timeout" l;
      Some (AnalysisHTTP.mk url method expectedCode interval failureLimit
              skipOnNoData timeout)
  | _ => None
  end.

Fixpoint decode_map {A : Type} (f : json -> option A) (l : list (string * json))
  : option (gmap string A) :=
  match l with
  | [] => Some ∅
  | (k, j) :: rest =>
      v ← f j;
      m ← decode_map f rest;
      Some (<[k := v]> m)
  end.

Definition decode (j : json) : option AnalysisTemplateSpec.t :=
  match j with
  | JObject l =>
      metrics ← get_object "metrics" l ≫= decode_map decode_metrics;
      logs ← get_object "logs" l ≫= decode_map decode_log;
      https ← get_object "https" l ≫= decode_map decode_http;
      Some (AnalysisTemplateSpec.mk metrics logs https)
  | _ => None
  end.

Definition json_Marshal (doc : AnalysisTemplateSpec.t) : result string :=
  Ok (print_json (encode doc)).

Definition json_Unmarshal (s : string) : AnalysisTemplateSpec.t * option error :=
  match parse_json s ≫= decode with
  | Some doc => (doc, None)
  | None =>
      (AnalysisTemplateSpec.empty,
       Some (ErrNew "json: cannot unmarshal into config.AnalysisTemplateSpec"))
  end.

(** *** The other packages *)

Definition DetermineStageStatus (sig : StopSignalType) (ori got : StageStatus)
  : StageStatus :=
  match sig with
  | StopSignalNone => got
  | StopSignalTerminate => ori
  | StopSignalCancel => STAGE_CANCELLED
  end.

(** A static check needs a bound, a positive interval and a failure
    limit that is not negative. *)
Definition Validate (c : AnalysisMetrics.t) : option error :=
  match AnalysisExpected.Min (AnalysisMetrics.Expected c),
        AnalysisExpected.Max (AnalysisMetrics.Expected c) with
  | None, None => Some (ErrNew "expected range is undefined")
  | _, _ =>
      if AnalysisMetrics.Interval c <=? 0 then Some (ErrNew "interval must be positive")
      else if AnalysisMetrics.FailureLimit c <? 0
      then Some (ErrNew "failureLimit must not be negative")
      else None
  end.

(** The backends behind the providers. *)
Record Backend : Type := mkBackend {
  Points : string -> QueryRange.t -> result (list DataPoint.t);
  LogMatches : Time -> string -> bool;
  StatusCode : Time -> AnalysisHTTP.t -> Z
}.

Definition log_provider (type : string) (b : Backend) : LogProvider.t :=
  LogProvider.mk type
    (fun now query =>
       if LogMatches b now query then (false, "found matched logs", None)
       else (true, "", None)).

Definition http_provider (b : Backend) : HTTPProvider.t :=
  HTTPProvider.mk "HTTP"
    (fun now cfg =>
       if StatusCode b now cfg =? AnalysisHTTP.ExpectedCode cfg then (true, "", None)
       else (false, "unexpected status code", None)).

Definition lib (b : Backend) : Lib :=
  mkLib DetermineStageStatus ParseDuration json_Marshal template_Parse json_Unmarshal
    Validate
    (fun _ cfg => Ok (points_provider (PipedAnalysisProvider.Type_ cfg) (Points b)))
    (fun cfg => Ok (log_provider (PipedAnalysisProvider.Type_ cfg) b))
    (fun _ => http_provider b).

End Ref.

(** ** Reading a run *)

(** The deadline installed on the stage context. *)
Fixpoint installed_deadline (tr : list event) : option Duration :=
  match tr with
  | [] => None
  | WithTimeout timeout :: _ => Some timeout
  | _ :: rest => installed_deadline rest
  end.

(** The stage metadata written, in order. *)
Fixpoint written_metadata (tr : list event) : list (string * gmap string string) :=
  match tr with
  | [] => []
  | SetStageMetadata stageID metadata :: rest =>
      (stageID, metadata) :: written_metadata rest
  | _ :: rest => written_metadata rest
  end.

Definition is_determine (ev : event) : bool :=
  match ev with Call_DetermineStageStatus _ _ _ => true | _ => false end.

Definition is_put_result (ev : event) : bool :=
  match ev with PutLatestAnalysisResult _ => true | _ => false end.

Definition is_returned_error (ev : event) : bool :=
  match ev with Run_returned _ (Some _) => true | _ => false end.

(** What the analyzers had returned when [eg.Wait] returned. *)
Fixpoint returned (tr : list event) : list (string * option error) :=
  match tr with
  | [] => []
  | Run_returned id err :: rest => (id, err) :: returned rest
  | _ :: rest => returned rest
  end.

(** The number of checks a stage configures. *)
Definition configured_checks (options : AnalysisStageOptions.t) : nat :=
  (length (AnalysisStageOptions.Metrics options)
   + length (AnalysisStageOptions.Logs options)
   + length (AnalysisStageOptions.Https options))%nat.

(** The run got as far as computing the deadline: the stage options are
    present, the deploy source was obtained and the template document
    was loaded (or is absent from the repository). *)
Definition reaches_deadline (i : Input.t) (w : World.t)
    (options : AnalysisStageOptions.t) (ds : DeploySource.t) : Prop :=
  Input.StageConfig_AnalysisStageOptions i = Some options /\
  Input.RunningDSP_Get i = Ok ds /\
  match World.LoadAnalysisTemplate w (DeploySource.RepoDir ds) with
  | Ok _ => True
  | Err err => errors_Is err ErrNotFound = true
  end.

(** The template document the stage works with. *)
Definition loaded_template (w : World.t) (ds : DeploySource.t) : AnalysisTemplateSpec.t :=
  match World.LoadAnalysisTemplate w (DeploySource.RepoDir ds) with
  | Ok templateCfg => templateCfg
  | Err _ => AnalysisTemplateSpec.empty
  end.

(** The executor as [Execute] has set it up by the time it builds the
    analyzers. *)
Definition executor_of (L : Lib) (i : Input.t) (w : World.t) (ds : DeploySource.t)
  : Executor.t :=
  let e0 := Executor.mk i (DeploySource.RepoDir ds) (DeploySource.DeploymentConfig ds)
              (World.Now w) 0 in
  Executor.mk i (DeploySource.RepoDir ds) (DeploySource.DeploymentConfig ds)
    (World.Now w) (fst (retrievePreviousElapsedTime L e0)).

(** The timeout [Execute] computes from the configured duration and the
    previous elapsed time. *)
Definition remaining (duration previousElapsedTime : Duration) : Duration :=
  if previousElapsedTime >? 0 then dur_sub duration previousElapsedTime else duration.

(** The string stored under the key [elapsedTime] of the stage
    metadata, when there is one. *)
Definition stored_elapsedTime (i : Input.t) : option string :=
  match Input.MetadataStore_GetStageMetadata i (Input.Stage_Id i) with
  | None => None
  | Some metadata => metadata !! elapsedTimeKey
  end.

(** ** Sample runs

    A Kubernetes application whose stage runs one metrics check taken
    from the template [http_error_rate], against a backend that reports
    the given points at every query. *)

Definition sample_query : string :=
  "rate(errors{job=" +:+ quote "{{ .Args.job }}" +:+ ",ns=" +:+ quote "{{ .K8s.Namespace }}" +:+ "})".

Definition sample_check : AnalysisMetrics.t :=
  AnalysisMetrics.mk "prometheus-dev" sample_query
    (AnalysisExpected.mk None (Some 1%Q)) (1 * Minute) 0 false.

Definition sample_doc : AnalysisTemplateSpec.t :=
  AnalysisTemplateSpec.mk {[ "http_error_rate" := sample_check ]} ∅ ∅.

Definition no_check : AnalysisMetrics.t :=
  AnalysisMetrics.mk "" "" (AnalysisExpected.mk None None) 0 0 false.

Definition sample_options (template : string) (args : gmap string string)
  : AnalysisStageOptions.t :=
  AnalysisStageOptions.mk (30 * Minute)
    [TemplatableAnalysisMetrics.mk no_check (AnalysisTemplateRef.mk template args)]
    [] [].

Definition sample_config : Config.t := Config.mk KindKubernetesApp "".

Definition sample_providers (name : string) : option PipedAnalysisProvider.t :=
  if String.eqb name "prometheus-dev"
  then Some (PipedAnalysisProvider.mk name "PROMETHEUS")
  else None.

Definition sample_input (options : AnalysisStageOptions.t)
    (metadata : option (gmap string string)) : Input.t :=
  Input.mk "stage-1" STAGE_RUNNING (Some options) "demo-app" sample_providers
    (Ok (DeploySource.mk "/repo" sample_config))
    (fun _ => metadata).

Definition sample_backend (values : list Q) : Ref.Backend :=
  Ref.mkBackend
    (fun _ range => Ok (List.map (DataPoint.mk (QueryRange.To range)) values))
    (fun _ _ => false)
    (fun _ _ => 200).

(** The stage is entered at instant 0 and left after [since]; every
    ticker fires once a minute. *)
Definition sample_world (since : Duration) (signal : StopSignalType) : World.t :=
  World.mk 0 since signal (fun _ => Ok sample_doc)
    (fun _ => List.map (fun k => Z.of_nat k * Minute) (seq 1 40))
    None None.

Definition job_foo : gmap string string := {[ "job" := "foo" ]}.

(** A tick that counts as a failure. *)
Definition tick_fails (a : analyzer.t) (now : Time) : Prop :=
  classify_tick a now = TickFailed.

(** The ticks hold [failureLimit + 1] consecutive failing ticks. *)
Definition has_window (a : analyzer.t) (ticks : list Time) : Prop :=
  exists pre failing post,
    ticks = pre ++ failing ++ post /\
    Forall (tick_fails a) failing /\
    Z.of_nat (length failing) = analyzer.failureLimit a + 1.

(** ** References in a template *)

(** A reference to an argument, whichever its name, or to one of the
    three built-in fields. *)
Definition defined_reference (ident : list string) : bool :=
  match ident with
  | [r; f] =>
      String.eqb r "Args"
      || (String.eqb r "App" && (String.eqb f "Name" || String.eqb f "Env"))
      || (String.eqb r "K8s" && String.eqb f "Namespace")
  | _ => false
  end.

Definition only_defined_references (t : Template) : Prop :=
  Forall (fun n => match n with
                   | TextNode _ => True
                   | FieldNode ident => defined_reference ident = true
                   end) t.

(** A reference whose first name is no field of [templateArgs]. *)
Definition refers_outside_context (n : node) : Prop :=
  match n with
  | TextNode _ => False
  | FieldNode [] => False
  | FieldNode (r :: _) =>
      String.eqb r "App" = false /\ String.eqb r "K8s" = false /\
      String.eqb r "Args" = false
  end.

(** What a node contributes to the rendered text. *)
Definition node_text (data : templateArgs.t) (n : node) : string :=
  match n with
  | TextNode text => text
  | FieldNode ident =>
      match evalFieldChain ident (VRoot data) with
      | Ok v => printValue v
      | Err _ => ""
      end
  end.

Definition rendered_text (data : templateArgs.t) (t : Template) : string :=
  fold_left (fun b n => b +:+ node_text data n) t "".

(** The executor of the sample runs. *)
Definition sample_executor : Executor.t :=
  Executor.mk (sample_input (sample_options "http_error_rate" job_foo) None)
    "/repo" sample_config 0 0.

(** The query of the metrics entry [name] of a rendered document. *)
Definition rendered_query (r : result AnalysisTemplateSpec.t) (name : string)
  : option string :=
  match r with
  | Ok doc => AnalysisMetrics.Query <$> (AnalysisTemplateSpec.Metrics doc !! name)
  | Err _ => None
  end.

(** ** Checks that name a missing template

    The check names a template, the document renders with the args of
    the check, and the rendered document has no entry of that name
    among the entries of the kind of the check. *)

Definition missing_metrics_template (L : Lib) (e : Executor.t)
    (templateCfg : AnalysisTemplateSpec.t) (m : TemplatableAnalysisMetrics.t) : Prop :=
  let ref := TemplatableAnalysisMetrics.Template m in
  String.eqb (AnalysisTemplateRef.Name ref) "" = false /\
  exists rendered,
    render L e templateCfg (AnalysisTemplateRef.Args ref) = Ok rendered /\
    AnalysisTemplateSpec.Metrics rendered !! AnalysisTemplateRef.Name ref = None.

Definition missing_log_template (L : Lib) (e : Executor.t)
    (templateCfg : AnalysisTemplateSpec.t) (l : TemplatableAnalysisLog.t) : Prop :=
  let ref := TemplatableAnalysisLog.Template l in
  String.eqb (AnalysisTemplateRef.Name ref) "" = false /\
  exists rendered,
    render L e templateCfg (AnalysisTemplateRef.Args ref) = Ok rendered /\
    AnalysisTemplateSpec.Logs rendered !! AnalysisTemplateRef.Name ref = None.

Definition missing_http_template (L : Lib) (e : Executor.t)
    (templateCfg : AnalysisTemplateSpec.t) (h : TemplatableAnalysisHTTP.t) : Prop :=
  let ref := TemplatableAnalysisHTTP.Template h in
  String.eqb (AnalysisTemplateRef.Name ref) "" = false /\
  exists rendered,
    render L e templateCfg (AnalysisTemplateRef.Args ref) = Ok rendered /\
    AnalysisTemplateSpec.HTTPs rendered !! AnalysisTemplateRef.Name ref = None.

Definition names_missing_template (L : Lib) (e : Executor.t)
    (templateCfg : AnalysisTemplateSpec.t) (options : AnalysisStageOptions.t) : Prop :=
  Exists (missing_metrics_template L e templateCfg) (AnalysisStageOptions.Metrics options) \/
  Exists (missing_log_template L e templateCfg) (AnalysisStageOptions.Logs options) \/
  Exists (missing_http_template L e templateCfg) (AnalysisStageOptions.Https options).

(** ** Bounds and directions *)

(** The value lies within the bounds that are set. *)
Definition within_bounds (expected : AnalysisExpected.t) (p : DataPoint.t) : Prop :=
  (forall min, AnalysisExpected.Min expected = Some min -> (min <= DataPoint.Value p)%Q) /\
  (forall max, AnalysisExpected.Max expected = Some max -> (DataPoint.Value p <= max)%Q).

(** The test is significant and the mean of the experiment is above
    (below) that of the control. *)
Definition significantly_greater (rejects : Q -> bool) (experiment control : list Q)
  : Prop :=
  (2 <= length experiment)%nat /\ (2 <= length control)%nat /\
  significant rejects experiment control = true /\
  (mean control < mean experiment)%Q.

Definition significantly_less (rejects : Q -> bool) (experiment control : list Q)
  : Prop :=
  (2 <= length experiment)%nat /\ (2 <= length control)%nat /\
  significant rejects experiment control = true /\
  (mean experiment < mean control)%Q.

(** The samples of [Test_compare]. *)
Definition sample_low : list Q := [1 # 10; 2 # 10; 3 # 10; 4 # 10; 5 # 10]%Q.
Definition sample_high : list Q := [101 # 10; 102 # 10; 103 # 10; 104 # 10; 105 # 10]%Q.
Definition sample_spike : list Q := [1 # 10; 2 # 10; 53 # 10; 2 # 10; 5 # 10]%Q.
Definition sample_flat : list Q := [1 # 10; 1 # 10; 1 # 10; 1 # 10; 1 # 10]%Q.

(** The check of the sample stage, and the tick of its analyzer at the
    first minute. *)
Definition sample_templatable : TemplatableAnalysisMetrics.t :=
  TemplatableAnalysisMetrics.mk no_check (AnalysisTemplateRef.mk "http_error_rate" job_foo).

Definition sample_tick (values : list Q) : option tick_class :=
  match newAnalyzerForMetrics (Ref.lib (sample_backend values)) sample_executor 0
          sample_templatable sample_doc with
  | Ok a => Some (classify_tick a (1 * Minute))
  | Err _ => None
  end.

(** The dynamic analyzer for the sample template, comparing the canary
    with the baseline. *)
Definition sample_dynamic : result dynamicMetricsAnalyzer.t :=
  newDynamicMetricsAnalyzer strategyCanaryWithBaseline
    (AnalysisDynamicMetrics.mk "http_error_rate" ∅
       {[ "job" := "foo-canary" ]} {[ "job" := "foo" ]})
    sample_doc.

(** The sum of an integer-valued function over a sample. *)
Fixpoint Zsum (f : Q -> Z) (l : list Q) : Z :=
  match l with
  | [] => 0
  | x :: rest => f x + Zsum f rest
  end.

(** ** The analyzers of a stage *)

(** The ids of the analyzers started, in order. *)
Fixpoint started_ids (tr : list event) : list string :=
  match tr with
  | [] => []
  | Go id :: rest => id :: started_ids rest
  | _ :: rest => started_ids rest
  end.

(** The lines written to the log persister as errors, in order. *)
Fixpoint persisted_errors (tr : list event) : list string :=
  match tr with
  | [] => []
  | LogPersister_Error msg :: rest => msg :: persisted_errors rest
  | _ :: rest => persisted_errors rest
  end.

Definition metrics_id (i : nat) : string := "metrics-" +:+ pretty i.
Definition log_id (i : nat) : string := "log-" +:+ pretty i.
Definition http_id (i : nat) : string := "http-" +:+ pretty i.

(** The ids of the analyzers of a stage: for each kind, the indices of
    its checks. *)
Definition analyzer_ids (options : AnalysisStageOptions.t) : list string :=
  map metrics_id (seq 0 (length (AnalysisStageOptions.Metrics options)))
  ++ map log_id (seq 0 (length (AnalysisStageOptions.Logs options)))
  ++ map http_id (seq 0 (length (AnalysisStageOptions.Https options))).

(** The constructor calls [Execute] makes when none of them fails, in
    the order it makes them, each with the name its failure is logged
    under: the provider written in the check itself for a metrics or
    log check, and HTTP for an http check. *)
Definition constructions (L : Lib) (e : Executor.t)
    (options : AnalysisStageOptions.t) (templateCfg : AnalysisTemplateSpec.t)
  : list (string * result analyzer.t) :=
  imap (fun i m =>
          (AnalysisMetrics.Provider (TemplatableAnalysisMetrics.AnalysisMetrics m),
           newAnalyzerForMetrics L e i m templateCfg))
       (AnalysisStageOptions.Metrics options)
  ++ imap (fun i l =>
             (AnalysisLog.Provider (TemplatableAnalysisLog.AnalysisLog l),
              newAnalyzerForLog L e i l templateCfg))
          (AnalysisStageOptions.Logs options)
  ++ imap (fun i h => ("HTTP", newAnalyzerForHTTP L e i h templateCfg))
          (AnalysisStageOptions.Https options).

(** The analyzers among the results of constructor calls. *)
Fixpoint built (l : list (string * result analyzer.t)) : list analyzer.t :=
  match l with
  | [] => []
  | (_, Ok a) :: rest => a :: built rest
  | (_, Err _) :: rest => built rest
  end.

Definition is_built (c : string * result analyzer.t) : Prop := isOk (snd c) = true.

(** The analyzers built before the first constructor call that fails,
    and the line logged for that failure. *)
Fixpoint first_failure (l : list (string * result analyzer.t))
  : list analyzer.t * option string :=
  match l with
  | [] => ([], None)
  | (_, Ok a) :: rest =>
      let '(started, failure) := first_failure rest in (a :: started, failure)
  | (provider, Err err) :: _ => ([], Some (failed_to_spawn provider err))
  end.

(** ** Variations of the surroundings *)

(** The same surroundings with another template loader. *)
Definition with_template (w : World.t)
    (load : string -> result AnalysisTemplateSpec.t) : World.t :=
  World.mk (World.Now w) (World.Since w) (World.Signal w) load (World.Ticks w)
    (World.SetStageMetadata_err w) (World.PutLatestAnalysisResult_err w).

(** The same surroundings with other answers of the two stores. *)
Definition with_stores (w : World.t) (set put : option error) : World.t :=
  World.mk (World.Now w) (World.Since w) (World.Signal w)
    (World.LoadAnalysisTemplate w) (World.Ticks w) set put.

Definition is_logger_error (ev : event) : bool :=
  match ev with Logger_Error _ => true | _ => false end.

(** A run without the lines of the error logger. *)
Definition without_logger_errors (tr : list event) : list event :=
  List.filter (fun ev => negb (is_logger_error ev)) tr.

(** The analysis results stored, in order. *)
Fixpoint stored_results (tr : list event) : list Z :=
  match tr with
  | [] => []
  | PutLatestAnalysisResult StartTime :: rest => StartTime :: stored_results rest
  | _ :: rest => stored_results rest
  end.

(** The metadata a stage finds when it starts after a run that wrote
    [written]: what was written last for the stage. *)
Definition metadata_after (written : list (string * gmap string string))
    (stageID : string) : option (gmap string string) :=
  snd <$> last (List.filter (fun kv => String.eqb (fst kv) stageID) written).

(** ** The config a check stands for

    The config written in the check itself when the check names no
    template, and otherwise the entry of that name, among the entries
    of the kind of the check, in the document rendered with the
    arguments of the check. *)

Definition resolved_metrics (L : Lib) (e : Executor.t)
    (templateCfg : AnalysisTemplateSpec.t) (m : TemplatableAnalysisMetrics.t)
  : option AnalysisMetrics.t :=
  let ref := TemplatableAnalysisMetrics.Template m in
  if String.eqb (AnalysisTemplateRef.Name ref) ""
  then Some (TemplatableAnalysisMetrics.AnalysisMetrics m)
  else
    match render L e templateCfg (AnalysisTemplateRef.Args ref) with
    | Ok rendered => AnalysisTemplateSpec.Metrics rendered !! AnalysisTemplateRef.Name ref
    | Err _ => None
    end.

Definition resolved_log (L : Lib) (e : Executor.t)
    (templateCfg : AnalysisTemplateSpec.t) (l : TemplatableAnalysisLog.t)
  : option AnalysisLog.t :=
  let ref := TemplatableAnalysisLog.Template l in
  if String.eqb (AnalysisTemplateRef.Name ref) ""
  then Some (TemplatableAnalysisLog.AnalysisLog l)
  else
    match render L e templateCfg (AnalysisTemplateRef.Args ref) with
    | Ok rendered => AnalysisTemplateSpec.Logs rendered !! AnalysisTemplateRef.Name ref
    | Err _ => None
    end.

Definition resolved_http (L : Lib) (e : Executor.t)
    (templateCfg : AnalysisTemplateSpec.t) (h : TemplatableAnalysisHTTP.t)
  : option AnalysisHTTP.t :=
  let ref := TemplatableAnalysisHTTP.Template h in
  if String.eqb (AnalysisTemplateRef.Name ref) ""
  then Some (TemplatableAnalysisHTTP.AnalysisHTTP h)
  else
    match render L e templateCfg (AnalysisTemplateRef.Args ref) with
    | Ok rendered => AnalysisTemplateSpec.HTTPs rendered !! AnalysisTemplateRef.Name ref
    | Err _ => None
    end.

(** The settings an analyzer runs with. *)
Definition runs_with (a : analyzer.t) (id query : string) (interval : Duration)
    (failureLimit : Z) (skipOnNoData : bool) : Prop :=
  analyzer.id a = id /\ analyzer.query a = query /\ analyzer.interval a = interval /\
  analyzer.failureLimit a = failureLimit /\ analyzer.skipOnNoData a = skipOnNoData.


(** ** The Lambda deploy executor

    [pkg/app/piped/executor/lambda/deploy.go].  The executor prepares
    the deploy source, the deployment spec and the cloud provider,
    runs the stage, and has the stage status helper decide on the
    status.  [findCloudProvider], [loadFunctionManifest] and [sync]
    are functions of the package that live in another file; a run is
    described by what they answer. *)

Module lambda.

Section Executor.
(** The cloud provider configuration and the function manifest, which
    the executor passes on without looking into them. *)
Variables CloudProviderLambdaConfig FunctionManifest : Type.

(** [config.LambdaDeploymentSpec], as far as the executor reads it. *)
Record LambdaDeploymentSpec : Type := mkSpec {
  Input_FunctionManifestFile : string
}.

(** [deploysource.DeploySource], as far as the executor reads it. *)
Record DeploySource : Type := mkDeploySource {
  DeploymentConfig_LambdaDeploymentSpec : option LambdaDeploymentSpec
}.

(** [executor.Input], as far as the executor reads it. *)
Record Input : Type := mkInput {
  Stage_Name : string;
  Stage_Status : StageStatus;
  TargetDSP_GetReadOnly : result DeploySource
}.

(** The names of the stages in [pkg/model], and what the functions
    outside this file answer. *)
Record Env : Type := mkEnv {
  StageLambdaSync : string;
  StageLambdaPromote : string;
  findCloudProvider : Input -> option (string * CloudProviderLambdaConfig);
  loadFunctionManifest : Input -> string -> DeploySource -> option FunctionManifest;
  sync : Input -> string -> CloudProviderLambdaConfig -> FunctionManifest -> bool;
  DetermineStageStatus : StopSignalType -> StageStatus -> StageStatus -> StageStatus
}.

(** What a run does, in order. *)
Inductive event : Type :=
| LogPersister_Error (msg : string)
| Call_findCloudProvider
| Call_loadFunctionManifest (file : string)
| Call_sync (cloudProviderName : string) (fm : FunctionManifest)
| Call_DetermineStageStatus (sig : StopSignalType) (original got : StageStatus).

(** The [deployExecutor] struct, once [Execute] has filled it in. *)
Record deployExecutor : Type := mkExecutor {
  Input_ : Input;
  deploySource : DeploySource;
  deployCfg : LambdaDeploymentSpec;
  cloudProviderName : string;
  cloudProviderCfg : CloudProviderLambdaConfig
}.

Definition ensureSync (env : Env) (e : deployExecutor) : StageStatus * list event :=
  let file := Input_FunctionManifestFile (deployCfg e) in
  match loadFunctionManifest env (Input_ e) file (deploySource e) with
  | None => (STAGE_FAILURE, [Call_loadFunctionManifest file])
  | Some fm =>
      if negb (sync env (Input_ e) (cloudProviderName e) (cloudProviderCfg e) fm)
      then (STAGE_FAILURE,
            [Call_loadFunctionManifest file; Call_sync (cloudProviderName e) fm])
      else (STAGE_SUCCESS,
            [Call_loadFunctionManifest file; Call_sync (cloudProviderName e) fm])
  end.

Definition ensurePromote (e : deployExecutor) : StageStatus * list event :=
  (STAGE_FAILURE, [LogPersister_Error "This stage is not implemented yet"]).

(** [Execute], with the signal that [sig.Signal] answers when the
    stage has run. *)
Definition Execute (env : Env) (i : Input) (sig : StopSignalType)
  : StageStatus * list event :=
  match TargetDSP_GetReadOnly i with
  | Err err =>
      (STAGE_FAILURE,
       [LogPersister_Error
          ("Failed to prepare target deploy source data (" +:+ Error err +:+ ")")])
  | Ok ds =>
      match DeploymentConfig_LambdaDeploymentSpec ds with
      | None =>
          (STAGE_FAILURE,
           [LogPersister_Error
              "Malformed deployment configuration: missing LambdaDeploymentSpec"])
      | Some deployCfg =>
          match findCloudProvider env i with
          | None => (STAGE_FAILURE, [Call_findCloudProvider])
          | Some (cloudProviderName, cloudProviderCfg) =>
              let e := mkExecutor i ds deployCfg cloudProviderName cloudProviderCfg in
              let originalStatus := Stage_Status i in
              let decide (r : StageStatus * list event) : StageStatus * list event :=
                let '(status, ev) := r in
                (DetermineStageStatus env sig originalStatus status,
                 Call_findCloudProvider :: ev
                 ++ [Call_DetermineStageStatus sig originalStatus status]) in
              if String.eqb (Stage_Name i) (StageLambdaSync env)
              then decide (ensureSync env e)
              else if String.eqb (Stage_Name i) (StageLambdaPromote env)
              then decide (ensurePromote e)
              else
                (STAGE_FAILURE,
                 [Call_findCloudProvider;
                  LogPersister_Error
                    ("Unsupported stage " +:+ Stage_Name i
                     +:+ " for lambda application")])
          end
      end
  end.

(** The calls of [sync] in a run, and the calls of the status helper. *)
Fixpoint synced (tr : list event) : list (string * FunctionManifest) :=
  match tr with
  | [] => []
  | Call_sync name fm :: rest => (name, fm) :: synced rest
  | _ :: rest => synced rest
  end.

Fixpoint decided (tr : list event) : list (StopSignalType * StageStatus * StageStatus) :=
  match tr with
  | [] => []
  | Call_DetermineStageStatus sig original got :: rest =>
      (sig, original, got) :: decided rest
  | _ :: rest => decided rest
  end.

(** The run gets as far as the switch on the stage: the deploy source
    is obtained, it has a Lambda deployment spec, and the cloud
    provider is found. *)
Definition prepares (env : Env) (i : Input) (e : deployExecutor) : Prop :=
  Input_ e = i /\
  TargetDSP_GetReadOnly i = Ok (deploySource e) /\
  DeploymentConfig_LambdaDeploymentSpec (deploySource e) = Some (deployCfg e) /\
  findCloudProvider env i = Some (cloudProviderName e, cloudProviderCfg e).

(** The stage is one the executor runs. *)
Definition supported (env : Env) (i : Input) : bool :=
  String.eqb (Stage_Name i) (StageLambdaSync env)
  || String.eqb (Stage_Name i) (StageLambdaPromote env).

(** The function was synced: the stage is the sync stage, its function
    manifest was loaded and [sync] has accepted it. *)
Definition syncs (env : Env) (e : deployExecutor) (fm : FunctionManifest) : Prop :=
  String.eqb (Stage_Name (Input_ e)) (StageLambdaSync env) = true /\
  loadFunctionManifest env (Input_ e) (Input_FunctionManifestFile (deployCfg e))
    (deploySource e) = Some fm /\
  sync env (Input_ e) (cloudProviderName e) (cloudProviderCfg e) fm = true.

End Executor.

Arguments mkEnv {_ _} _ _ _ _ _ _.
Arguments StageLambdaSync {_ _} _.
Arguments StageLambdaPromote {_ _} _.
Arguments findCloudProvider {_ _} _ _.
Arguments loadFunctionManifest {_ _} _ _ _ _.
Arguments sync {_ _} _ _ _ _ _.
Arguments DetermineStageStatus {_ _} _ _ _ _.
Arguments LogPersister_Error {_} _.
Arguments Call_findCloudProvider {_}.
Arguments Call_loadFunctionManifest {_} _.
Arguments Call_sync {_} _ _.
Arguments Call_DetermineStageStatus {_} _ _ _.
Arguments mkExecutor {_} _ _ _ _ _.
Arguments Input_ {_} _.
Arguments deploySource {_} _.
Arguments deployCfg {_} _.
Arguments cloudProviderName {_} _.
Arguments cloudProviderCfg {_} _.
Arguments ensureSync {_ _} _ _.
Arguments ensurePromote {_ _} _.
Arguments Execute {_ _} _ _ _.
Arguments synced {_} _.
Arguments decided {_} _.
Arguments prepares {_ _} _ _ _.
Arguments supported {_ _} _ _.
Arguments syncs {_ _} _ _ _.

End lambda.

(** ** The Kubernetes executor

    The executor of the Kubernetes stages ([package kubernetes]).  It
    determines how the manifests of the application are templated and
    runs the stage named by the input.  The tool registry, the file
    system, [loadManifests] and [Kubectl.Apply] are outside the file;
    a run is described by what they answer. *)

Module kubernetes.

Definition variantLabel : string := "pipecd.dev/variant".
Definition managedByLabel : string := "pipecd.dev/managed-by".
Definition commitHashLabel : string := "pipecd.dev/commit-hash".
Definition resourceKeyLabel : string := "pipecd.dev/resource-key".
Definition originalAPIKeyLabel : string := "pipecd.dev/original-api-version".
Definition managedByValue : string := "piped".

Definition kustomizationFileName : string := "kustomization.yaml".

Definition TemplatingMethod : Type := string.

Definition TemplatingMethodHelm : TemplatingMethod := "helm".
Definition TemplatingMethodKustomize : TemplatingMethod := "kustomize".
Definition TemplatingMethodNone : TemplatingMethod := "none".

(** The tools the executor finds, each by the path of its binary. *)
Record Kubectl : Type := mkKubectl { Kubectl_execPath : string }.
Record Kustomizectl : Type := mkKustomizectl { Kustomizectl_execPath : string }.
Record Helmctl : Type := mkHelmctl { Helmctl_execPath : string }.

Section Executor.
(** A manifest and a Helm chart reference, which the executor passes on
    without looking into them, the API version and the resource key of
    a manifest apart. *)
Variables Manifest InputHelmChart : Type.

(** The input of [config.KubernetesDeploymentSpec], as far as the
    executor reads it. *)
Record KubernetesDeploymentInput : Type := mkDeploymentInput {
  KubectlVersion : string;
  HelmChart : option InputHelmChart;
  HelmValueFiles : list string;
  HelmVersion : string
}.

Record KubernetesDeploymentSpec : Type := mkSpec {
  Input : KubernetesDeploymentInput
}.

(** [config.Config], as far as the executor reads it. *)
Record Config : Type := mkConfig {
  Config_KubernetesDeploymentSpec : option KubernetesDeploymentSpec
}.

(** [executor.Input], as far as the executor reads it. *)
Record Input_ : Type := mkInput {
  Stage_Name : string;
  RepoDir : string;
  Deployment_GitPath_Path : string;
  Deployment_Trigger_Commit_Hash : string;
  DeploymentConfig : Config
}.

(** The [Executor] struct. *)
Record Executor : Type := mkExecutor {
  Executor_Input : Input_;
  appDirPath : string;
  templatingMethod : TemplatingMethod;
  config : KubernetesDeploymentSpec
}.

(** The names of the stages in [pkg/model], and what the functions
    outside this file answer: a tool of the registry is answered by
    its path and whether it was installed just now, or by an error. *)
Record Env : Type := mkEnv {
  StageK8sPrimaryUpdate : string;
  StageK8sStageRollout : string;
  StageK8sStageClean : string;
  StageK8sBaselineRollout : string;
  StageK8sBaselineClean : string;
  StageK8sTrafficSplit : string;
  filepath_Join : string -> string -> string;
  os_Stat : string -> option error;
  toolregistry_Kubectl : string -> result (string * bool);
  toolregistry_Kustomize : string -> result (string * bool);
  toolregistry_Helm : string -> result (string * bool);
  loadManifests : Executor -> result (list Manifest);
  Kubectl_Apply : Kubectl -> list Manifest -> option error;
  Manifest_APIVersion : Manifest -> string;
  Manifest_ResourceKey : Manifest -> string
}.

(** What a run does, in order. *)
Inductive event : Type :=
| LogPersister_AppendError (msg : string)
| LogPersister_AppendInfo (msg : string)
| LogPersister_AppendSuccess (msg : string)
| Logger_Info (msg : string) (fields : list (string * string))
| AddAnnotations (m : Manifest) (annotations : gmap string string)
| Apply (kubectl : Kubectl) (manifests : list Manifest).

(** [determineTemplatingMethod]; it reads the input of the Kubernetes
    deployment spec without checking that there is one, so that
    without one it panics, which is [None] here. *)
Definition determineTemplatingMethod (env : Env) (deploymentConfig : Config)
    (appDirPath : string) : option TemplatingMethod :=
  match Config_KubernetesDeploymentSpec deploymentConfig with
  | None => None
  | Some spec =>
      let input := Input spec in
      match HelmChart input with
      | Some _ => Some TemplatingMethodHelm
      | None =>
          if (0 <? length (HelmValueFiles input))%nat then Some TemplatingMethodHelm
          else if negb (String.eqb (HelmVersion input) "") then Some TemplatingMethodHelm
          else
            match os_Stat env (filepath_Join env appDirPath kustomizationFileName) with
            | None => Some TemplatingMethodKustomize
            | Some _ => Some TemplatingMethodNone
            end
      end
  end.

Definition findKubectl (env : Env) (version : string) : result Kubectl * list event :=
  match toolregistry_Kubectl env version with
  | Err err =>
      (Err err,
       [LogPersister_AppendError
          ("Failed while installing kubectl " +:+ version +:+ " (" +:+ Error err +:+ ")")])
  | Ok (path, installed) =>
      (Ok (mkKubectl path),
       if installed then
         [LogPersister_AppendInfo
            ("Kubectl " +:+ version
             +:+ " has just been installed because of no pre-installed binary for that version")]
       else [])
  end.

Definition findKustomize (env : Env) (version : string)
  : result Kustomizectl * list event :=
  match toolregistry_Kustomize env version with
  | Err err =>
      (Err err,
       [LogPersister_AppendError
          ("Failed while installing kustomize " +:+ version +:+ " (" +:+ Error err +:+ ")")])
  | Ok (path, installed) =>
      (Ok (mkKustomizectl path),
       if installed then
         [LogPersister_AppendInfo
            ("Kustomize " +:+ version
             +:+ " has just been installed because of no pre-installed binary for that version")]
       else [])
  end.

Definition findHelm (env : Env) (version : string) : result Helmctl * list event :=
  match toolregistry_Helm env version with
  | Err err =>
      (Err err,
       [LogPersister_AppendError
          ("Failed while installing helm " +:+ version +:+ " (" +:+ Error err +:+ ")")])
  | Ok (path, installed) =>
      (Ok (mkHelmctl path),
       if installed then
         [LogPersister_AppendInfo
            ("Helm " +:+ version
             +:+ " has just been installed because of no pre-installed binary for that version")]
       else [])
  end.

(** The annotations [ensurePrimaryUpdate] adds to a manifest. *)
Definition primary_annotations (env : Env) (e : Executor) (m : Manifest)
  : gmap string string :=
  {[ variantLabel := "primary";
     managedByLabel := managedByValue;
     originalAPIKeyLabel := Manifest_APIVersion env m;
     resourceKeyLabel := Manifest_ResourceKey env m;
     commitHashLabel := Deployment_Trigger_Commit_Hash (Executor_Input e) ]}.

Definition ensurePrimaryUpdate (env : Env) (e : Executor) : StageStatus * list event :=
  match findKubectl env (KubectlVersion (Input (config e))) with
  | (Err err, ev) =>
      (STAGE_FAILURE,
       ev ++ [LogPersister_AppendError ("Unabled to find kubectl (" +:+ Error err +:+ ")")])
  | (Ok kubectl, ev) =>
      match loadManifests env e with
      | Err err =>
          (STAGE_FAILURE,
           ev ++ [LogPersister_AppendError
                    ("Unabled to load kubernetes manifests (" +:+ Error err +:+ ")")])
      | Ok manifests =>
          if (length manifests =? 0)%nat then
            (STAGE_FAILURE,
             ev ++ [LogPersister_AppendError "No kubernetes manifests to handle"])
          else
            let ev :=
              ev ++ map (fun m => AddAnnotations m (primary_annotations env e m)) manifests
              ++ [LogPersister_AppendInfo
                    ("Updating " +:+ pretty (length manifests) +:+ " primary resources");
                  Apply kubectl manifests] in
            match Kubectl_Apply env kubectl manifests with
            | Some err =>
                (STAGE_FAILURE,
                 ev ++ [LogPersister_AppendError
                          ("Unabled to update primary variant (" +:+ Error err +:+ ")")])
            | None =>
                (STAGE_SUCCESS,
                 ev ++ [LogPersister_AppendSuccess
                          ("Successfully updated " +:+ pretty (length manifests)
                           +:+ " primary resources")])
            end
      end
  end.

Definition ensureStageRollout (e : Executor) : StageStatus * list event :=
  (STAGE_SUCCESS, []).

Definition ensureStageClean (e : Executor) : StageStatus * list event :=
  (STAGE_SUCCESS, []).

Definition ensureBaselineRollout (e : Executor) : StageStatus * list event :=
  (STAGE_SUCCESS, []).

Definition ensureBaselineClean (e : Executor) : StageStatus * list event :=
  (STAGE_SUCCESS, []).

Definition ensureTrafficSplit (e : Executor) : StageStatus * list event :=
  (STAGE_SUCCESS, []).

Definition ensureRollback (e : Executor) : StageStatus * list event :=
  (STAGE_SUCCESS, []).

Definition generateStageManifests (e : Executor) : StageStatus * list event :=
  (STAGE_SUCCESS, []).

Definition generateBaselineManifests (e : Executor) : StageStatus * list event :=
  (STAGE_SUCCESS, []).

(** [Execute]; [None] is a panic. *)
Definition Execute (env : Env) (i : Input_) : option (StageStatus * list event) :=
  match Config_KubernetesDeploymentSpec (DeploymentConfig i) with
  | None =>
      Some (STAGE_FAILURE,
            [LogPersister_AppendError
               "Malformed deployment configuration: missing KubernetesDeploymentSpec"])
  | Some config =>
      let appDirPath := filepath_Join env (RepoDir i) (Deployment_GitPath_Path i) in
      match determineTemplatingMethod env (DeploymentConfig i) appDirPath with
      | None => None
      | Some templatingMethod =>
          let e := mkExecutor i appDirPath templatingMethod config in
          let started :=
            Logger_Info "start executing kubernetes stage"
              [("stage-name", Stage_Name i);
               ("app-dir-path", appDirPath);
               ("templating-method", templatingMethod)] in
          let run (r : StageStatus * list event) : option (StageStatus * list event) :=
            Some (fst r, started :: snd r) in
          if String.eqb (Stage_Name i) (StageK8sPrimaryUpdate env)
          then run (ensurePrimaryUpdate env e)
          else if String.eqb (Stage_Name i) (StageK8sStageRollout env)
          then run (ensureStageRollout e)
          else if String.eqb (Stage_Name i) (StageK8sStageClean env)
          then run (ensureStageClean e)
          else if String.eqb (Stage_Name i) (StageK8sBaselineRollout env)
          then run (ensureBaselineRollout e)
          else if String.eqb (Stage_Name i) (StageK8sBaselineClean env)
          then run (ensureBaselineClean e)
          else if String.eqb (Stage_Name i) (StageK8sTrafficSplit env)
          then run (ensureTrafficSplit e)
          else
            Some (STAGE_FAILURE,
                  [started;
                   LogPersister_AppendError
                     ("Unsupported stage " +:+ Stage_Name i
                      +:+ " for kubernetes application")])
      end
  end.

(** The manifests applied in a run, the annotations added, and the
    error lines of the log persister. *)
Fixpoint applied (tr : list event) : list (Kubectl * list Manifest) :=
  match tr with
  | [] => []
  | Apply kubectl manifests :: rest => (kubectl, manifests) :: applied rest
  | _ :: rest => applied rest
  end.

Fixpoint annotated (tr : list event) : list (Manifest * gmap string string) :=
  match tr with
  | [] => []
  | AddAnnotations m annotations :: rest => (m, annotations) :: annotated rest
  | _ :: rest => annotated rest
  end.

Fixpoint appended_errors (tr : list event) : list string :=
  match tr with
  | [] => []
  | LogPersister_AppendError msg :: rest => msg :: appended_errors rest
  | _ :: rest => appended_errors rest
  end.

(** One of the Helm settings of the deployment is set. *)
Definition uses_helm (input : KubernetesDeploymentInput) : Prop :=
  is_Some (HelmChart input) \/ HelmValueFiles input <> [] \/ HelmVersion input <> "".

(** The stage is one of the five the executor has no work for. *)
Definition is_placeholder_stage (env : Env) (name : string) : Prop :=
  name <> StageK8sPrimaryUpdate env /\
  (name = StageK8sStageRollout env \/ name = StageK8sStageClean env \/
   name = StageK8sBaselineRollout env \/ name = StageK8sBaselineClean env \/
   name = StageK8sTrafficSplit env).

Definition is_unsupported_stage (env : Env) (name : string) : Prop :=
  name <> StageK8sPrimaryUpdate env /\
  name <> StageK8sStageRollout env /\ name <> StageK8sStageClean env /\
  name <> StageK8sBaselineRollout env /\ name <> StageK8sBaselineClean env /\
  name <> StageK8sTrafficSplit env.

End Executor.

Arguments mkDeploymentInput {_} _ _ _ _.
Arguments mkSpec {_} _.
Arguments mkConfig {_} _.
Arguments mkInput {_} _ _ _ _ _.
Arguments mkEnv {_ _} _ _ _ _ _ _ _ _ _ _ _ _ _ _ _.
Arguments KubectlVersion {_} _.
Arguments HelmChart {_} _.
Arguments HelmValueFiles {_} _.
Arguments HelmVersion {_} _.
Arguments Input {_} _.
Arguments Config_KubernetesDeploymentSpec {_} _.
Arguments Stage_Name {_} _.
Arguments RepoDir {_} _.
Arguments Deployment_GitPath_Path {_} _.
Arguments Deployment_Trigger_Commit_Hash {_} _.
Arguments DeploymentConfig {_} _.
Arguments mkExecutor {_} _ _ _ _.
Arguments Executor_Input {_} _.
Arguments appDirPath {_} _.
Arguments templatingMethod {_} _.
Arguments config {_} _.
Arguments StageK8sPrimaryUpdate {_ _} _.
Arguments StageK8sStageRollout {_ _} _.
Arguments StageK8sStageClean {_ _} _.
Arguments StageK8sBaselineRollout {_ _} _.
Arguments StageK8sBaselineClean {_ _} _.
Arguments StageK8sTrafficSplit {_ _} _.
Arguments filepath_Join {_ _} _ _ _.
Arguments os_Stat {_ _} _ _.
Arguments toolregistry_Kubectl {_ _} _ _.
Arguments toolregistry_Kustomize {_ _} _ _.
Arguments toolregistry_Helm {_ _} _ _.
Arguments loadManifests {_ _} _ _.
Arguments Kubectl_Apply {_ _} _ _ _.
Arguments Manifest_APIVersion {_ _} _ _.
Arguments Manifest_ResourceKey {_ _} _ _.
Arguments LogPersister_AppendError {_} _.
Arguments LogPersister_AppendInfo {_} _.
Arguments LogPersister_AppendSuccess {_} _.
Arguments Logger_Info {_} _ _.
Arguments AddAnnotations {_} _ _.
Arguments Apply {_} _ _.
Arguments determineTemplatingMethod {_ _} _ _ _.
Arguments findKubectl {_ _} _ _.
Arguments findKustomize {_ _} _ _.
Arguments findHelm {_ _} _ _.
Arguments primary_annotations {_ _} _ _ _.
Arguments ensurePrimaryUpdate {_ _} _ _.
Arguments ensureStageRollout {_ _} _.
Arguments ensureStageClean {_ _} _.
Arguments ensureBaselineRollout {_ _} _.
Arguments ensureBaselineClean {_ _} _.
Arguments ensureTrafficSplit {_ _} _.
Arguments ensureRollback {_ _} _.
Arguments generateStageManifests {_ _} _.
Arguments generateBaselineManifests {_ _} _.
Arguments Execute {_ _} _ _.
Arguments applied {_} _.
Arguments annotated {_} _.
Arguments appended_errors {_} _.
Arguments uses_helm {_} _.
Arguments is_placeholder_stage {_ _} _ _.
Arguments is_unsupported_stage {_ _} _ _.

End kubernetes.

(** ** More sample runs *)

(** A metrics check written in the stage itself, for the provider
    [provider]. *)
Definition inline_check (provider : string) : TemplatableAnalysisMetrics.t :=
  TemplatableAnalysisMetrics.mk
    (AnalysisMetrics.mk provider "up" (AnalysisExpected.mk None (Some 1%Q))
       (1 * Minute) 0 false)
    (AnalysisTemplateRef.mk "" ∅).

Definition sample_log : TemplatableAnalysisLog.t :=
  TemplatableAnalysisLog.mk
    (AnalysisLog.mk "prometheus-dev" "severity=ERROR" (1 * Minute) 0 false)
    (AnalysisTemplateRef.mk "" ∅).

Definition sample_http (interval : Duration) (failureLimit : Z)
  : TemplatableAnalysisHTTP.t :=
  TemplatableAnalysisHTTP.mk
    (AnalysisHTTP.mk "http://localhost/healthz" "GET" 200 interval failureLimit false
       (10 * Second))
    (AnalysisTemplateRef.mk "" ∅).

(** A stage with the check of the template and a check for the
    provider [provider]. *)
Definition two_checks (provider : string) : AnalysisStageOptions.t :=
  AnalysisStageOptions.mk (30 * Minute) [sample_templatable; inline_check provider] [] [].

(** A stage with a check of each kind. *)
Definition mixed_checks : AnalysisStageOptions.t :=
  AnalysisStageOptions.mk (30 * Minute)
    [sample_templatable] [sample_log] [sample_http (1 * Minute) 0].

(** A stage with one check, written in the stage itself. *)
Definition inline_only : AnalysisStageOptions.t :=
  AnalysisStageOptions.mk (30 * Minute) [inline_check "prometheus-dev"] [] [].

(** A repository without a template file. *)
Definition no_template_file (w : World.t) : World.t :=
  with_template w (fun _ => Err (ErrWrap "open /repo/.pipe: " ErrNotFound)).

(** A Lambda application whose function manifest loads, and whose sync
    is accepted or not. *)
Definition lambda_env (accepted : bool) : lambda.Env string string :=
  lambda.mkEnv "LAMBDA_SYNC" "LAMBDA_PROMOTE"
    (fun _ => Some ("aws-dev", "ap-northeast-1"))
    (fun _ file _ => Some file)
    (fun _ _ _ _ => accepted)
    Ref.DetermineStageStatus.

Definition lambda_input (stage : string) : lambda.Input :=
  lambda.mkInput stage STAGE_RUNNING
    (Ok (lambda.mkDeploySource (Some (lambda.mkSpec "function.yaml")))).

Definition lambda_executor (stage : string) : lambda.deployExecutor string :=
  lambda.mkExecutor (lambda_input stage)
    (lambda.mkDeploySource (Some (lambda.mkSpec "function.yaml")))
    (lambda.mkSpec "function.yaml") "aws-dev" "ap-northeast-1".

(** A Kubernetes application with two manifests, with or without a
    kustomization file in its directory. *)
Definition kubernetes_env (kustomization : bool) : kubernetes.Env string string :=
  kubernetes.mkEnv "K8S_PRIMARY_UPDATE" "K8S_STAGE_ROLLOUT" "K8S_STAGE_CLEAN"
    "K8S_BASELINE_ROLLOUT" "K8S_BASELINE_CLEAN" "K8S_TRAFFIC_SPLIT"
    (fun dir name => dir +:+ "/" +:+ name)
    (fun _ => if kustomization then None else Some (ErrNew "no such file or directory"))
    (fun version => Ok ("/usr/local/bin/kubectl-" +:+ version, false))
    (fun version => Ok ("/usr/local/bin/kustomize-" +:+ version, false))
    (fun version => Ok ("/usr/local/bin/helm-" +:+ version, false))
    (fun _ => Ok ["deployment.yaml"; "service.yaml"])
    (fun _ _ => None)
    (fun _ => "apps/v1")
    (fun m => "apps/v1/default/" +:+ m).

Definition kubernetes_spec (helmVersion : string)
  : kubernetes.KubernetesDeploymentSpec string :=
  kubernetes.mkSpec (kubernetes.mkDeploymentInput "1.18.2" None [] helmVersion).

Definition kubernetes_input (stage : string) : kubernetes.Input_ string :=
  kubernetes.mkInput stage "/repo" "demo-app" "0123abc"
    (kubernetes.mkConfig (Some (kubernetes_spec ""))).

Definition kubernetes_executor : kubernetes.Executor string :=
  kubernetes.mkExecutor (kubernetes_input "K8S_PRIMARY_UPDATE") "/repo/demo-app"
    kubernetes.TemplatingMethodKustomize (kubernetes_spec "").

(** * Properties *)

Lemma wrap64_id (z : Z) : inInt64 z -> wrap64 z = z.
Proof.
  unfold inInt64, minInt64, maxInt64, wrap64. intros H.
  rewrite Z.mod_small; lia.
Qed.

Lemma wrap64_range (z : Z) : inInt64 (wrap64 z).
Proof.
  unfold inInt64, minInt64, maxInt64, wrap64.
  pose proof (Z.mod_pos_bound (z + 2 ^ 63) (2 ^ 64) ltac:(lia)). lia.
Qed.

Section ExecuteShape.
Context (L : Lib).

(** [Execute] on a run that reaches the deadline: the events of the
    prelude, then those of the analyses under the remaining timeout,
    then the metadata write of the deferred [saveElapsedTime]. *)
Lemma Execute_unfold (i : Input.t) (w : World.t)
    (options : AnalysisStageOptions.t) (ds : DeploySource.t) :
  reaches_deadline i w options ds ->
  exists ev_pre,
    Forall (fun ev => match ev with
                      | Logger_Info _ | Logger_Error _ => True
                      | _ => False
                      end) ev_pre /\
    let e := executor_of L i w ds in
    let timeout :=
      remaining (AnalysisStageOptions.Duration options) (Executor.previousElapsedTime e) in
    Execute L i w =
      (fst (Execute_analyses L e w options (loaded_template w ds) timeout),
       ev_pre ++ snd (Execute_analyses L e w options (loaded_template w ds) timeout)
       ++ saveElapsedTime e w).
Proof.
  intros (Hopt & Hds & Hload).
  unfold Execute, executor_of, loaded_template, remaining. rewrite Hopt, Hds.
  set (e0 := Executor.mk i _ _ _ 0).
  destruct (retrievePreviousElapsedTime L e0) as [prev ev_prev] eqn:Hprev.
  assert (Hlog : Forall (fun ev => match ev with
                      | Logger_Info _ | Logger_Error _ => True
                      | _ => False
                      end) ev_prev).
  { unfold retrievePreviousElapsedTime in Hprev.
    repeat case_match; simplify_eq; repeat constructor. }
  cbn [fst].
  destruct (World.LoadAnalysisTemplate w (DeploySource.RepoDir ds)) as [doc|err].
  - exists ev_prev. split; [done|]. cbn zeta.
    destruct (Execute_analyses _ _ _ _ _ _) as [st tr]. reflexivity.
  - rewrite Hload. exists (Logger_Info "config file for AnalysisTemplate not found" :: ev_prev).
    split; [constructor; done|]. cbn zeta.
    destruct (Execute_analyses _ _ _ _ _ _) as [st tr]. reflexivity.
Qed.

End ExecuteShape.

(** ** Events of a run *)

Lemma installed_deadline_log (pre tr : list event) :
  Forall (fun ev => match ev with
                    | Logger_Info _ | Logger_Error _ => True
                    | _ => False
                    end) pre ->
  installed_deadline (pre ++ tr) = installed_deadline tr.
Proof.
  induction 1 as [|ev pre Hev _ IH]; [done|].
  destruct ev; try done; cbn; exact IH.
Qed.

Lemma written_metadata_app (tr1 tr2 : list event) :
  written_metadata (tr1 ++ tr2) = written_metadata tr1 ++ written_metadata tr2.
Proof.
  induction tr1 as [|ev tr1 IH]; [done|].
  destruct ev; cbn; rewrite ?IH; done.
Qed.

Lemma written_metadata_log (pre : list event) :
  Forall (fun ev => match ev with
                    | Logger_Info _ | Logger_Error _ => True
                    | _ => False
                    end) pre ->
  written_metadata pre = [].
Proof.
  induction 1 as [|ev pre Hev _ IH]; [done|].
  destruct ev; try done; cbn; exact IH.
Qed.

Lemma written_metadata_go (started : list analyzer.t) :
  written_metadata (go_events started) = [].
Proof. induction started; done. Qed.

Lemma written_metadata_returned (results : list (string * option error)) :
  written_metadata (returned_events results) = [].
Proof. induction results; done. Qed.

Section ExecuteEvents.
Context (L : Lib).

Lemma Execute_analyses_deadline (e : Executor.t) (w : World.t)
    (options : AnalysisStageOptions.t) (doc : AnalysisTemplateSpec.t)
    (timeout : Duration) :
  exists rest, snd (Execute_analyses L e w options doc timeout) = WithTimeout timeout :: rest.
Proof.
  unfold Execute_analyses.
  destruct (spawn_all L e options doc) as [started [msg|]]; [eexists; reflexivity|].
  destruct (eg_Wait _); [eexists; reflexivity|].
  destruct (negb _); eexists; reflexivity.
Qed.

Lemma Execute_analyses_writes_nothing (e : Executor.t) (w : World.t)
    (options : AnalysisStageOptions.t) (doc : AnalysisTemplateSpec.t)
    (timeout : Duration) :
  written_metadata (snd (Execute_analyses L e w options doc timeout)) = [].
Proof.
  unfold Execute_analyses.
  destruct (spawn_all L e options doc) as [started [msg|]].
  { cbn. rewrite written_metadata_app, written_metadata_go. done. }
  destruct (eg_Wait _).
  { cbn. rewrite !written_metadata_app, written_metadata_go,
      written_metadata_returned. done. }
  destruct (negb _); cbn;
    rewrite !written_metadata_app, written_metadata_go, written_metadata_returned;
    [done|]. cbn. destruct (World.PutLatestAnalysisResult_err w); done.
Qed.

Lemma saveElapsedTime_writes (e : Executor.t) (w : World.t) :
  written_metadata (saveElapsedTime e w) =
    [(Input.Stage_Id (Executor.Input e),
      {[ elapsedTimeKey :=
           Duration_String (dur_add (World.Since w) (Executor.previousElapsedTime e)) ]})].
Proof.
  unfold saveElapsedTime. cbn. destruct (World.SetStageMetadata_err w); done.
Qed.

Lemma retrievePreviousElapsedTime_decodes (e : Executor.t) :
  fst (retrievePreviousElapsedTime L e) =
    match stored_elapsedTime (Executor.Input e) with
    | None => 0
    | Some s =>
        match ParseDuration L s with
        | Ok et => et
        | Err _ => 0
        end
    end.
Proof.
  unfold retrievePreviousElapsedTime, stored_elapsedTime.
  destruct (Input.MetadataStore_GetStageMetadata _ _) as [metadata|]; [|done].
  destruct (metadata !! elapsedTimeKey) as [s|]; [|done].
  destruct (ParseDuration L s); done.
Qed.

End ExecuteEvents.

(** ** The previous elapsed time and the deadline *)

Section ElapsedTime.
Context (L : Lib).

Lemma Execute_installs_remaining (i : Input.t) (w : World.t)
    (options : AnalysisStageOptions.t) (ds : DeploySource.t) :
  reaches_deadline i w options ds ->
  installed_deadline (snd (Execute L i w)) =
    Some (remaining (AnalysisStageOptions.Duration options)
            (Executor.previousElapsedTime (executor_of L i w ds))).
Proof.
  intros H. destruct (Execute_unfold L i w options ds H) as (pre & Hpre & ->).
  cbn [snd]. rewrite installed_deadline_log by done.
  destruct (Execute_analyses_deadline L (executor_of L i w ds) w options
              (loaded_template w ds)
              (remaining (AnalysisStageOptions.Duration options)
                 (Executor.previousElapsedTime (executor_of L i w ds))))
    as [rest ->].
  reflexivity.
Qed.

Lemma Execute_writes_elapsedTime (i : Input.t) (w : World.t)
    (options : AnalysisStageOptions.t) (ds : DeploySource.t) :
  reaches_deadline i w options ds ->
  written_metadata (snd (Execute L i w)) =
    [(Input.Stage_Id i,
      {[ elapsedTimeKey :=
           Duration_String
             (dur_add (World.Since w)
                (Executor.previousElapsedTime (executor_of L i w ds))) ]})].
Proof.
  intros H. destruct (Execute_unfold L i w options ds H) as (pre & Hpre & ->).
  cbn [snd].
  rewrite !written_metadata_app, written_metadata_log by done.
  rewrite Execute_analyses_writes_nothing, saveElapsedTime_writes.
  reflexivity.
Qed.

(** C9.  At stage start the previous elapsed time is decoded from the
    key [elapsedTime] of the stage metadata.  When the stage has no
    metadata, when the metadata lack the key, or when the stored string
    does not parse as a duration, the previous elapsed time is 0, and
    the deadline installed on the stage context is the full configured
    duration; a string that parses gives the parsed duration. *)
Theorem previous_elapsed_time_defaults_to_zero (i : Input.t) (w : World.t)
    (options : AnalysisStageOptions.t) (ds : DeploySource.t) :
  reaches_deadline i w options ds ->
  let previous := Executor.previousElapsedTime (executor_of L i w ds) in
  let stage_metadata := Input.MetadataStore_GetStageMetadata i (Input.Stage_Id i) in
  let full_duration :=
    previous = 0 /\
    installed_deadline (snd (Execute L i w)) =
      Some (AnalysisStageOptions.Duration options) in
  (stage_metadata = None -> full_duration) /\
  (forall metadata,
      stage_metadata = Some metadata -> metadata !! elapsedTimeKey = None ->
      full_duration) /\
  (forall metadata s err,
      stage_metadata = Some metadata -> metadata !! elapsedTimeKey = Some s ->
      ParseDuration L s = Err err ->
      full_duration) /\
  (forall metadata s et,
      stage_metadata = Some metadata -> metadata !! elapsedTimeKey = Some s ->
      ParseDuration L s = Ok et ->
      previous = et).
Proof.
  intros Hreach previous stage_metadata full_duration.
  assert (Hprev : previous =
            match stored_elapsedTime i with
            | None => 0
            | Some s => match ParseDuration L s with Ok et => et | Err _ => 0 end
            end).
  { subst previous. unfold executor_of. cbn [Executor.previousElapsedTime].
    rewrite retrievePreviousElapsedTime_decodes. reflexivity. }
  assert (Hfull : previous = 0 -> full_duration).
  { intros H0. split; [exact H0|].
    rewrite (Execute_installs_remaining i w options ds Hreach).
    fold previous. rewrite H0. reflexivity. }
  unfold stored_elapsedTime in Hprev. fold stage_metadata in Hprev.
  split; [|split; [|split]].
  - intros Hnone. apply Hfull. rewrite Hprev, Hnone. reflexivity.
  - intros metadata Hsome Hkey. apply Hfull. rewrite Hprev, Hsome, Hkey. reflexivity.
  - intros metadata s err Hsome Hkey Hparse. apply Hfull.
    rewrite Hprev, Hsome, Hkey, Hparse. reflexivity.
  - intros metadata s et Hsome Hkey Hparse.
    rewrite Hprev, Hsome, Hkey, Hparse. reflexivity.
Qed.

(** C2, as the code has it.  On a run that gets as far as computing the
    deadline, with previous elapsed time P and configured duration D:
    the deadline installed on the stage context is D - P when P is
    positive and D otherwise, and the stage metadata written at exit,
    whatever the outcome of the analyses, hold under [elapsedTime] the
    sum of P and the time elapsed since the start (both in int64
    arithmetic, which is exact when the result is in range). *)
Theorem deadline_and_elapsed_time (i : Input.t) (w : World.t)
    (options : AnalysisStageOptions.t) (ds : DeploySource.t) :
  reaches_deadline i w options ds ->
  let P := Executor.previousElapsedTime (executor_of L i w ds) in
  let D := AnalysisStageOptions.Duration options in
  let run := snd (Execute L i w) in
  installed_deadline run = Some (if P >? 0 then dur_sub D P else D) /\
  (0 < P -> inInt64 (D - P) -> installed_deadline run = Some (D - P)) /\
  written_metadata run =
    [(Input.Stage_Id i,
      {[ elapsedTimeKey := Duration_String (dur_add (World.Since w) P) ]})] /\
  (inInt64 (World.Since w + P) -> dur_add (World.Since w) P = World.Since w + P).
Proof.
  intros Hreach P D run.
  pose proof (Execute_installs_remaining i w options ds Hreach) as Hd.
  fold P D run in Hd. unfold remaining in Hd.
  split; [|split; [|split]].
  - exact Hd.
  - intros HP Hrange. rewrite Hd.
    destruct (Z.gtb_spec P 0); [|lia].
    unfold dur_sub. rewrite wrap64_id by done. reflexivity.
  - apply (Execute_writes_elapsedTime i w options ds Hreach).
  - intros Hrange. unfold dur_add. apply wrap64_id, Hrange.
Qed.

(** A run that ends before the deadline is computed installs no
    deadline and writes no metadata. *)
Lemma early_exit_writes_nothing (i : Input.t) (w : World.t) :
  (Input.StageConfig_AnalysisStageOptions i = None \/
   isErr (Input.RunningDSP_Get i) = true \/
   (exists ds err,
       Input.RunningDSP_Get i = Ok ds /\
       World.LoadAnalysisTemplate w (DeploySource.RepoDir ds) = Err err /\
       errors_Is err ErrNotFound = false)) ->
  fst (Execute L i w) = STAGE_FAILURE /\
  installed_deadline (snd (Execute L i w)) = None /\
  written_metadata (snd (Execute L i w)) = [].
Proof.
  unfold Execute. intros [H|[H|(ds & err & Hds & Hload & Hnf)]].
  - rewrite H. done.
  - destruct (Input.StageConfig_AnalysisStageOptions i); [|done].
    destruct (Input.RunningDSP_Get i); [done|]. done.
  - destruct (Input.StageConfig_AnalysisStageOptions i); [|done].
    rewrite Hds, Hload, Hnf. done.
Qed.

End ElapsedTime.

(** The resume scenario: a stage of 30 minutes that has run for 20
    gets a deadline of 10 minutes, and after 10 more minutes 30 minutes
    are stored. *)
Lemma deadline_and_elapsed_time_resume :
  let L := Ref.lib (sample_backend [(9 # 10)%Q]) in
  let options := sample_options "http_error_rate" job_foo in
  let i := sample_input options (Some {[ "elapsedTime" := "20m0s" ]}) in
  let w := sample_world (10 * Minute) StopSignalNone in
  let ds := DeploySource.mk "/repo" sample_config in
  reaches_deadline i w options ds /\
  installed_deadline (snd (Execute L i w)) = Some (10 * Minute) /\
  written_metadata (snd (Execute L i w)) = [("stage-1", {[ "elapsedTime" := "30m0s" ]})].
Proof.
  intros L options i w ds.
  assert (H : reaches_deadline i w options ds) by (vm_compute; auto).
  split; [exact H|].
  destruct (deadline_and_elapsed_time L i w options ds H) as (_ & Hd & Hw & _).
  split.
  - rewrite Hd; [reflexivity|vm_compute; reflexivity|vm_compute; split; discriminate].
  - rewrite Hw. vm_compute. reflexivity.
Defined.

(** C2 as stated fails when the stored elapsed time is negative: with a
    duration of 30 minutes and a stored "-1m0s" the previous elapsed
    time is -1 minute and D - P is 31 minutes, but the deadline
    installed is 30 minutes. *)
Lemma deadline_is_not_D_minus_P_for_negative_P :
  let L := Ref.lib (sample_backend [(9 # 10)%Q]) in
  let options := sample_options "http_error_rate" job_foo in
  let i := sample_input options (Some {[ "elapsedTime" := "-1m0s" ]}) in
  let w := sample_world (10 * Minute) StopSignalNone in
  let ds := DeploySource.mk "/repo" sample_config in
  Executor.previousElapsedTime (executor_of L i w ds) = - (1 * Minute) /\
  AnalysisStageOptions.Duration options
    - Executor.previousElapsedTime (executor_of L i w ds) = 31 * Minute /\
  installed_deadline (snd (Execute L i w)) = Some (30 * Minute).
Proof. vm_compute. auto. Qed.

(** A stage without metadata starts with the full duration. *)
Lemma previous_elapsed_time_no_metadata :
  let L := Ref.lib (sample_backend [(9 # 10)%Q]) in
  let options := sample_options "http_error_rate" job_foo in
  let i := sample_input options None in
  let w := sample_world (10 * Minute) StopSignalNone in
  let ds := DeploySource.mk "/repo" sample_config in
  reaches_deadline i w options ds /\
  Executor.previousElapsedTime (executor_of L i w ds) = 0 /\
  installed_deadline (snd (Execute L i w)) = Some (30 * Minute).
Proof.
  intros L options i w ds.
  assert (H : reaches_deadline i w options ds) by (vm_compute; auto).
  split; [exact H|].
  destruct (previous_elapsed_time_defaults_to_zero L i w options ds H) as (Hnone & _).
  apply Hnone. reflexivity.
Defined.

(** ** Analyzer errors and the stage status *)

Lemma existsb_log (f : event -> bool) (pre : list event) :
  (forall msg, f (Logger_Info msg) = false) ->
  (forall msg, f (Logger_Error msg) = false) ->
  Forall (fun ev => match ev with
                    | Logger_Info _ | Logger_Error _ => True
                    | _ => False
                    end) pre ->
  existsb f pre = false.
Proof.
  intros Hi He. induction 1 as [|ev pre Hev _ IH]; [done|].
  destruct ev; try done; cbn; rewrite ?Hi, ?He; exact IH.
Qed.

Lemma existsb_go (f : event -> bool) (started : list analyzer.t) :
  (forall id, f (Go id) = false) -> existsb f (go_events started) = false.
Proof.
  intros H. unfold go_events.
  induction started as [|a l IH]; [done|]. cbn. by rewrite H.
Qed.

Lemma returned_app (tr1 tr2 : list event) :
  returned (tr1 ++ tr2) = returned tr1 ++ returned tr2.
Proof.
  induction tr1 as [|ev tr1 IH]; [done|].
  destruct ev; cbn; rewrite ?IH; done.
Qed.

Lemma returned_log (pre : list event) :
  Forall (fun ev => match ev with
                    | Logger_Info _ | Logger_Error _ => True
                    | _ => False
                    end) pre ->
  returned pre = [].
Proof.
  induction 1 as [|ev pre Hev _ IH]; [done|].
  destruct ev; try done; cbn; exact IH.
Qed.

Lemma returned_go (started : list analyzer.t) : returned (go_events started) = [].
Proof. induction started; done. Qed.

Lemma returned_returned_events (results : list (string * option error)) :
  returned (returned_events results) = results.
Proof.
  unfold returned_events.
  induction results as [|[id err] l IH]; [done|]. cbn. by rewrite IH.
Qed.

Lemma eg_Wait_None (results : list (string * option error)) :
  eg_Wait (map snd results) = None <-> Forall (fun r => snd r = None) results.
Proof.
  induction results as [|[id [err|]] l IH]; cbn.
  - split; constructor.
  - split; [done|]. inversion 1; done.
  - rewrite IH. split; [by constructor|]. by inversion 1.
Qed.

Lemma existsb_returned_error (results : list (string * option error)) :
  existsb is_returned_error (returned_events results) = false <->
  Forall (fun r => snd r = None) results.
Proof.
  unfold returned_events.
  induction results as [|[id [err|]] l IH]; cbn.
  - split; constructor.
  - split; [done|]. inversion 1; done.
  - rewrite IH. split; [by constructor|]. by inversion 1.
Qed.

Lemma existsb_returned_events (f : event -> bool)
    (results : list (string * option error)) :
  (forall id err, f (Run_returned id err) = false) ->
  existsb f (returned_events results) = false.
Proof.
  intros H. unfold returned_events.
  induction results as [|r l IH]; [done|]. cbn. by rewrite H.
Qed.

Lemma spawn_length {A : Type} (new : nat -> A -> result analyzer.t)
    (i : nat) (l : list A) (started : list analyzer.t) :
  spawn new i l = (started, None) -> length started = length l.
Proof.
  revert i started. induction l as [|x l IH]; intros i started; cbn.
  - by intros [= <-].
  - destruct (new i x) as [a|err]; [|done].
    destruct (spawn new (S i) l) as [st fl] eqn:Hs.
    intros [= <- ->]. cbn. f_equal. by eapply IH.
Qed.

Section Verdict.
Context (L : Lib).

Lemma spawn_all_length (e : Executor.t) (options : AnalysisStageOptions.t)
    (doc : AnalysisTemplateSpec.t) (started : list analyzer.t) :
  spawn_all L e options doc = (started, None) ->
  length started = configured_checks options.
Proof.
  unfold spawn_all, configured_checks.
  destruct (spawn _ 0 (AnalysisStageOptions.Metrics options))
    as [ms [[m err]|]] eqn:Hm; [done|].
  destruct (spawn _ 0 (AnalysisStageOptions.Logs options))
    as [ls [[l err]|]] eqn:Hl; [done|].
  destruct (spawn _ 0 (AnalysisStageOptions.Https options))
    as [hs [[h err]|]] eqn:Hh; [done|].
  intros [= <-]. rewrite !length_app.
  rewrite (spawn_length _ _ _ _ Hm), (spawn_length _ _ _ _ Hl),
    (spawn_length _ _ _ _ Hh). lia.
Qed.

(** The three ways the analyses end. *)
Lemma Execute_analyses_cases (e : Executor.t) (w : World.t)
    (options : AnalysisStageOptions.t) (doc : AnalysisTemplateSpec.t)
    (timeout : Duration) :
  let st := fst (Execute_analyses L e w options doc timeout) in
  let tr := snd (Execute_analyses L e w options doc timeout) in
  (* an analyzer could not be built *)
  (st = STAGE_FAILURE /\ returned tr = [] /\
   existsb is_returned_error tr = false /\
   existsb is_determine tr = false /\ existsb is_put_result tr = false) \/
  (* an analyzer returned an error *)
  (st = STAGE_FAILURE /\ existsb is_returned_error tr = true /\
   existsb is_determine tr = false /\ existsb is_put_result tr = false) \/
  (* every analyzer was built and returned nil *)
  (st = DetermineStageStatus L (World.Signal w)
          (Input.Stage_Status (Executor.Input e)) STAGE_SUCCESS /\
   existsb is_returned_error tr = false /\
   Forall (fun r => snd r = None) (returned tr) /\
   length (returned tr) = configured_checks options /\
   existsb is_determine tr = true /\
   existsb is_put_result tr = bool_decide (st = STAGE_SUCCESS)).
Proof.
  unfold Execute_analyses.
  destruct (spawn_all L e options doc) as [started [msg|]] eqn:Hspawn.
  { left. cbn. rewrite !existsb_app, !existsb_go, returned_app, returned_go by done.
    cbn. done. }
  set (results := run_analyzers w timeout started).
  assert (Hlen : length results = configured_checks options).
  { unfold results, run_analyzers. rewrite length_map.
    by apply (spawn_all_length e options doc). }
  destruct (eg_Wait (map snd results)) as [err|] eqn:Hwait.
  { right; left. cbn.
    rewrite !existsb_app, !existsb_go by done.
    rewrite (existsb_returned_events is_determine),
      (existsb_returned_events is_put_result) by done.
    repeat split; try done.
    destruct (existsb is_returned_error (returned_events results)) eqn:Hex;
      [by rewrite orb_true_r|].
    apply existsb_returned_error, eg_Wait_None in Hex. congruence. }
  right; right.
  pose proof (proj1 (eg_Wait_None results) Hwait) as Hall.
  pose proof (proj2 (existsb_returned_error results) Hall) as Hnoerr.
  destruct (decide (DetermineStageStatus L (World.Signal w)
                      (Input.Stage_Status (Executor.Input e)) STAGE_SUCCESS
                    = STAGE_SUCCESS)) as [Heq|Hne].
  - rewrite (bool_decide_eq_true_2 _ Heq). cbn [negb fst snd].
    rewrite !existsb_app, !returned_app, !existsb_go, returned_go,
      returned_returned_events, Hnoerr by done.
    rewrite (existsb_returned_events is_determine),
      (existsb_returned_events is_put_result) by done.
    cbn. rewrite Heq.
    destruct (World.PutLatestAnalysisResult_err w); cbn;
      rewrite ?app_nil_r; repeat split; done.
  - rewrite (bool_decide_eq_false_2 _ Hne). cbn [negb fst snd].
    rewrite !existsb_app, !returned_app, !existsb_go, returned_go,
      returned_returned_events, Hnoerr by done.
    rewrite (existsb_returned_events is_determine),
      (existsb_returned_events is_put_result) by done.
    cbn. rewrite ?app_nil_r, (bool_decide_eq_false_2 _ Hne). repeat split; done.
Qed.

End Verdict.

Lemma existsb_saveElapsedTime (f : event -> bool) (e : Executor.t) (w : World.t) :
  (forall id metadata, f (SetStageMetadata id metadata) = false) ->
  (forall msg, f (Logger_Error msg) = false) ->
  existsb f (saveElapsedTime e w) = false.
Proof.
  intros Hs He. unfold saveElapsedTime. cbn. rewrite Hs.
  destruct (World.SetStageMetadata_err w); cbn; rewrite ?He; done.
Qed.

Lemma returned_saveElapsedTime (e : Executor.t) (w : World.t) :
  returned (saveElapsedTime e w) = [].
Proof.
  unfold saveElapsedTime. cbn. destruct (World.SetStageMetadata_err w); done.
Qed.

Section StageVerdict.
Context (L : Lib).

(** The three ways a run of [Execute] ends, read off its events. *)
Lemma Execute_cases (i : Input.t) (w : World.t) :
  let st := fst (Execute L i w) in
  let tr := snd (Execute L i w) in
  (* the stage ended before any analyzer was waited for *)
  (st = STAGE_FAILURE /\ returned tr = [] /\
   existsb is_returned_error tr = false /\
   existsb is_determine tr = false /\ existsb is_put_result tr = false) \/
  (* an analyzer returned an error *)
  (st = STAGE_FAILURE /\ existsb is_returned_error tr = true /\
   existsb is_determine tr = false /\ existsb is_put_result tr = false) \/
  (* every analyzer was built and returned nil *)
  (exists options,
      Input.StageConfig_AnalysisStageOptions i = Some options /\
      st = DetermineStageStatus L (World.Signal w) (Input.Stage_Status i) STAGE_SUCCESS /\
      existsb is_returned_error tr = false /\
      Forall (fun r => snd r = None) (returned tr) /\
      length (returned tr) = configured_checks options /\
      existsb is_determine tr = true /\
      existsb is_put_result tr = bool_decide (st = STAGE_SUCCESS)).
Proof.
  intros st tr.
  destruct (Input.StageConfig_AnalysisStageOptions i) as [options|] eqn:Hopt;
    [|left; subst st tr; unfold Execute; rewrite Hopt; done].
  destruct (Input.RunningDSP_Get i) as [ds|err] eqn:Hds;
    [|left; subst st tr; unfold Execute; rewrite Hopt, Hds; done].
  assert (Hreach : reaches_deadline i w options ds \/
                   exists err,
                     World.LoadAnalysisTemplate w (DeploySource.RepoDir ds) = Err err /\
                     errors_Is err ErrNotFound = false).
  { unfold reaches_deadline.
    destruct (World.LoadAnalysisTemplate w (DeploySource.RepoDir ds)) as [doc|err];
      [by left|].
    destruct (errors_Is err ErrNotFound) eqn:Hnf; [by left|right; by exists err]. }
  destruct Hreach as [Hreach|(err & Hload & Hnf)];
    [|left; subst st tr; unfold Execute; rewrite Hopt, Hds, Hload, Hnf; done].
  destruct (Execute_unfold L i w options ds Hreach) as (pre & Hpre & Heq).
  cbn zeta in Heq. subst st tr. rewrite Heq. cbn [fst snd].
  set (e := executor_of L i w ds).
  set (timeout := remaining _ _).
  rewrite !existsb_app, !returned_app, (returned_log pre Hpre),
    returned_saveElapsedTime, !existsb_saveElapsedTime, !(existsb_log _ pre) by done.
  rewrite !orb_false_r, app_nil_r. cbn [app orb].
  destruct (Execute_analyses_cases L e w options (loaded_template w ds) timeout)
    as [Hbuild|[Herror|(Hst & Hrest)]].
  - by left.
  - right. by left.
  - right. right. exists options. split; [done|]. split; [exact Hst|exact Hrest].
Qed.

(** C10.  When an analyzer has returned an error, [Execute] returns
    STAGE_FAILURE, whatever [DetermineStageStatus] would answer: the
    helper is not called and no analysis result is stored.  The helper
    is called only on a run in which every configured check got its
    analyzer and every analyzer returned nil, and its answer is then the
    status of the stage; the analysis result is stored only after the
    helper was called and answered STAGE_SUCCESS. *)
Theorem analyzer_error_bypasses_DetermineStageStatus (i : Input.t) (w : World.t) :
  let st := fst (Execute L i w) in
  let tr := snd (Execute L i w) in
  (existsb is_returned_error tr = true ->
     st = STAGE_FAILURE /\
     existsb is_determine tr = false /\ existsb is_put_result tr = false) /\
  (existsb is_determine tr = true ->
     Forall (fun r => snd r = None) (returned tr) /\
     (forall options,
         Input.StageConfig_AnalysisStageOptions i = Some options ->
         length (returned tr) = configured_checks options) /\
     st = DetermineStageStatus L (World.Signal w) (Input.Stage_Status i) STAGE_SUCCESS) /\
  (existsb is_put_result tr = true ->
     existsb is_determine tr = true /\ st = STAGE_SUCCESS).
Proof.
  intros st tr.
  destruct (Execute_cases i w)
    as [(Hst & _ & Hre & Hdet & Hput)
       |[(Hst & Hre & Hdet & Hput)
        |(options & Hopt & Hst & Hre & Hall & Hlen & Hdet & Hput)]];
    fold st tr in Hst, Hre, Hdet, Hput |- *.
  - rewrite Hre, Hdet, Hput. repeat split; discriminate.
  - rewrite Hdet, Hput. repeat split; first [done | discriminate].
  - fold tr in Hall, Hlen. rewrite Hre, Hdet, Hput.
    split; [discriminate|]. split.
    + intros _. split; [exact Hall|]. split; [|exact Hst].
      intros options' Hopt'. congruence.
    + intros Hsuccess. split; [reflexivity|].
      by apply bool_decide_eq_true_1 in Hsuccess.
Qed.

End StageVerdict.

(** A run in which the only analyzer fails on its first tick. *)
Lemma analyzer_error_fails_the_stage :
  let L := Ref.lib (sample_backend [(11 # 10)%Q]) in
  let options := sample_options "http_error_rate" job_foo in
  let i := sample_input options None in
  let w := sample_world (1 * Minute) StopSignalNone in
  existsb is_returned_error (snd (Execute L i w)) = true /\
  fst (Execute L i w) = STAGE_FAILURE /\
  existsb is_determine (snd (Execute L i w)) = false /\
  existsb is_put_result (snd (Execute L i w)) = false.
Proof.
  intros L options i w.
  assert (H : existsb is_returned_error (snd (Execute L i w)) = true)
    by (vm_compute; reflexivity).
  split; [exact H|].
  destruct (analyzer_error_bypasses_DetermineStageStatus L i w) as (Herr & _).
  exact (Herr H).
Defined.

(** ** The failure limit *)

Section FailureLimit.
Variable a : analyzer.t.
Local Abbreviation F := (analyzer.failureLimit a).

Lemma run_tolerated (failing rest : list Time) (c : Z) :
  Forall (tick_fails a) failing ->
  c + Z.of_nat (length failing) <= F ->
  analyzer_run_from a c (failing ++ rest) =
    (fst (analyzer_run_from a (c + Z.of_nat (length failing)) rest),
     (length failing + snd (analyzer_run_from a (c + Z.of_nat (length failing)) rest))%nat).
Proof.
  intros Hfail. revert c.
  induction Hfail as [|t failing Ht _ IH]; intros c Hc.
  - cbn. rewrite Z.add_0_r. by destruct (analyzer_run_from a c rest).
  - cbn [length app analyzer_run_from] in *. rewrite Ht.
    fold F. destruct (Z.gtb_spec (c + 1) F) as [Hgt|Hle]; [lia|].
    rewrite IH by lia.
    replace (c + 1 + Z.of_nat (length failing))
      with (c + Z.of_nat (S (length failing))) by lia.
    reflexivity.
Qed.

Lemma run_exceeds (failing rest : list Time) (c : Z) :
  Forall (tick_fails a) failing ->
  c + Z.of_nat (length failing) = F + 1 ->
  c <= F ->
  analyzer_run_from a c (failing ++ rest) =
    (Some (failure_limit_exceeded a), length failing).
Proof.
  intros Hfail. revert c.
  induction Hfail as [|t failing Ht _ IH]; intros c Hc HcF.
  - cbn in Hc. lia.
  - cbn [length app analyzer_run_from] in *. rewrite Ht. fold F.
    destruct (Z.gtb_spec (c + 1) F) as [Hgt|Hle].
    + destruct failing; [reflexivity|cbn [length] in Hc; lia].
    + rewrite IH by lia. reflexivity.
Qed.

Lemma has_window_cons (t : Time) (ticks : list Time) :
  has_window a ticks -> has_window a (t :: ticks).
Proof.
  intros (pre & failing & post & -> & Hf & Hl).
  exists (t :: pre), failing, post. done.
Qed.

Lemma run_errors_iff (ticks : list Time) (c : Z) :
  0 <= c <= F ->
  is_Some (fst (analyzer_run_from a c ticks)) <->
  (exists failing post,
      ticks = failing ++ post /\
      Forall (tick_fails a) failing /\
      Z.of_nat (length failing) = F + 1 - c) \/
  has_window a ticks.
Proof.
  revert c. induction ticks as [|t ticks IH]; intros c Hc.
  - cbn. split; [by intros [? ?]|].
    intros [(failing & post & Heq & _ & Hl)|(pre & failing & post & Heq & _ & Hl)].
    + symmetry in Heq. apply app_eq_nil in Heq as [-> _]. cbn in Hl. lia.
    + symmetry in Heq. apply app_eq_nil in Heq as [_ Heq].
      apply app_eq_nil in Heq as [-> _]. cbn in Hl. lia.
  - cbn [analyzer_run_from].
    assert (Hquiet : classify_tick a t <> TickFailed ->
              is_Some (fst (analyzer_run_from a 0 ticks)) <->
              (exists failing post,
                  t :: ticks = failing ++ post /\
                  Forall (tick_fails a) failing /\
                  Z.of_nat (length failing) = F + 1 - c) \/
              has_window a (t :: ticks)).
    { intros Hok. rewrite (IH 0) by lia. split.
      - intros [(failing & post & -> & Hf & Hl)|Hw].
        + right. exists [t], failing, post. split; [done|]. split; [done|lia].
        + right. by apply has_window_cons.
      - intros [(failing & post & Heq & Hf & Hl)|(pre & failing & post & Heq & Hf & Hl)].
        + destruct failing as [|t' failing]; [cbn in Hl; lia|].
          cbn in Heq. injection Heq as <- _. by inversion Hf.
        + destruct pre as [|t' pre].
          * destruct failing as [|t' failing]; [cbn in Hl; lia|].
            cbn in Heq. injection Heq as <- _. by inversion Hf.
          * cbn in Heq. injection Heq as <- ->. right.
            by exists pre, failing, post. }
    destruct (classify_tick a t) eqn:Ht.
    + destruct (analyzer_run_from a 0 ticks) as [r n] eqn:Hrun.
      cbn [fst] in *. by apply Hquiet.
    + destruct (analyzer_run_from a 0 ticks) as [r n] eqn:Hrun.
      cbn [fst] in *. by apply Hquiet.
    + clear Hquiet. fold F.
      destruct (Z.gtb_spec (c + 1) F) as [Hgt|Hle].
      * cbn. split; [intros _|by eexists].
        left. exists [t], ticks. split; [done|]. split; [by repeat constructor|].
        cbn. lia.
      * destruct (analyzer_run_from a (c + 1) ticks) as [r n] eqn:Hrun.
        cbn [fst]. replace r with (fst (analyzer_run_from a (c + 1) ticks))
          by (by rewrite Hrun).
        rewrite (IH (c + 1)) by lia. split.
        -- intros [(failing & post & -> & Hf & Hl)|Hw].
           ++ left. exists (t :: failing), post. split; [done|].
              split; [by constructor|]. cbn [length]. lia.
           ++ right. by apply has_window_cons.
        -- intros [(failing & post & Heq & Hf & Hl)|(pre & failing & post & Heq & Hf & Hl)].
           ++ destruct failing as [|t' failing]; [cbn in Hl; lia|].
              cbn in Heq. injection Heq as <- ->. left.
              exists failing, post. split; [done|]. split; [by inversion Hf|].
              cbn [length] in Hl. lia.
           ++ destruct pre as [|t' pre].
              ** destruct failing as [|t' failing]; [cbn in Hl; lia|].
                 cbn in Heq. injection Heq as <- ->. left.
                 inversion Hf as [|? ? _ Hf']; subst.
                 exists (take (Z.to_nat (F - c)) failing),
                        (drop (Z.to_nat (F - c)) failing ++ post).
                 split; [by rewrite app_assoc, take_drop|].
                 split; [by apply Forall_take|].
                 rewrite length_take. cbn [length] in Hl. lia.
              ** cbn in Heq. injection Heq as <- ->. right.
                 by exists pre, failing, post.
Qed.

(** C1.  With a failure limit F (not negative): counting from a tick
    that did not fail, the analyzer returns its error at the (F+1)th
    consecutive failing tick, having evaluated exactly those ticks; F or
    fewer consecutive failing ticks are tolerated, whether the context
    then ends or a tick that does not fail follows, after which the
    count starts again; and a run returns an error exactly when its
    ticks hold F+1 consecutive failing ones. *)
Theorem failure_limit_is_exact :
  0 <= F ->
  (forall failing rest,
      Forall (tick_fails a) failing -> Z.of_nat (length failing) = F + 1 ->
      analyzer_run_from a 0 (failing ++ rest) =
        (Some (failure_limit_exceeded a), length failing)) /\
  (forall failing,
      Forall (tick_fails a) failing -> Z.of_nat (length failing) <= F ->
      analyzer_run_from a 0 failing = (None, length failing)) /\
  (forall failing t rest,
      Forall (tick_fails a) failing -> Z.of_nat (length failing) <= F ->
      classify_tick a t <> TickFailed ->
      analyzer_run_from a 0 (failing ++ t :: rest) =
        (fst (analyzer_run_from a 0 rest),
         (length failing + 1 + snd (analyzer_run_from a 0 rest))%nat)) /\
  (forall ticks, is_Some (analyzer_run a ticks) <-> has_window a ticks).
Proof.
  intros HF. split; [|split; [|split]].
  - intros failing rest Hf Hl. apply run_exceeds; [done|lia|lia].
  - intros failing Hf Hl.
    rewrite <- (app_nil_r failing) at 1. rewrite run_tolerated by (done || lia).
    cbn. f_equal. lia.
  - intros failing t rest Hf Hl Ht.
    rewrite run_tolerated by (done || lia).
    cbn [analyzer_run_from].
    destruct (classify_tick a t); [| |done];
      destruct (analyzer_run_from a 0 rest) as [r n]; cbn; f_equal; lia.
  - intros ticks. unfold analyzer_run. rewrite (run_errors_iff ticks 0) by lia.
    split; [|by right].
    intros [(failing & post & -> & Hf & Hl)|Hw]; [|done].
    exists [], failing, post. split; [done|]. split; [done|]. fold F. lia.
Qed.

End FailureLimit.

(** With a failure limit of 0 the first breach ends the run; with a
    limit of 2 two breaches are tolerated and the third ends it. *)
Lemma failure_limit_two :
  let breach : Time -> string -> verdict := fun _ _ => (false, "breach", None) in
  let a := newAnalyzer "metrics-0" "PROMETHEUS" "up" breach (1 * Minute) 2 false in
  0 <= analyzer.failureLimit a /\
  analyzer_run_from a 0 ([1; 2] ++ []) = (None, 2%nat) /\
  analyzer_run_from a 0 ([1; 2; 3] ++ [4; 5]) = (Some (failure_limit_exceeded a), 3%nat).
Proof.
  intros breach a.
  assert (HF : 0 <= analyzer.failureLimit a) by (cbn; lia).
  destruct (failure_limit_is_exact a HF) as (Hexceeds & Htolerated & _).
  split; [exact HF|]. split.
  - rewrite app_nil_r. apply (Htolerated [1; 2]); [repeat constructor|cbn; lia].
  - apply (Hexceeds [1; 2; 3] [4; 5]); [repeat constructor|cbn; lia].
Defined.

(** ** The render context *)

(** C7.  The value [render] executes the template on holds the user
    args as they are, the application name, an environment name (which
    is left empty), and a namespace that is set only for a Kubernetes
    application: the namespace of the deployment, or "default" when the
    deployment names none.  A template reaches them as [.Args.k],
    [.App.Name], [.App.Env] and [.K8s.Namespace]. *)
Theorem render_context (e : Executor.t) (customArgs : gmap string string) :
  let data := render_args e customArgs in
  let kubernetes := String.eqb (Config.Kind (Executor.config e)) KindKubernetesApp in
  let configured := Config.KubernetesDeploymentSpec_Input_Namespace (Executor.config e) in
  let namespace :=
    if kubernetes then (if String.eqb configured "" then "default" else configured)
    else "" in
  (templateArgs.Args data = customArgs /\
   templateArgs.Name (templateArgs.App data) = Input.Application_Name (Executor.Input e) /\
   templateArgs.Env (templateArgs.App data) = "" /\
   templateArgs.Namespace (templateArgs.K8s data) = namespace) /\
  ((forall k v, customArgs !! k = Some v ->
       evalFieldChain ["Args"; k] (VRoot data) = Ok (VString v)) /\
   evalFieldChain ["App"; "Name"] (VRoot data) =
     Ok (VString (Input.Application_Name (Executor.Input e))) /\
   evalFieldChain ["App"; "Env"] (VRoot data) = Ok (VString "") /\
   evalFieldChain ["K8s"; "Namespace"] (VRoot data) = Ok (VString namespace)) /\
  (forall L templateCfg cfg t,
      json_Marshal L templateCfg = Ok cfg -> template_Parse L cfg = Ok t ->
      render L e templateCfg customArgs =
        match template_Execute t data with
        | Err err => Err (ErrWrap "failed to apply template: " err)
        | Ok b =>
            match json_Unmarshal L b with
            | (_, Some err) => Err err
            | (newCfg, None) => Ok newCfg
            end
        end).
Proof.
  intros data kubernetes configured namespace.
  assert (Hdata : templateArgs.Args data = customArgs /\
            templateArgs.Name (templateArgs.App data)
              = Input.Application_Name (Executor.Input e) /\
            templateArgs.Env (templateArgs.App data) = "" /\
            templateArgs.Namespace (templateArgs.K8s data) = namespace).
  { subst data namespace kubernetes configured. unfold render_args.
    destruct (String.eqb (Config.Kind (Executor.config e)) KindKubernetesApp);
      [|done].
    destruct (String.eqb _ ""); done. }
  destruct Hdata as (Hargs & Hname & Henv & Hns).
  split; [done|]. split.
  - cbn. rewrite Hargs, Hname, Henv, Hns. repeat split.
    intros k v ->. reflexivity.
  - intros L templateCfg cfg t Hm Hp. unfold render. rewrite Hm, Hp. reflexivity.
Qed.

(** The context of the sample application, which names no namespace. *)
Lemma render_context_sample :
  let data := render_args sample_executor job_foo in
  evalFieldChain ["Args"; "job"] (VRoot data) = Ok (VString "foo") /\
  evalFieldChain ["App"; "Name"] (VRoot data) = Ok (VString "demo-app") /\
  evalFieldChain ["K8s"; "Namespace"] (VRoot data) = Ok (VString "default").
Proof.
  intros data.
  destruct (render_context sample_executor job_foo) as (_ & (Hargs & Hname & _ & Hns) & _).
  split; [apply Hargs; reflexivity|]. split; [exact Hname|exact Hns].
Defined.

(** ** References to undefined names *)

Lemma template_Execute_from_text (data : templateArgs.t) (t : Template) (b : string) :
  Forall (fun n => match n with
                   | TextNode _ => True
                   | FieldNode ident => isOk (evalFieldChain ident (VRoot data)) = true
                   end) t ->
  template_Execute_from b t data = Ok (fold_left (fun b n => b +:+ node_text data n) t b).
Proof.
  intros H. revert b. induction H as [|n t Hn _ IH]; intros b; [done|].
  destruct n as [text|ident]; cbn [template_Execute_from fold_left node_text].
  - apply IH.
  - destruct (evalFieldChain ident (VRoot data)); [apply IH|done].
Qed.

Lemma defined_reference_evaluates (data : templateArgs.t) (ident : list string) :
  defined_reference ident = true ->
  isOk (evalFieldChain ident (VRoot data)) = true.
Proof.
  destruct ident as [|r [|f [|? ?]]]; try done. cbn [defined_reference].
  intros H. cbn.
  destruct (String.eqb_spec r "Args") as [->|_].
  { cbn. by destruct (_ !! f). }
  destruct (String.eqb_spec r "App") as [->|_].
  { cbn in *. destruct (String.eqb f "Name"); [done|].
    destruct (String.eqb f "Env"); done. }
  destruct (String.eqb_spec r "K8s") as [->|_]; [|done].
  cbn in *. by destruct (String.eqb f "Namespace").
Qed.

Lemma template_Execute_from_fails (data : templateArgs.t) (t : Template) (b : string) :
  Exists refers_outside_context t ->
  isErr (template_Execute_from b t data) = true.
Proof.
  intros H. revert b. induction H as [n t Hn|n t _ IH]; intros b.
  - destruct n as [text|[|r rest]]; [done|done|].
    destruct Hn as (Ha & Hk & Hr). cbn. rewrite Ha, Hk, Hr. reflexivity.
  - destruct n as [text|ident]; cbn [template_Execute_from]; [apply IH|].
    destruct (evalFieldChain ident (VRoot data)); [apply IH|done].
Qed.

(** C5, as the code has it.  The template is executed with the default
    handling of missing map keys: a reference [.Args.k] to an argument
    that is not among the supplied args writes the text "<no value>",
    and a template whose references are all to arguments (defined or
    not) or to the three built-in fields never fails to execute, so the
    render returns what decoding the rendered text gives.  The render
    does return an error when the template refers to a name that is no
    field of the render context. *)
Theorem undefined_argument_renders_no_value (L : Lib) (e : Executor.t)
    (templateCfg : AnalysisTemplateSpec.t) (customArgs : gmap string string)
    (cfg : string) (t : Template) :
  json_Marshal L templateCfg = Ok cfg ->
  template_Parse L cfg = Ok t ->
  let data := render_args e customArgs in
  (forall k, customArgs !! k = None ->
      node_text data (FieldNode ["Args"; k]) = "<no value>") /\
  (only_defined_references t ->
      render L e templateCfg customArgs =
        match json_Unmarshal L (rendered_text data t) with
        | (_, Some err) => Err err
        | (newCfg, None) => Ok newCfg
        end) /\
  (Exists refers_outside_context t ->
      isErr (render L e templateCfg customArgs) = true).
Proof.
  intros Hm Hp data. split; [|split].
  - intros k Hk. cbn.
    assert (Hargs : templateArgs.Args data = customArgs).
    { subst data. unfold render_args. by destruct (String.eqb _ _). }
    rewrite Hargs, Hk. reflexivity.
  - intros Hdef. unfold render. rewrite Hm, Hp. fold data.
    unfold template_Execute. rewrite template_Execute_from_text; [reflexivity|].
    eapply Forall_impl; [exact Hdef|].
    intros [text|ident]; [done|]. apply defined_reference_evaluates.
  - intros Hout. unfold render. rewrite Hm, Hp. fold data.
    pose proof (template_Execute_from_fails data t "" Hout) as Hfail.
    unfold template_Execute. by destruct (template_Execute_from "" t data).
Qed.

(** C5 as stated fails: the sample template refers to [.Args.job];
    rendered without any argument it gives a document, in which the
    query reads "<no value>" where the job was to stand. *)
Lemma undefined_argument_is_no_error :
  rendered_query
    (render (Ref.lib (sample_backend [])) sample_executor sample_doc ∅)
    "http_error_rate"
  = Some ("rate(errors{job=" +:+ quote "<no value>"
          +:+ ",ns=" +:+ quote "default" +:+ "})").
Proof. vm_compute. reflexivity. Qed.

(** The same render, through the theorem. *)
Lemma undefined_argument_sample :
  let L := Ref.lib (sample_backend []) in
  let cfg := match json_Marshal L sample_doc with Ok cfg => cfg | Err _ => "" end in
  let t := match template_Parse L cfg with Ok t => t | Err _ => [] end in
  let data := render_args sample_executor ∅ in
  json_Marshal L sample_doc = Ok cfg /\
  template_Parse L cfg = Ok t /\
  only_defined_references t /\
  node_text data (FieldNode ["Args"; "job"]) = "<no value>" /\
  render L sample_executor sample_doc ∅ =
    match json_Unmarshal L (rendered_text data t) with
    | (_, Some err) => Err err
    | (newCfg, None) => Ok newCfg
    end.
Proof.
  intros L cfg t data.
  assert (Hm : json_Marshal L sample_doc = Ok cfg) by reflexivity.
  assert (Hp : template_Parse L cfg = Ok t) by (vm_compute; reflexivity).
  assert (Hdef : only_defined_references t) by (vm_compute; repeat constructor).
  destruct (undefined_argument_renders_no_value L sample_executor sample_doc ∅ cfg t Hm Hp)
    as (Hno & Hok & _).
  split; [exact Hm|]. split; [exact Hp|]. split; [exact Hdef|].
  split; [apply Hno; reflexivity|exact (Hok Hdef)].
Defined.

(** ** Missing templates *)

Lemma spawn_fails {A : Type} (new : nat -> A -> result analyzer.t)
    (i : nat) (l : list A) :
  Exists (fun x => forall j, isErr (new j x) = true) l ->
  exists started failure, spawn new i l = (started, Some failure).
Proof.
  intros H. revert i. induction H as [x l Hx|x l _ IH]; intros i; cbn.
  - specialize (Hx i). destruct (new i x); [done|]. by eexists _, _.
  - destruct (new i x) as [a|err]; [|by eexists _, _].
    destruct (IH (S i)) as (started & failure & ->). by eexists _, _.
Qed.

Section MissingTemplate.
Context (L : Lib) (e : Executor.t) (templateCfg : AnalysisTemplateSpec.t).

Lemma missing_metrics_template_error (m : TemplatableAnalysisMetrics.t) :
  missing_metrics_template L e templateCfg m ->
  let ref := TemplatableAnalysisMetrics.Template m in
  getMetricsConfig L e m templateCfg (AnalysisTemplateRef.Args ref)
    = Err (template_not_found (AnalysisTemplateRef.Name ref)) /\
  forall i, newAnalyzerForMetrics L e i m templateCfg
            = Err (template_not_found (AnalysisTemplateRef.Name ref)).
Proof.
  intros (Hname & rendered & Hrender & Hlookup) ref.
  assert (Hcfg : getMetricsConfig L e m templateCfg (AnalysisTemplateRef.Args ref)
                 = Err (template_not_found (AnalysisTemplateRef.Name ref))).
  { subst ref. unfold getMetricsConfig. rewrite Hname, Hrender, Hlookup. reflexivity. }
  split; [exact Hcfg|]. intros i. subst ref. unfold newAnalyzerForMetrics.
  rewrite Hcfg. reflexivity.
Qed.

Lemma missing_log_template_error (l : TemplatableAnalysisLog.t) :
  missing_log_template L e templateCfg l ->
  let ref := TemplatableAnalysisLog.Template l in
  getLogConfig L e l templateCfg (AnalysisTemplateRef.Args ref)
    = Err (template_not_found (AnalysisTemplateRef.Name ref)) /\
  forall i, newAnalyzerForLog L e i l templateCfg
            = Err (template_not_found (AnalysisTemplateRef.Name ref)).
Proof.
  intros (Hname & rendered & Hrender & Hlookup) ref.
  assert (Hcfg : getLogConfig L e l templateCfg (AnalysisTemplateRef.Args ref)
                 = Err (template_not_found (AnalysisTemplateRef.Name ref))).
  { subst ref. unfold getLogConfig. rewrite Hname, Hrender, Hlookup. reflexivity. }
  split; [exact Hcfg|]. intros i. subst ref. unfold newAnalyzerForLog.
  rewrite Hcfg. reflexivity.
Qed.

Lemma missing_http_template_error (h : TemplatableAnalysisHTTP.t) :
  missing_http_template L e templateCfg h ->
  let ref := TemplatableAnalysisHTTP.Template h in
  getHTTPConfig L e h templateCfg (AnalysisTemplateRef.Args ref)
    = Err (template_not_found (AnalysisTemplateRef.Name ref)) /\
  forall i, newAnalyzerForHTTP L e i h templateCfg
            = Err (template_not_found (AnalysisTemplateRef.Name ref)).
Proof.
  intros (Hname & rendered & Hrender & Hlookup) ref.
  assert (Hcfg : getHTTPConfig L e h templateCfg (AnalysisTemplateRef.Args ref)
                 = Err (template_not_found (AnalysisTemplateRef.Name ref))).
  { subst ref. unfold getHTTPConfig. rewrite Hname, Hrender, Hlookup. reflexivity. }
  split; [exact Hcfg|]. intros i. subst ref. unfold newAnalyzerForHTTP.
  rewrite Hcfg. reflexivity.
Qed.

Lemma spawn_all_fails (options : AnalysisStageOptions.t) :
  names_missing_template L e templateCfg options ->
  exists started msg, spawn_all L e options templateCfg = (started, Some msg).
Proof.
  intros Hmissing. unfold spawn_all.
  destruct (spawn _ 0 (AnalysisStageOptions.Metrics options))
    as [ms [[m err]|]] eqn:Hm; [by eexists _, _|].
  destruct (spawn _ 0 (AnalysisStageOptions.Logs options))
    as [ls [[l err]|]] eqn:Hl; [by eexists _, _|].
  destruct (spawn _ 0 (AnalysisStageOptions.Https options))
    as [hs [[h err]|]] eqn:Hh; [by eexists _, _|].
  exfalso. destruct Hmissing as [H|[H|H]].
  - destruct (spawn_fails (fun i m => newAnalyzerForMetrics L e i m templateCfg) 0
                (AnalysisStageOptions.Metrics options)) as (? & ? & Hs); [|congruence].
    eapply Exists_impl; [exact H|].
    intros m Hx j. cbn beta.
    by rewrite (proj2 (missing_metrics_template_error m Hx) j).
  - destruct (spawn_fails (fun i l => newAnalyzerForLog L e i l templateCfg) 0
                (AnalysisStageOptions.Logs options)) as (? & ? & Hs); [|congruence].
    eapply Exists_impl; [exact H|].
    intros l Hx j. cbn beta.
    by rewrite (proj2 (missing_log_template_error l Hx) j).
  - destruct (spawn_fails (fun i h => newAnalyzerForHTTP L e i h templateCfg) 0
                (AnalysisStageOptions.Https options)) as (? & ? & Hs); [|congruence].
    eapply Exists_impl; [exact H|].
    intros h Hx j. cbn beta.
    by rewrite (proj2 (missing_http_template_error h Hx) j).
Qed.


End MissingTemplate.


(** ** The threshold check *)

Lemma Qlt_bool_iff (x y : Q) : Qlt_bool x y = true <-> (x < y)%Q.
Proof.
  unfold Qlt_bool. rewrite negb_true_iff, <- not_true_iff_false, Qle_bool_iff.
  split; [apply Qnot_le_lt|apply Qlt_not_le].
Qed.

Lemma InRange_within (expected : AnalysisExpected.t) (p : DataPoint.t) :
  InRange expected (DataPoint.Value p) = true <-> within_bounds expected p.
Proof.
  unfold InRange, within_bounds. rewrite andb_true_iff.
  assert (Hbound : forall (bound : option Q) (test : Q -> bool) (holds : Q -> Prop),
            (forall b, test b = true <-> holds b) ->
            match bound with Some b => test b | None => true end = true <->
            (forall b, bound = Some b -> holds b)).
  { intros [b|] test holds Htest.
    - rewrite Htest. split; [by intros H ? [= <-]|by intros H; apply H].
    - split; [by intros _ ? [=]|done]. }
  rewrite (Hbound (AnalysisExpected.Min expected)
             (fun min => Qle_bool min (DataPoint.Value p))
             (fun min => (min <= DataPoint.Value p)%Q))
    by (intros; apply Qle_bool_iff).
  rewrite (Hbound (AnalysisExpected.Max expected)
             (fun max => Qle_bool (DataPoint.Value p) max)
             (fun max => (DataPoint.Value p <= max)%Q))
    by (intros; apply Qle_bool_iff).
  reflexivity.
Qed.

Lemma forallb_within (expected : AnalysisExpected.t) (points : list DataPoint.t) :
  forallb (fun p => InRange expected (DataPoint.Value p)) points = true <->
  Forall (within_bounds expected) points.
Proof.
  rewrite forallb_forall, Forall_forall. split; intros H p Hp.
  - apply InRange_within, H, list_elem_of_In, Hp.
  - apply InRange_within, H, list_elem_of_In, Hp.
Qed.




(** ** The rank-sum statistic *)

Lemma count_app (p : Q -> bool) (a b : list Q) :
  count p (a ++ b) = count p a + count p b.
Proof. unfold count. rewrite List.filter_app, length_app. lia. Qed.

Lemma count_cons (p : Q -> bool) (x : Q) (l : list Q) :
  count p (x :: l) = (if p x then 1 else 0) + count p l.
Proof. unfold count. cbn [List.filter]. destruct (p x); cbn [length]; lia. Qed.

Lemma count_nonneg (p : Q -> bool) (l : list Q) : 0 <= count p l.
Proof. unfold count. lia. Qed.

Lemma Zsum_indicator (p : Q -> bool) (l : list Q) :
  Zsum (fun x => if p x then 1 else 0) l = count p l.
Proof.
  induction l as [|x l IH]; [reflexivity|].
  cbn [Zsum]. rewrite count_cons, IH. reflexivity.
Qed.

Lemma Zsum_add (f g : Q -> Z) (l : list Q) :
  Zsum (fun x => f x + g x) l = Zsum f l + Zsum g l.
Proof. induction l as [|x l IH]; cbn [Zsum]; lia. Qed.

Lemma Zsum_ext (f g : Q -> Z) (l : list Q) :
  (forall x, f x = g x) -> Zsum f l = Zsum g l.
Proof. intros H. induction l as [|x l IH]; cbn [Zsum]; [done|]. by rewrite H, IH. Qed.

Lemma Zsum_const (c : Z) (l : list Q) : Zsum (fun _ => c) l = c * Z.of_nat (length l).
Proof. induction l as [|x l IH]; cbn [Zsum length]; lia. Qed.

(** Counting the pairs of a relation by rows or by columns. *)
Lemma Zsum_count_swap (R : Q -> Q -> bool) (a b : list Q) :
  Zsum (fun x => count (fun y => R y x) b) a = Zsum (fun y => count (fun x => R y x) a) b.
Proof.
  induction a as [|x a IH].
  - cbn. induction b as [|y b IHb]; [done|]. cbn [Zsum]. rewrite <- IHb. reflexivity.
  - cbn [Zsum]. rewrite IH.
    rewrite <- (Zsum_indicator (fun y => R y x) b), <- Zsum_add.
    apply Zsum_ext. intros y. rewrite count_cons. reflexivity.
Qed.

Lemma Q_trichotomy (x y : Q) :
  (if Qlt_bool y x then 1 else 0) + (if Qlt_bool x y then 1 else 0)
  + (if Qeq_bool y x then 1 else 0) = 1.
Proof.
  destruct (Qlt_bool y x) eqn:H1, (Qlt_bool x y) eqn:H2, (Qeq_bool y x) eqn:H3;
    try reflexivity; exfalso.
  all: repeat match goal with
       | H : Qlt_bool _ _ = true |- _ => apply Qlt_bool_iff in H
       | H : Qeq_bool _ _ = true |- _ => apply Qeq_bool_iff in H
       | H : Qlt_bool _ _ = false |- _ =>
           apply not_true_iff_false in H; rewrite Qlt_bool_iff in H
       | H : Qeq_bool _ _ = false |- _ =>
           apply not_true_iff_false in H; rewrite Qeq_bool_iff in H
       end.
  all: try (apply (Qlt_irrefl x); by eapply Qlt_trans).
  all: try (rewrite H3 in *; by apply (Qlt_irrefl x)).
  destruct (Q_dec y x) as [[?|?]|?]; done.
Qed.

Local Open Scope Q_scope.

Lemma Qsum_app (l1 l2 : list Q) : Qsum (l1 ++ l2) == Qsum l1 + Qsum l2.
Proof.
  unfold Qsum. induction l1 as [|x l1 IH]; cbn [app fold_right].
  - symmetry. apply Qplus_0_l.
  - rewrite IH. apply Qplus_assoc.
Qed.

Lemma Qsum_map_Zsum (f g : Q -> Z) (l : list Q) :
  Qsum (List.map (fun x => inject_Z (f x) + (inject_Z (g x) + 1) / 2) l)
  == inject_Z (Zsum f l) + (inject_Z (Zsum g l) + size l) / 2.
Proof.
  unfold size. induction l as [|x l IH].
  - cbn. reflexivity.
  - cbn [List.map Qsum fold_right Zsum length]. unfold Qsum in IH. rewrite IH.
    rewrite Nat2Z.inj_succ, <- Z.add_1_r, !inject_Z_plus. field.
Qed.

Lemma size_app (a b : list Q) : size (a ++ b) == size a + size b.
Proof. unfold size. rewrite length_app, Nat2Z.inj_add, inject_Z_plus. reflexivity. Qed.

(** Twice the count of the pairs in order, and the count of the tied
    pairs, make all the pairs. *)
Lemma pairs_of_pool (pool : list Q) :
  (2 * Zsum (fun x => count (fun y => Qlt_bool y x) pool) pool
   + Zsum (fun x => count (fun y => Qeq_bool y x) pool) pool
   = Z.of_nat (length pool) * Z.of_nat (length pool))%Z.
Proof.
  assert (Hall : (Zsum (fun x => count (fun y => Qlt_bool y x) pool
                              + count (fun y => Qlt_bool x y) pool
                              + count (fun y => Qeq_bool y x) pool) pool
                  = Z.of_nat (length pool) * Z.of_nat (length pool))%Z).
  { rewrite <- (Zsum_const (Z.of_nat (length pool)) pool).
    apply Zsum_ext. intros x.
    rewrite <- !Zsum_indicator, <- !Zsum_add.
    rewrite (Zsum_ext _ (fun _ => 1%Z)) by (intros y; apply Q_trichotomy).
    rewrite Zsum_const. lia. }
  rewrite !Zsum_add in Hall.
  rewrite (Zsum_count_swap (fun y x => Qlt_bool x y) pool pool) in Hall.
  lia.
Qed.

(** The ranks of a pooled sample add up to [N (N + 1) / 2]. *)
Lemma rank_sum_pool (pool : list Q) :
  rank_sum pool pool == size pool * (size pool + 1) / 2.
Proof.
  unfold rank_sum, rank. rewrite Qsum_map_Zsum.
  pose proof (pairs_of_pool pool) as H.
  set (below := Zsum (fun x => count (fun y => Qlt_bool y x) pool) pool) in *.
  set (tied := Zsum (fun x => count (fun y => Qeq_bool y x) pool) pool) in *.
  assert (Htied : inject_Z tied == size pool * size pool - 2 * inject_Z below).
  { unfold size. rewrite <- inject_Z_mult, <- H.
    rewrite inject_Z_plus, inject_Z_mult. ring. }
  rewrite Htied. field.
Qed.

Lemma rank_pool_comm (a b : list Q) (x : Q) : rank (a ++ b) x = rank (b ++ a) x.
Proof.
  unfold rank. rewrite !count_app.
  rewrite (Z.add_comm (count _ a) (count (fun y => Qlt_bool y x) b)).
  rewrite (Z.add_comm (count _ a) (count (fun y => Qeq_bool y x) b)).
  reflexivity.
Qed.

Lemma rank_sum_split (a b : list Q) :
  rank_sum a (a ++ b) + rank_sum b (a ++ b) == rank_sum (a ++ b) (a ++ b).
Proof. unfold rank_sum. rewrite List.map_app, Qsum_app. reflexivity. Qed.

(** The two statistics of a pair of samples add up to [n_a n_b]. *)
Lemma U_statistic_sum (a b : list Q) :
  U_statistic a b + U_statistic b a == size a * size b.
Proof.
  unfold U_statistic.
  assert (Hb : rank_sum b (b ++ a) = rank_sum b (a ++ b)).
  { unfold rank_sum. f_equal. apply List.map_ext. intros x. apply rank_pool_comm. }
  rewrite Hb.
  pose proof (rank_sum_split a b) as Hsplit.
  rewrite rank_sum_pool, size_app in Hsplit.
  set (ra := rank_sum a (a ++ b)) in *. set (rb := rank_sum b (a ++ b)) in *.
  assert (Hra : ra == (size a + size b) * (size a + size b + 1) / 2 - rb).
  { rewrite <- Hsplit. ring. }
  rewrite Hra. field.
Qed.

Lemma tie_term_comm (a b : list Q) : tie_term (a ++ b) == tie_term (b ++ a).
Proof.
  unfold tie_term.
  rewrite (List.map_ext
             (fun x => let t := inject_Z (count (fun y => Qeq_bool y x) (a ++ b)) in t * t - 1)
             (fun x => let t := inject_Z (count (fun y => Qeq_bool y x) (b ++ a)) in t * t - 1)).
  2: { intros x. cbn zeta. rewrite !count_app.
       by rewrite (Z.add_comm (count _ a) (count _ b)). }
  rewrite !List.map_app, !Qsum_app. apply Qplus_comm.
Qed.

Lemma sigma2_comm (a b : list Q) : sigma2 a b == sigma2 b a.
Proof.
  unfold sigma2. cbn zeta. rewrite (tie_term_comm a b).
  rewrite (Qplus_comm (size a) (size b)), (Qmult_comm (size a) (size b)).
  reflexivity.
Qed.

Local Close Scope Q_scope.

(** ** The direction of a deviation *)

Section Direction.
Variable rejects : Q -> bool.
Hypothesis rejects_proper : forall x y, (x == y)%Q -> rejects x = rejects y.

Local Open Scope Q_scope.

(** The two-sided test does not depend on which sample is called the
    experiment. *)
Lemma significant_comm (a b : list Q) :
  significant rejects a b = significant rejects b a.
Proof.
  unfold significant. cbn zeta.
  assert (Hs : Qeq_bool (sigma2 a b) 0 = Qeq_bool (sigma2 b a) 0).
  { destruct (Qeq_bool (sigma2 a b) 0) eqn:H1, (Qeq_bool (sigma2 b a) 0) eqn:H2;
      try reflexivity.
    - apply Qeq_bool_iff in H1. rewrite sigma2_comm in H1.
      apply Qeq_bool_iff in H1. congruence.
    - apply Qeq_bool_iff in H2. rewrite <- sigma2_comm in H2.
      apply Qeq_bool_iff in H2. congruence. }
  rewrite Hs. destruct (Qeq_bool (sigma2 b a) 0) eqn:H0; [reflexivity|].
  apply rejects_proper.
  assert (Hnz : ~ sigma2 b a == 0).
  { intros H. apply Qeq_bool_iff in H. congruence. }
  pose proof (U_statistic_sum a b) as Hsum.
  assert (Hu : U_statistic a b == size a * size b - U_statistic b a).
  { rewrite <- Hsum. ring. }
  rewrite Hu, (sigma2_comm a b). field. exact Hnz.
Qed.

(** Looking for a deviation upwards of the experiment from the control
    is looking for a deviation downwards of the control from the
    experiment. *)
Lemma MannWhitneyU_dual (a b : list Q) :
  MannWhitneyU rejects a b HIGH = MannWhitneyU rejects b a LOW /\
  MannWhitneyU rejects a b LOW = MannWhitneyU rejects b a HIGH /\
  MannWhitneyU rejects a b EITHER = MannWhitneyU rejects b a EITHER.
Proof.
  unfold MannWhitneyU. rewrite (significant_comm a b).
  rewrite (orb_comm (length a <? 2)%nat (length b <? 2)%nat).
  repeat split; reflexivity.
Qed.

(** A sample compared with itself shows no deviation. *)
Lemma identical_samples_do_not_deviate (a : list Q) (dev : deviation) :
  rejects 0 = false ->
  MannWhitneyU rejects a a dev <> Deviation.
Proof.
  intros H0. unfold MannWhitneyU.
  destruct ((length a <? 2)%nat || (length a <? 2)%nat); [done|].
  assert (Hsig : significant rejects a a = false); [|by rewrite Hsig].
  unfold significant. cbn zeta.
  destruct (Qeq_bool (sigma2 a a) 0) eqn:Hs; [reflexivity|].
  rewrite <- H0. apply rejects_proper.
  assert (Hnz : ~ sigma2 a a == 0).
  { intros H. apply Qeq_bool_iff in H. congruence. }
  pose proof (U_statistic_sum a a) as Hsum.
  assert (Hu : U_statistic a a == size a * size a / 2).
  { assert (H2 : 2 * U_statistic a a == size a * size a) by (rewrite <- Hsum; ring).
    rewrite <- H2. field. }
  rewrite Hu. field. exact Hnz.
Qed.

Local Close Scope Q_scope.

Lemma MannWhitneyU_Deviation (experiment control : list Q) (dev : deviation) :
  MannWhitneyU rejects experiment control dev = Deviation <->
  (2 <= length experiment)%nat /\ (2 <= length control)%nat /\
  significant rejects experiment control = true /\
  match dev with
  | EITHER => True
  | HIGH => (mean control < mean experiment)%Q
  | LOW => (mean experiment < mean control)%Q
  end.
Proof.
  unfold MannWhitneyU.
  destruct (Nat.ltb_spec (length experiment) 2) as [He|He]; cbn [orb].
  { split; [done|]. intros (H & _). lia. }
  destruct (Nat.ltb_spec (length control) 2) as [Hc|Hc]; cbn [orb].
  { split; [done|]. intros (_ & H & _). lia. }
  destruct (significant rejects experiment control).
  2: { split; [done|]. by intros (_ & _ & H & _). }
  destruct dev.
  - split; [done|done].
  - destruct (Qlt_bool (mean control) (mean experiment)) eqn:Hlt.
    + apply Qlt_bool_iff in Hlt. split; done.
    + split; [done|]. intros (_ & _ & _ & H). apply Qlt_bool_iff in H. congruence.
  - destruct (Qlt_bool (mean experiment) (mean control)) eqn:Hlt.
    + apply Qlt_bool_iff in Hlt. split; done.
    + split; [done|]. intros (_ & _ & _ & H). apply Qlt_bool_iff in H. congruence.
Qed.

Lemma significantly_less_greater (experiment control : list Q) :
  significantly_less rejects experiment control <->
  significantly_greater rejects control experiment.
Proof.
  unfold significantly_less, significantly_greater.
  rewrite (significant_comm experiment control). tauto.
Qed.


End Direction.

(** The cases of [Test_compare], at the level 0.05. *)
Example Test_compare_no_significance :
  compare rejects_at_5_percent sample_low sample_low EITHER = None.
Proof. vm_compute. reflexivity. Qed.

Example Test_compare_high_as_expected :
  compare rejects_at_5_percent sample_high sample_low LOW = None.
Proof. vm_compute. reflexivity. Qed.

Example Test_compare_low_as_expected :
  compare rejects_at_5_percent sample_low sample_high HIGH = None.
Proof. vm_compute. reflexivity. Qed.

Example Test_compare_high_as_unexpected :
  compare rejects_at_5_percent sample_high sample_low HIGH = Some significant_deviation.
Proof. vm_compute. reflexivity. Qed.

Example Test_compare_low_as_unexpected :
  compare rejects_at_5_percent sample_low sample_high LOW = Some significant_deviation.
Proof. vm_compute. reflexivity. Qed.

Example Test_compare_deviation_as_unexpected :
  compare rejects_at_5_percent sample_spike sample_flat EITHER = Some significant_deviation.
Proof. vm_compute. reflexivity. Qed.

Lemma rejects_at_5_percent_proper (x y : Q) :
  (x == y)%Q -> rejects_at_5_percent x = rejects_at_5_percent y.
Proof.
  intros Hxy. unfold rejects_at_5_percent, Qlt_bool. f_equal.
  destruct (Qle_bool x _) eqn:Hx, (Qle_bool y _) eqn:Hy; try reflexivity.
  - apply Qle_bool_iff in Hx. rewrite Hxy in Hx. apply Qle_bool_iff in Hx. congruence.
  - apply Qle_bool_iff in Hy. rewrite <- Hxy in Hy. apply Qle_bool_iff in Hy. congruence.
Qed.


(** ** The dynamic analyzer *)

Lemma dynamic_run_from_nil (d : dynamicMetricsAnalyzer.t)
    (issued : list provider_query) (ticks : list Time) :
  dynamic_run_from d issued ticks = (None, issued).
Proof.
  induction ticks as [|t ticks IH]; [reflexivity|].
  cbn [dynamic_run_from]. repeat case_match; exact IH.
Qed.

(** C3 against the code.  Whatever the strategy and however many ticks
    are delivered, [run] of the dynamic metrics analyzer issues no
    query and returns nil when the context is done: the cases of its
    switch on the strategy are empty, so no tick is evaluated and none
    can fail. *)
Theorem dynamic_run_evaluates_nothing (d : dynamicMetricsAnalyzer.t)
    (ticks : list Time) :
  dynamic_run d ticks = (None, []).
Proof. apply dynamic_run_from_nil. Qed.

(** A canary that lies far above its baseline: the comparison that the
    tick is to make reports the deviation, and the run of the analyzer
    over that tick returns nil without a query. *)
Example dynamic_run_ignores_deviation :
  compare rejects_at_5_percent sample_high sample_low EITHER
    = Some significant_deviation /\
  match sample_dynamic with
  | Ok d => Some (dynamic_run d [1 * Minute])
  | Err _ => None
  end = Some (None, []).
Proof. vm_compute. auto. Qed.

(** ** The order in which the analyzers are built *)

Lemma first_failure_app (l1 l2 : list (string * result analyzer.t)) :
  first_failure (l1 ++ l2) =
    match first_failure l1 with
    | (started, Some msg) => (started, Some msg)
    | (started, None) =>
        (started ++ fst (first_failure l2), snd (first_failure l2))
    end.
Proof.
  induction l1 as [|[provider [a|err]] l1 IH]; cbn.
  - by destruct (first_failure l2).
  - rewrite IH. by destruct (first_failure l1) as [started [msg|]].
  - reflexivity.
Qed.

Lemma first_failure_spawn {A : Type} (provider : A -> string)
    (new : nat -> A -> result analyzer.t) (i : nat) (l : list A) :
  first_failure (imap (fun j x => (provider x, new (i + j)%nat x)) l) =
    match spawn new i l with
    | (started, Some (x, err)) => (started, Some (failed_to_spawn (provider x) err))
    | (started, None) => (started, None)
    end.
Proof.
  revert i. induction l as [|x l IH]; intros i; [reflexivity|].
  cbn [imap spawn first_failure]. rewrite Nat.add_0_r.
  destruct (new i x) as [a|err]; [|reflexivity].
  rewrite (imap_ext _ (fun j x => (provider x, new (S i + j)%nat x)))
    by (intros j y _; cbn; by rewrite Nat.add_succ_r).
  rewrite IH. by destruct (spawn new (S i) l) as [started [[y err]|]].
Qed.

Section Constructions.
Context (L : Lib) (e : Executor.t) (options : AnalysisStageOptions.t)
  (templateCfg : AnalysisTemplateSpec.t).

(** The three loops of [Execute] make the constructor calls in order
    and stop at the first one that fails. *)
Lemma spawn_all_first_failure :
  spawn_all L e options templateCfg
  = first_failure (constructions L e options templateCfg).
Proof.
  unfold spawn_all, constructions. rewrite !first_failure_app.
  rewrite (first_failure_spawn
             (fun m => AnalysisMetrics.Provider (TemplatableAnalysisMetrics.AnalysisMetrics m))
             (fun i m => newAnalyzerForMetrics L e i m templateCfg) 0).
  destruct (spawn _ 0 (AnalysisStageOptions.Metrics options)) as [ms [[m err]|]];
    [reflexivity|].
  rewrite (first_failure_spawn
             (fun l => AnalysisLog.Provider (TemplatableAnalysisLog.AnalysisLog l))
             (fun i l => newAnalyzerForLog L e i l templateCfg) 0).
  destruct (spawn _ 0 (AnalysisStageOptions.Logs options)) as [ls [[l err]|]];
    [reflexivity|].
  rewrite (first_failure_spawn (fun _ => "HTTP")
             (fun i h => newAnalyzerForHTTP L e i h templateCfg) 0).
  destruct (spawn _ 0 (AnalysisStageOptions.Https options)) as [hs [[h err]|]];
    reflexivity.
Qed.

End Constructions.

Lemma first_failure_built (l : list (string * result analyzer.t)) :
  Forall is_built l -> first_failure l = (built l, None).
Proof.
  induction 1 as [|[provider [a|err]] l Hx _ IH]; cbn; [done| |done].
  by rewrite IH.
Qed.

Lemma first_failure_stops (pre post : list (string * result analyzer.t))
    (provider : string) (err : error) :
  Forall is_built pre ->
  first_failure (pre ++ (provider, Err err) :: post)
  = (built pre, Some (failed_to_spawn provider err)).
Proof.
  induction 1 as [|[p [a|err']] l Hx _ IH]; cbn; [done| |done].
  by rewrite IH.
Qed.

Lemma first_failure_None (l : list (string * result analyzer.t))
    (started : list analyzer.t) :
  first_failure l = (started, None) -> Forall is_built l /\ started = built l.
Proof.
  revert started. induction l as [|[provider [a|err]] l IH]; intros started; cbn.
  - by intros [= <-].
  - destruct (first_failure l) as [st fl]. intros [= <- ->].
    destruct (IH st eq_refl) as [Hall ->]. split; [by constructor|done].
  - done.
Qed.

(** ** The ids of the analyzers *)

Lemma newAnalyzerForMetrics_id (L : Lib) (e : Executor.t) (i : nat)
    (m : TemplatableAnalysisMetrics.t) (doc : AnalysisTemplateSpec.t) (a : analyzer.t) :
  newAnalyzerForMetrics L e i m doc = Ok a -> analyzer.id a = metrics_id i.
Proof.
  unfold newAnalyzerForMetrics.
  destruct (getMetricsConfig _ _ _ _ _) as [cfg|]; [|done].
  destruct (newMetricsProvider _ _ _ _) as [provider|]; [|done].
  by intros [= <-].
Qed.

Lemma newAnalyzerForLog_id (L : Lib) (e : Executor.t) (i : nat)
    (l : TemplatableAnalysisLog.t) (doc : AnalysisTemplateSpec.t) (a : analyzer.t) :
  newAnalyzerForLog L e i l doc = Ok a -> analyzer.id a = log_id i.
Proof.
  unfold newAnalyzerForLog.
  destruct (getLogConfig _ _ _ _ _) as [cfg|]; [|done].
  destruct (newLogProvider _ _ _) as [provider|]; [|done].
  by intros [= <-].
Qed.

Lemma newAnalyzerForHTTP_id (L : Lib) (e : Executor.t) (i : nat)
    (h : TemplatableAnalysisHTTP.t) (doc : AnalysisTemplateSpec.t) (a : analyzer.t) :
  newAnalyzerForHTTP L e i h doc = Ok a -> analyzer.id a = http_id i.
Proof.
  unfold newAnalyzerForHTTP.
  destruct (getHTTPConfig _ _ _ _ _) as [cfg|]; [|done].
  by intros [= <-].
Qed.

Lemma built_ids {A : Type} (provider : A -> string)
    (new : nat -> A -> result analyzer.t) (idf : nat -> string) (i : nat) (l : list A) :
  (forall j x a, new j x = Ok a -> analyzer.id a = idf j) ->
  let r := first_failure (imap (fun j x => (provider x, new (i + j)%nat x)) l) in
  map analyzer.id (fst r) `prefix_of` map idf (seq i (length l)) /\
  (snd r = None -> map analyzer.id (fst r) = map idf (seq i (length l))).
Proof.
  intros Hid. revert i. induction l as [|x l IH]; intros i; cbn zeta.
  { split; [apply prefix_nil|done]. }
  cbn [imap first_failure length seq map]. rewrite Nat.add_0_r.
  destruct (new i x) as [a|err] eqn:Hnew; [|split; [apply prefix_nil|done]].
  rewrite (imap_ext _ (fun j x => (provider x, new (S i + j)%nat x)))
    by (intros j y _; cbn; by rewrite Nat.add_succ_r).
  destruct (IH (S i)) as [Hpre Hall].
  destruct (first_failure _) as [started failure]. cbn [fst snd map] in *.
  rewrite (Hid _ _ _ Hnew). split.
  - by apply prefix_cons.
  - intros ->. by rewrite Hall.
Qed.

Lemma map_id_app (l1 l2 : list analyzer.t) :
  map analyzer.id (l1 ++ l2) = map analyzer.id l1 ++ map analyzer.id l2.
Proof. apply map_app. Qed.

Lemma constructions_ids (L : Lib) (e : Executor.t) (options : AnalysisStageOptions.t)
    (doc : AnalysisTemplateSpec.t) :
  let r := first_failure (constructions L e options doc) in
  map analyzer.id (fst r) `prefix_of` analyzer_ids options /\
  (snd r = None -> map analyzer.id (fst r) = analyzer_ids options).
Proof.
  unfold constructions, analyzer_ids. cbn zeta. rewrite !first_failure_app.
  destruct (built_ids
              (fun m => AnalysisMetrics.Provider (TemplatableAnalysisMetrics.AnalysisMetrics m))
              (fun i m => newAnalyzerForMetrics L e i m doc) metrics_id 0
              (AnalysisStageOptions.Metrics options)) as [Hm Hm'].
  { intros j x a. apply newAnalyzerForMetrics_id. }
  destruct (built_ids
              (fun l => AnalysisLog.Provider (TemplatableAnalysisLog.AnalysisLog l))
              (fun i l => newAnalyzerForLog L e i l doc) log_id 0
              (AnalysisStageOptions.Logs options)) as [Hl Hl'].
  { intros j x a. apply newAnalyzerForLog_id. }
  destruct (built_ids (fun _ : TemplatableAnalysisHTTP.t => "HTTP")
              (fun i h => newAnalyzerForHTTP L e i h doc) http_id 0
              (AnalysisStageOptions.Https options)) as [Hh Hh'].
  { intros j x a. apply newAnalyzerForHTTP_id. }
  cbn [Nat.add] in *.
  destruct (first_failure (imap _ (AnalysisStageOptions.Metrics options)))
    as [ms [msg|]]; cbn [fst snd] in *.
  { split; [by apply prefix_app_r|done]. }
  destruct (first_failure (imap _ (AnalysisStageOptions.Logs options)))
    as [ls [msg|]]; cbn [fst snd] in *.
  { rewrite map_id_app, Hm' by done. split; [|done].
    by apply prefix_app, prefix_app_r. }
  destruct (first_failure (imap _ (AnalysisStageOptions.Https options)))
    as [hs failure]; cbn [fst snd] in *.
  rewrite !map_id_app, Hm', Hl' by done. split.
  - by apply prefix_app, prefix_app.
  - intros ->. by rewrite Hh'.
Qed.

Lemma id_inj (kind : string) : Inj (=) (=) (fun i : nat => kind +:+ pretty i).
Proof. intros i j H. by apply String.app_inj, pretty_nat_inj in H. Qed.

Lemma analyzer_ids_NoDup (options : AnalysisStageOptions.t) :
  NoDup (analyzer_ids options).
Proof.
  unfold analyzer_ids.
  assert (Hkind : forall (kind : string) n,
            NoDup (map (fun i : nat => kind +:+ pretty i) (seq 0 n))).
  { intros kind n. pose proof (id_inj kind) as Hinj.
    apply (NoDup_fmap_2 (fun i : nat => kind +:+ pretty i)), NoDup_seq. }
  assert (Hin : forall (kind : string) n x,
            x ∈ map (fun i : nat => kind +:+ pretty i) (seq 0 n) ->
            exists i : nat, x = kind +:+ pretty i).
  { intros kind n x Hx. apply (list_elem_of_fmap_1 _ (seq 0 n)) in Hx as (i & -> & _).
    by exists i. }
  apply NoDup_app. split; [apply (Hkind "metrics-")|]. split.
  - intros x Hm Hrest. apply Hin in Hm as (i & ->).
    apply elem_of_app in Hrest as [Hl|Hh].
    + apply (Hin "log-") in Hl as (j & Hl). discriminate.
    + apply (Hin "http-") in Hh as (j & Hh). discriminate.
  - apply NoDup_app. split; [apply (Hkind "log-")|]. split; [|apply (Hkind "http-")].
    intros x Hl Hh. apply (Hin "log-") in Hl as (i & ->).
    apply (Hin "http-") in Hh as (j & Hh). discriminate.
Qed.

(** ** Reading the analyzers off a run *)

Lemma started_ids_app (tr1 tr2 : list event) :
  started_ids (tr1 ++ tr2) = started_ids tr1 ++ started_ids tr2.
Proof.
  induction tr1 as [|ev tr1 IH]; [done|].
  destruct ev; cbn; rewrite ?IH; done.
Qed.

Lemma persisted_errors_app (tr1 tr2 : list event) :
  persisted_errors (tr1 ++ tr2) = persisted_errors tr1 ++ persisted_errors tr2.
Proof.
  induction tr1 as [|ev tr1 IH]; [done|].
  destruct ev; cbn; rewrite ?IH; done.
Qed.

Lemma stored_results_app (tr1 tr2 : list event) :
  stored_results (tr1 ++ tr2) = stored_results tr1 ++ stored_results tr2.
Proof.
  induction tr1 as [|ev tr1 IH]; [done|].
  destruct ev; cbn; rewrite ?IH; done.
Qed.

Lemma readers_log (pre : list event) :
  Forall (fun ev => match ev with
                    | Logger_Info _ | Logger_Error _ => True
                    | _ => False
                    end) pre ->
  started_ids pre = [] /\ persisted_errors pre = [] /\ stored_results pre = [].
Proof.
  induction 1 as [|ev pre Hev _ IH]; [done|].
  destruct ev; try done; cbn; exact IH.
Qed.

Lemma readers_go (started : list analyzer.t) :
  started_ids (go_events started) = map analyzer.id started /\
  persisted_errors (go_events started) = [] /\
  stored_results (go_events started) = [].
Proof.
  unfold go_events. induction started as [|a l (IH1 & IH2 & IH3)]; [done|].
  cbn. by rewrite IH1.
Qed.

Lemma readers_returned_events (results : list (string * option error)) :
  started_ids (returned_events results) = [] /\
  persisted_errors (returned_events results) = [] /\
  stored_results (returned_events results) = [].
Proof. unfold returned_events. induction results; done. Qed.

Lemma readers_saveElapsedTime (e : Executor.t) (w : World.t) :
  started_ids (saveElapsedTime e w) = [] /\
  persisted_errors (saveElapsedTime e w) = [] /\
  stored_results (saveElapsedTime e w) = [].
Proof. unfold saveElapsedTime. by destruct (World.SetStageMetadata_err w). Qed.

Lemma length_built (l : list (string * result analyzer.t)) :
  Forall is_built l -> length (built l) = length l.
Proof.
  induction 1 as [|[provider [a|err]] l Hx _ IH]; cbn; [done| |done].
  by rewrite IH.
Qed.

Lemma run_analyzers_ids (w : World.t) (timeout : Duration) (started : list analyzer.t) :
  map fst (run_analyzers w timeout started) = map analyzer.id started.
Proof. unfold run_analyzers. rewrite map_map. reflexivity. Qed.

Section Spawning.
Context (L : Lib).

(** X1. A stage fails to spawn at the first check whose analyzer cannot
    be built. The analyzers of the checks before it, metrics checks
    before log checks before http checks, have been started and no
    other; none is waited for; and the log persister holds one error
    line, which names the provider written in the failing check itself
    (HTTP for an http check) and the error of the constructor. *)
Theorem spawn_stops_at_the_first_failure (i : Input.t) (w : World.t)
    (options : AnalysisStageOptions.t) (ds : DeploySource.t)
    (pre post : list (string * result analyzer.t)) (provider : string) (err : error) :
  reaches_deadline i w options ds ->
  constructions L (executor_of L i w ds) options (loaded_template w ds)
    = pre ++ (provider, Err err) :: post ->
  Forall is_built pre ->
  let tr := snd (Execute L i w) in
  fst (Execute L i w) = STAGE_FAILURE /\
  started_ids tr = take (length pre) (analyzer_ids options) /\
  returned tr = [] /\
  persisted_errors tr
    = ["Failed to spawn analyzer for " +:+ provider +:+ ": " +:+ Error err].
Proof.
  intros Hreach Hcons Hpre tr. subst tr.
  destruct (Execute_unfold L i w options ds Hreach) as (ev & Hev & Heq).
  cbn zeta in Heq. rewrite Heq. clear Heq.
  pose proof (constructions_ids L (executor_of L i w ds) options (loaded_template w ds))
    as [Hids _].
  unfold Execute_analyses. rewrite spawn_all_first_failure.
  rewrite Hcons, (first_failure_stops pre post provider err Hpre) in *.
  cbn [fst snd] in *.
  destruct (readers_log ev Hev) as (Hs & Hp & _).
  destruct (readers_go (built pre)) as (Hgs & Hgp & _).
  destruct (readers_saveElapsedTime (executor_of L i w ds) w) as (Hss & Hsp & _).
  rewrite !started_ids_app, !persisted_errors_app, !returned_app,
    (returned_log ev Hev), returned_go, returned_saveElapsedTime,
    Hs, Hp, Hgs, Hgp, Hss, Hsp.
  cbn. rewrite app_nil_r. split; [done|]. split; [|done].
  destruct Hids as [k Hk]. rewrite Hk.
  rewrite <- (length_built pre Hpre), <- (length_map analyzer.id (built pre)).
  by rewrite take_app_length, app_nil_r.
Qed.

(** X2. The analyzers of a stage are started in the order of its
    configuration, metrics checks first, then log checks, then http
    checks, each under the id of its kind and of its index within the
    kind; no two analyzers of a stage share an id. When every analyzer
    can be built, all of them are started and all of them are waited
    for. *)
Theorem analyzers_are_started_in_order (i : Input.t) (w : World.t)
    (options : AnalysisStageOptions.t) (ds : DeploySource.t) :
  reaches_deadline i w options ds ->
  let tr := snd (Execute L i w) in
  started_ids tr `prefix_of` analyzer_ids options /\
  NoDup (started_ids tr) /\
  (Forall is_built
     (constructions L (executor_of L i w ds) options (loaded_template w ds)) ->
   started_ids tr = analyzer_ids options /\
   map fst (returned tr) = analyzer_ids options).
Proof.
  intros Hreach tr. subst tr.
  destruct (Execute_unfold L i w options ds Hreach) as (ev & Hev & Heq).
  cbn zeta in Heq. rewrite Heq. clear Heq. cbn [snd].
  set (e := executor_of L i w ds). set (doc := loaded_template w ds).
  set (timeout := remaining _ _).
  pose proof (constructions_ids L e options doc) as [Hpre Hall].
  destruct (readers_log ev Hev) as (Hs & _ & _).
  destruct (readers_saveElapsedTime e w) as (Hss & _ & _).
  rewrite !started_ids_app, !returned_app, (returned_log ev Hev),
    returned_saveElapsedTime, Hs, Hss, !app_nil_r. cbn [app].
  assert (Hstarted : started_ids (snd (Execute_analyses L e w options doc timeout))
                     = map analyzer.id (fst (first_failure (constructions L e options doc)))).
  { unfold Execute_analyses. rewrite spawn_all_first_failure.
    destruct (first_failure (constructions L e options doc)) as [started [msg|]].
    - cbn [fst snd]. destruct (readers_go started) as (Hg & _ & _).
      rewrite !started_ids_app, Hg. cbn. by rewrite app_nil_r.
    - destruct (readers_go started) as (Hg & _ & _).
      destruct (readers_returned_events (run_analyzers w timeout started)) as (Hr & _ & _).
      destruct (eg_Wait _); [|destruct (negb _)]; cbn [fst snd];
        rewrite !started_ids_app, Hg, Hr; cbn;
        rewrite ?app_nil_r; try done.
      destruct (World.PutLatestAnalysisResult_err w); cbn; by rewrite app_nil_r. }
  rewrite Hstarted. split; [exact Hpre|]. split.
  - destruct Hpre as [k Hk]. pose proof (analyzer_ids_NoDup options) as Hnd.
    rewrite Hk in Hnd. by apply NoDup_app in Hnd as (Hnd & _).
  - intros Hbuilt. pose proof (first_failure_built _ Hbuilt) as Hff.
    rewrite Hff in Hall. cbn [fst snd] in Hall. rewrite Hff. cbn [fst].
    split; [by apply Hall|].
    unfold Execute_analyses. rewrite spawn_all_first_failure, Hff.
    set (started := built (constructions L e options doc)) in *.
    destruct (eg_Wait _); [|destruct (negb _)]; cbn [fst snd];
      rewrite !returned_app, returned_go, returned_returned_events; cbn;
      try destruct (World.PutLatestAnalysisResult_err w); cbn;
      rewrite ?app_nil_r, run_analyzers_ids; by apply Hall.
Qed.

End Spawning.


(** A stage whose second metrics check is for a provider that the
    agent configuration does not have: the analyzer of the first check
    is started, and the error line names the provider twice, as the
    check has it and as the constructor reports it. *)
Lemma spawn_stops_at_an_unknown_provider :
  let L := Ref.lib (sample_backend [(9 # 10)%Q]) in
  let i := sample_input (two_checks "datadog") None in
  let w := sample_world (1 * Minute) StopSignalNone in
  fst (Execute L i w) = STAGE_FAILURE /\
  started_ids (snd (Execute L i w)) = ["metrics-0"] /\
  returned (snd (Execute L i w)) = [] /\
  persisted_errors (snd (Execute L i w))
    = ["Failed to spawn analyzer for datadog: unknown provider name datadog"].
Proof.
  intros L i w.
  set (ds := DeploySource.mk "/repo" sample_config).
  set (c := constructions L (executor_of L i w ds) (two_checks "datadog")
              (loaded_template w ds)).
  assert (Hreach : reaches_deadline i w (two_checks "datadog") ds) by (vm_compute; auto).
  assert (Hc : c = take 1 c ++ ("datadog", Err (unknown_provider "datadog")) :: drop 2 c)
    by (vm_compute; reflexivity).
  assert (Hpre : Forall is_built (take 1 c)) by (vm_compute; repeat constructor).
  destruct (spawn_stops_at_the_first_failure L i w (two_checks "datadog") ds
              (take 1 c) (drop 2 c) "datadog" (unknown_provider "datadog") Hreach Hc Hpre)
    as (Hst & Hids & Hret & Hlog).
  split; [exact Hst|]. split; [rewrite Hids; vm_compute; reflexivity|].
  split; [exact Hret|]. rewrite Hlog. vm_compute. reflexivity.
Defined.

(** A stage with a check of each kind, all of which can be built. *)
Lemma a_check_of_each_kind :
  let L := Ref.lib (sample_backend [(9 # 10)%Q]) in
  let i := sample_input mixed_checks None in
  let w := sample_world (30 * Minute) StopSignalNone in
  started_ids (snd (Execute L i w)) = ["metrics-0"; "log-0"; "http-0"] /\
  map fst (returned (snd (Execute L i w))) = ["metrics-0"; "log-0"; "http-0"].
Proof.
  intros L i w.
  set (ds := DeploySource.mk "/repo" sample_config).
  assert (Hreach : reaches_deadline i w mixed_checks ds) by (vm_compute; auto).
  assert (Hbuilt : Forall is_built
                     (constructions L (executor_of L i w ds) mixed_checks
                        (loaded_template w ds)))
    by (vm_compute; repeat constructor).
  destruct (analyzers_are_started_in_order L i w mixed_checks ds Hreach) as (_ & _ & Hall).
  destruct (Hall Hbuilt) as [Hstarted Hreturned].
  split; [rewrite Hstarted|rewrite Hreturned]; vm_compute; reflexivity.
Defined.

(** ** The template file *)

Section TemplateFile.
Context (L : Lib).

(** X3. When the repository has no analysis template file, that is when
    the loader returns [config.ErrNotFound], also wrapped, the stage
    goes on as with an empty template document, having logged that the
    file was not found; any other error of the loader ends the stage
    with STAGE_FAILURE, the text of the error being all it logs. *)
Theorem missing_template_file_is_an_empty_document (i : Input.t) (w : World.t)
    (options : AnalysisStageOptions.t) (ds : DeploySource.t) (err : error) :
  Input.StageConfig_AnalysisStageOptions i = Some options ->
  Input.RunningDSP_Get i = Ok ds ->
  World.LoadAnalysisTemplate w (DeploySource.RepoDir ds) = Err err ->
  let empty := with_template w (fun _ => Ok AnalysisTemplateSpec.empty) in
  (errors_Is err ErrNotFound = true ->
   Execute L i w =
     (fst (Execute L i empty),
      Logger_Info "config file for AnalysisTemplate not found"
        :: snd (Execute L i empty))) /\
  (errors_Is err ErrNotFound = false ->
   Execute L i w = (STAGE_FAILURE, [LogPersister_Error (Error err)])).
Proof.
  intros Hopt Hds Hload empty. split; intros Hnf.
  - unfold Execute. rewrite Hopt, Hds, Hload, Hnf. subst empty. cbn [with_template
      World.LoadAnalysisTemplate World.Now].
    destruct (retrievePreviousElapsedTime L _) as [prev ev_prev].
    set (e := Executor.mk _ _ _ _ _). set (timeout := if prev >? 0 then _ else _).
    change (Execute_analyses L e (with_template w _) options AnalysisTemplateSpec.empty timeout)
      with (Execute_analyses L e w options AnalysisTemplateSpec.empty timeout).
    change (saveElapsedTime e (with_template w _)) with (saveElapsedTime e w).
    by destruct (Execute_analyses L e w options AnalysisTemplateSpec.empty timeout).
  - unfold Execute. by rewrite Hopt, Hds, Hload, Hnf.
Qed.

End TemplateFile.


(** A repository without a template file, and a stage whose check is
    written in the stage itself: the stage succeeds. *)
Lemma a_repository_without_template_file :
  let L := Ref.lib (sample_backend [(9 # 10)%Q]) in
  let i := sample_input inline_only None in
  let w := no_template_file (sample_world (30 * Minute) StopSignalNone) in
  fst (Execute L i w) = STAGE_SUCCESS /\
  hd_error (snd (Execute L i w))
    = Some (Logger_Info "config file for AnalysisTemplate not found").
Proof.
  intros L i w.
  destruct (missing_template_file_is_an_empty_document L i w inline_only
              (DeploySource.mk "/repo" sample_config)
              (ErrWrap "open /repo/.pipe: " ErrNotFound))
    as (Hnf & _); [reflexivity|reflexivity|reflexivity|].
  rewrite Hnf by reflexivity. split; [vm_compute; reflexivity|reflexivity].
Defined.

(** ** The two stores *)

Lemma without_logger_errors_app (tr1 tr2 : list event) :
  without_logger_errors (tr1 ++ tr2)
  = without_logger_errors tr1 ++ without_logger_errors tr2.
Proof. apply List.filter_app. Qed.

Section Stores.
Context (L : Lib).

Lemma Execute_analyses_with_stores (e : Executor.t) (w : World.t)
    (options : AnalysisStageOptions.t) (doc : AnalysisTemplateSpec.t)
    (timeout : Duration) (set put : option error) :
  let r := Execute_analyses L e w options doc timeout in
  let r' := Execute_analyses L e (with_stores w set put) options doc timeout in
  fst r' = fst r /\ without_logger_errors (snd r') = without_logger_errors (snd r).
Proof.
  unfold Execute_analyses.
  change (run_analyzers (with_stores w set put) timeout) with (run_analyzers w timeout).
  cbn [with_stores World.Signal World.PutLatestAnalysisResult_err].
  destruct (spawn_all L e options doc) as [started [msg|]]; [done|].
  destruct (eg_Wait _); [done|].
  destruct (negb _); [done|]. cbn [fst snd]. split; [done|].
  rewrite !without_logger_errors_app. do 2 f_equal.
  by destruct put, (World.PutLatestAnalysisResult_err w).
Qed.

(** X4. The status of the stage does not depend on whether the metadata
    store and the analysis result store accept what is written to them:
    a write that fails is logged by the error logger and has no other
    effect on the run. *)
Theorem store_failures_are_only_logged (i : Input.t) (w : World.t)
    (set put : option error) :
  fst (Execute L i (with_stores w set put)) = fst (Execute L i w) /\
  without_logger_errors (snd (Execute L i (with_stores w set put)))
  = without_logger_errors (snd (Execute L i w)).
Proof.
  unfold Execute. cbn [with_stores World.LoadAnalysisTemplate World.Now].
  destruct (Input.StageConfig_AnalysisStageOptions i) as [options|]; [|done].
  destruct (Input.RunningDSP_Get i) as [ds|err]; [|done].
  set (loaded := match World.LoadAnalysisTemplate w (DeploySource.RepoDir ds) with
                 | Ok templateCfg => _
                 | Err err => _
                 end).
  destruct loaded as [[doc|err] ev]; [|done].
  destruct (retrievePreviousElapsedTime L _) as [prev ev_prev].
  set (e := Executor.mk _ _ _ _ _). set (timeout := if prev >? 0 then _ else _).
  destruct (Execute_analyses_with_stores e w options doc timeout set put) as [Hst Htr].
  destruct (Execute_analyses L e w options doc timeout) as [st tr].
  destruct (Execute_analyses L e (with_stores w set put) options doc timeout) as [st' tr'].
  cbn [fst snd] in *. split; [done|].
  rewrite !without_logger_errors_app, Htr. do 3 f_equal.
  unfold saveElapsedTime. cbn [with_stores World.Since World.SetStageMetadata_err].
  by destruct set, (World.SetStageMetadata_err w).
Qed.

End Stores.

(** ** Resuming a stage *)

Section Resume.
Context (L : Lib).

(** X5. A stage that starts on the metadata an earlier run of it has
    written, and whose duration parser reads the stored string back,
    takes as previous elapsed time the sum the earlier run stored, its
    own previous elapsed time and the time it ran, and installs the
    deadline that is left of its duration after that sum. *)
Theorem elapsed_time_is_resumed (i1 i2 : Input.t) (w1 w2 : World.t)
    (options1 options2 : AnalysisStageOptions.t) (ds1 ds2 : DeploySource.t) :
  reaches_deadline i1 w1 options1 ds1 ->
  reaches_deadline i2 w2 options2 ds2 ->
  Input.MetadataStore_GetStageMetadata i2 (Input.Stage_Id i2)
    = metadata_after (written_metadata (snd (Execute L i1 w1))) (Input.Stage_Id i1) ->
  let stored :=
    dur_add (World.Since w1) (Executor.previousElapsedTime (executor_of L i1 w1 ds1)) in
  ParseDuration L (Duration_String stored) = Ok stored ->
  Executor.previousElapsedTime (executor_of L i2 w2 ds2) = stored /\
  installed_deadline (snd (Execute L i2 w2))
    = Some (remaining (AnalysisStageOptions.Duration options2) stored).
Proof.
  intros H1 H2 Hmeta stored Hparse.
  rewrite (Execute_writes_elapsedTime L i1 w1 options1 ds1 H1) in Hmeta.
  unfold metadata_after in Hmeta. cbn [List.filter fst] in Hmeta.
  rewrite String.eqb_refl in Hmeta.
  cbn [last fmap option_fmap option_map snd] in Hmeta. fold stored in Hmeta.
  assert (Hprev : Executor.previousElapsedTime (executor_of L i2 w2 ds2) = stored).
  { unfold executor_of. cbn [Executor.previousElapsedTime].
    rewrite retrievePreviousElapsedTime_decodes. unfold stored_elapsedTime.
    cbn [Executor.Input]. rewrite Hmeta, lookup_singleton_eq, Hparse. reflexivity. }
  split; [exact Hprev|].
  rewrite (Execute_installs_remaining L i2 w2 options2 ds2 H2), Hprev. reflexivity.
Qed.

(** X6. The deadline installed on the stage context never exceeds the
    configured duration, whatever the stage metadata hold: it is the
    duration itself when the previous elapsed time is not positive, and
    otherwise falls short of it by the previous elapsed time, without
    overflow. *)
Theorem deadline_is_bounded_by_the_duration (i : Input.t) (w : World.t)
    (options : AnalysisStageOptions.t) (ds : DeploySource.t) :
  reaches_deadline i w options ds ->
  let P := Executor.previousElapsedTime (executor_of L i w ds) in
  let D := AnalysisStageOptions.Duration options in
  0 <= D -> inInt64 D -> inInt64 P ->
  exists timeout,
    installed_deadline (snd (Execute L i w)) = Some timeout /\
    timeout <= D /\ inInt64 timeout /\
    (timeout = D <-> P <= 0) /\
    (0 < P -> timeout = D - P).
Proof.
  intros Hreach P D HD HDr HPr.
  rewrite (Execute_installs_remaining L i w options ds Hreach). fold P D.
  unfold remaining, dur_sub. eexists. split; [reflexivity|].
  unfold inInt64, minInt64, maxInt64 in *.
  destruct (Z.gtb_spec P 0).
  - rewrite wrap64_id by (unfold inInt64, minInt64, maxInt64; lia).
    repeat split; lia.
  - repeat split; lia.
Qed.

End Resume.


(** A stage of 30 minutes that had run for 20 minutes and ran 5 more:
    its next run starts from 25 minutes, with 5 minutes left. *)
Lemma a_stage_resumed_twice :
  let L := Ref.lib (sample_backend [(9 # 10)%Q]) in
  let options := sample_options "http_error_rate" job_foo in
  let i1 := sample_input options (Some {[ "elapsedTime" := "20m0s" ]}) in
  let i2 := sample_input options (Some {[ "elapsedTime" := "25m0s" ]}) in
  let w := sample_world (5 * Minute) StopSignalNone in
  let ds := DeploySource.mk "/repo" sample_config in
  Executor.previousElapsedTime (executor_of L i2 w ds) = 25 * Minute /\
  installed_deadline (snd (Execute L i2 w)) = Some (5 * Minute).
Proof.
  intros L options i1 i2 w ds.
  destruct (elapsed_time_is_resumed L i1 i2 w w options options ds ds)
    as (Hprev & Hdeadline).
  - vm_compute. auto.
  - vm_compute. auto.
  - vm_compute. reflexivity.
  - vm_compute. reflexivity.
  - split; [rewrite Hprev|rewrite Hdeadline]; vm_compute; reflexivity.
Defined.

(** The same stage after 20 minutes: the deadline is within the 30
    minutes of its duration. *)
Lemma a_resumed_stage_has_less_time :
  let L := Ref.lib (sample_backend [(9 # 10)%Q]) in
  let options := sample_options "http_error_rate" job_foo in
  let i := sample_input options (Some {[ "elapsedTime" := "20m0s" ]}) in
  let w := sample_world (5 * Minute) StopSignalNone in
  exists timeout,
    installed_deadline (snd (Execute L i w)) = Some timeout /\ timeout <= 30 * Minute.
Proof.
  intros L options i w.
  destruct (deadline_is_bounded_by_the_duration L i w options
              (DeploySource.mk "/repo" sample_config))
    as (timeout & Hdeadline & Hbound & _).
  - vm_compute. auto.
  - vm_compute. discriminate.
  - vm_compute. split; discriminate.
  - vm_compute. split; discriminate.
  - exists timeout. split; [exact Hdeadline|exact Hbound].
Defined.

(** ** A stage that succeeds *)

Lemma returned_nil_results (results : list (string * option error)) :
  Forall (fun r => snd r = None) results ->
  results = map (fun id => (id, None)) (map fst results).
Proof.
  induction 1 as [|[id err] l Hx _ IH]; [done|].
  cbn in *. subst err. by rewrite <- IH.
Qed.

Section Success.
Context (L : Lib).

Lemma Execute_reaches_deadline (i : Input.t) (w : World.t) :
  fst (Execute L i w) <> STAGE_FAILURE ->
  exists options ds, reaches_deadline i w options ds.
Proof.
  unfold Execute, reaches_deadline.
  destruct (Input.StageConfig_AnalysisStageOptions i) as [options|]; [|done].
  destruct (Input.RunningDSP_Get i) as [ds|err]; [|done].
  intros H. exists options, ds. split; [done|]. split; [done|].
  destruct (World.LoadAnalysisTemplate w (DeploySource.RepoDir ds)) as [doc|err]; [done|].
  by destruct (errors_Is err ErrNotFound).
Qed.

(** What the analyses have done when all analyzers were built and
    have returned nil. *)
Lemma Execute_analyses_all_nil (e : Executor.t) (w : World.t)
    (options : AnalysisStageOptions.t) (doc : AnalysisTemplateSpec.t)
    (timeout : Duration) :
  Forall is_built (constructions L e options doc) ->
  Forall (fun r => snd r = None)
    (run_analyzers w timeout (built (constructions L e options doc))) ->
  let r := Execute_analyses L e w options doc timeout in
  let status :=
    DetermineStageStatus L (World.Signal w) (Input.Stage_Status (Executor.Input e))
      STAGE_SUCCESS in
  fst r = status /\
  returned (snd r) = map (fun id => (id, None)) (analyzer_ids options) /\
  stored_results (snd r) =
    if bool_decide (status = STAGE_SUCCESS) then [Executor.startTime e / Second] else [].
Proof.
  intros Hbuilt Hnil. cbn zeta. unfold Execute_analyses.
  rewrite spawn_all_first_failure, (first_failure_built _ Hbuilt).
  set (started := built (constructions L e options doc)) in *.
  set (results := run_analyzers w timeout started) in *.
  rewrite (proj2 (eg_Wait_None results) Hnil).
  assert (Hres : results = map (fun id => (id, None)) (analyzer_ids options)).
  { rewrite (returned_nil_results results Hnil). f_equal.
    unfold results. rewrite run_analyzers_ids.
    pose proof (constructions_ids L e options doc) as [_ Hids].
    rewrite (first_failure_built _ Hbuilt) in Hids. by apply Hids. }
  destruct (readers_go started) as (_ & _ & Hgo).
  destruct (readers_returned_events results) as (_ & _ & Hre).
  destruct (bool_decide _); cbn [negb fst snd];
    rewrite !returned_app, !stored_results_app, returned_go, returned_returned_events,
      Hgo, Hre, <- Hres; cbn; rewrite ?app_nil_r.
  - by destruct (World.PutLatestAnalysisResult_err w); cbn; rewrite ?app_nil_r.
  - done.
Qed.

(** X7. A stage ends with STAGE_SUCCESS only when every configured check
    got its analyzer, every analyzer has returned nil and the status
    helper has answered STAGE_SUCCESS. The analysis result is then
    stored once, and its start time is the instant this run of the stage
    was entered, in Unix seconds, also on a run that resumes with a
    previous elapsed time. *)
Theorem success_is_after_every_check (i : Input.t) (w : World.t) :
  fst (Execute L i w) = STAGE_SUCCESS ->
  let tr := snd (Execute L i w) in
  exists options,
    Input.StageConfig_AnalysisStageOptions i = Some options /\
    DetermineStageStatus L (World.Signal w) (Input.Stage_Status i) STAGE_SUCCESS
      = STAGE_SUCCESS /\
    returned tr = map (fun id => (id, None)) (analyzer_ids options) /\
    stored_results tr = [World.Now w / Second].
Proof.
  intros Hsuccess tr. subst tr.
  destruct (Execute_reaches_deadline i w) as (options & ds & Hreach);
    [by rewrite Hsuccess|].
  exists options. split; [apply Hreach|].
  destruct (Execute_unfold L i w options ds Hreach) as (ev & Hev & Heq).
  cbn zeta in Heq. rewrite Heq in *. clear Heq. cbn [fst snd] in *.
  set (e := executor_of L i w ds) in *. set (doc := loaded_template w ds) in *.
  set (timeout := remaining _ _) in *.
  assert (Hcases : Forall is_built (constructions L e options doc) /\
                   Forall (fun r => snd r = None)
                     (run_analyzers w timeout (built (constructions L e options doc)))).
  { revert Hsuccess. unfold Execute_analyses. rewrite spawn_all_first_failure.
    destruct (first_failure (constructions L e options doc)) as [started [msg|]] eqn:Hff;
      [done|].
    apply first_failure_None in Hff as [Hbuilt ->].
    destruct (eg_Wait _) eqn:Hwait; [done|]. intros _.
    split; [done|]. by apply eg_Wait_None. }
  destruct Hcases as [Hbuilt Hnil].
  destruct (Execute_analyses_all_nil e w options doc timeout Hbuilt Hnil)
    as (Hst & Hret & Hput).
  rewrite Hsuccess in Hst. change (Input.Stage_Status (Executor.Input e))
    with (Input.Stage_Status i) in *.
  split; [done|].
  destruct (readers_log ev Hev) as (_ & _ & Hlog).
  destruct (readers_saveElapsedTime e w) as (_ & _ & Hsave).
  rewrite !returned_app, !stored_results_app, (returned_log ev Hev),
    returned_saveElapsedTime, Hlog, Hsave, Hret, Hput, !app_nil_r.
  rewrite <- Hst, bool_decide_eq_true_2 by done. done.
Qed.

(** X8. A stage whose duration is used up when it starts, the previous
    elapsed time being at least the duration, gets a deadline that has
    passed: when its analyzers can be built and no ticker fires before
    the stage was entered, every analyzer returns nil, and the status of
    the stage is what the status helper makes of STAGE_SUCCESS. *)
Theorem used_up_duration_passes_the_stage (i : Input.t) (w : World.t)
    (options : AnalysisStageOptions.t) (ds : DeploySource.t) :
  reaches_deadline i w options ds ->
  let P := Executor.previousElapsedTime (executor_of L i w ds) in
  let D := AnalysisStageOptions.Duration options in
  0 <= D <= P -> inInt64 P ->
  (forall id, Forall (fun t => World.Now w <= t) (World.Ticks w id)) ->
  Forall is_built
    (constructions L (executor_of L i w ds) options (loaded_template w ds)) ->
  let tr := snd (Execute L i w) in
  (exists timeout, installed_deadline tr = Some timeout /\ timeout <= 0) /\
  fst (Execute L i w)
    = DetermineStageStatus L (World.Signal w) (Input.Stage_Status i) STAGE_SUCCESS /\
  returned tr = map (fun id => (id, None)) (analyzer_ids options).
Proof.
  intros Hreach P D HD HP Hticks Hbuilt tr. subst tr.
  pose proof (Execute_installs_remaining L i w options ds Hreach) as Hdeadline.
  destruct (Execute_unfold L i w options ds Hreach) as (ev & Hev & Heq).
  cbn zeta in Heq. rewrite Heq in *. clear Heq. cbn [fst snd] in *.
  fold P D in Hdeadline |- *.
  set (e := executor_of L i w ds) in *. set (doc := loaded_template w ds) in *.
  assert (Htimeout : remaining D P <= 0).
  { unfold remaining, dur_sub. unfold inInt64, minInt64, maxInt64 in HP.
    destruct (Z.gtb_spec P 0); [|lia].
    rewrite wrap64_id by (unfold inInt64, minInt64, maxInt64; lia). lia. }
  assert (Hnil : Forall (fun r => snd r = None)
                   (run_analyzers w (remaining D P) (built (constructions L e options doc)))).
  { unfold run_analyzers. apply Forall_map, Forall_forall. intros a _. cbn [snd].
    specialize (Hticks (analyzer.id a)).
    destruct (World.Ticks w (analyzer.id a)) as [|t ticks]; [done|].
    apply Forall_cons in Hticks as [Ht _]. cbn [ticks_before].
    destruct (Z.ltb_spec t (World.Now w + remaining D P)); [lia|done]. }
  destruct (Execute_analyses_all_nil e w options doc (remaining D P) Hbuilt Hnil)
    as (Hst & Hret & _).
  split; [by exists (remaining D P)|]. split; [exact Hst|].
  rewrite !returned_app, (returned_log ev Hev), returned_saveElapsedTime, Hret, app_nil_r.
  done.
Qed.

End Success.


(** The sample stage over its 30 minutes, with a value within the
    bound at every tick. *)
Lemma a_stage_that_succeeds :
  let L := Ref.lib (sample_backend [(9 # 10)%Q]) in
  let i := sample_input (sample_options "http_error_rate" job_foo) None in
  let w := sample_world (30 * Minute) StopSignalNone in
  fst (Execute L i w) = STAGE_SUCCESS /\
  returned (snd (Execute L i w)) = [("metrics-0", None)] /\
  stored_results (snd (Execute L i w)) = [0].
Proof.
  intros L i w.
  assert (Hsuccess : fst (Execute L i w) = STAGE_SUCCESS) by (vm_compute; reflexivity).
  destruct (success_is_after_every_check L i w Hsuccess)
    as (options & Hopt & _ & Hret & Hput).
  cbn in Hopt. injection Hopt as <-.
  split; [exact Hsuccess|].
  split; [rewrite Hret|rewrite Hput]; vm_compute; reflexivity.
Defined.

(** The sample stage started again when its 30 minutes are used up,
    against a backend whose values are above the bound: no tick is
    evaluated and the stage succeeds. *)
Lemma a_stage_resumed_after_its_duration :
  let L := Ref.lib (sample_backend [(11 # 10)%Q]) in
  let options := sample_options "http_error_rate" job_foo in
  let i := sample_input options (Some {[ "elapsedTime" := "30m0s" ]}) in
  let w := sample_world (1 * Minute) StopSignalNone in
  fst (Execute L i w) = STAGE_SUCCESS /\
  returned (snd (Execute L i w)) = [("metrics-0", None)].
Proof.
  intros L options i w.
  destruct (used_up_duration_passes_the_stage L i w options
              (DeploySource.mk "/repo" sample_config))
    as (_ & Hst & Hret).
  - vm_compute. auto.
  - vm_compute. split; discriminate.
  - vm_compute. split; discriminate.
  - intros id. apply Forall_map, Forall_forall. intros k _.
    unfold Minute, Second, Millisecond, Microsecond, Nanosecond. cbn [World.Now w sample_world].
    lia.
  - vm_compute. repeat constructor.
  - split; [exact Hst|]. rewrite Hret. vm_compute. reflexivity.
Defined.

(** ** Resolving the config of a check *)

Section Resolution.
Context (L : Lib) (e : Executor.t) (templateCfg : AnalysisTemplateSpec.t).

Lemma getMetricsConfig_resolved (m : TemplatableAnalysisMetrics.t) :
  getMetricsConfig L e m templateCfg
    (AnalysisTemplateRef.Args (TemplatableAnalysisMetrics.Template m)) =
  match resolved_metrics L e templateCfg m with
  | Some cfg =>
      match AnalysisMetrics_Validate L cfg with
      | Some err => Err (ErrWrap "invalid metrics configuration: " err)
      | None => Ok cfg
      end
  | None =>
      match render L e templateCfg
              (AnalysisTemplateRef.Args (TemplatableAnalysisMetrics.Template m)) with
      | Err err => Err err
      | Ok _ =>
          Err (template_not_found
                 (AnalysisTemplateRef.Name (TemplatableAnalysisMetrics.Template m)))
      end
  end.
Proof.
  unfold getMetricsConfig, resolved_metrics.
  destruct (String.eqb _ ""); [done|].
  destruct (render L e templateCfg _) as [rendered|err]; [|done].
  by destruct (AnalysisTemplateSpec.Metrics rendered !! _).
Qed.

Lemma getLogConfig_resolved (l : TemplatableAnalysisLog.t) :
  getLogConfig L e l templateCfg
    (AnalysisTemplateRef.Args (TemplatableAnalysisLog.Template l)) =
  match resolved_log L e templateCfg l with
  | Some cfg => Ok cfg
  | None =>
      match render L e templateCfg
              (AnalysisTemplateRef.Args (TemplatableAnalysisLog.Template l)) with
      | Err err => Err err
      | Ok _ =>
          Err (template_not_found
                 (AnalysisTemplateRef.Name (TemplatableAnalysisLog.Template l)))
      end
  end.
Proof.
  unfold getLogConfig, resolved_log.
  destruct (String.eqb _ ""); [done|].
  destruct (render L e templateCfg _) as [rendered|err]; [|done].
  by destruct (AnalysisTemplateSpec.Logs rendered !! _).
Qed.

Lemma getHTTPConfig_resolved (h : TemplatableAnalysisHTTP.t) :
  getHTTPConfig L e h templateCfg
    (AnalysisTemplateRef.Args (TemplatableAnalysisHTTP.Template h)) =
  match resolved_http L e templateCfg h with
  | Some cfg => Ok cfg
  | None =>
      match render L e templateCfg
              (AnalysisTemplateRef.Args (TemplatableAnalysisHTTP.Template h)) with
      | Err err => Err err
      | Ok _ =>
          Err (template_not_found
                 (AnalysisTemplateRef.Name (TemplatableAnalysisHTTP.Template h)))
      end
  end.
Proof.
  unfold getHTTPConfig, resolved_http.
  destruct (String.eqb _ ""); [done|].
  destruct (render L e templateCfg _) as [rendered|err]; [|done].
  by destruct (AnalysisTemplateSpec.HTTPs rendered !! _).
Qed.

(** X9. Of the three kinds of check only a metrics check is validated.
    The analyzer of a metrics check is built only from a config that
    passes [Validate], be it written in the check or taken from the
    rendered template, and runs with the query, interval, failure limit
    and no-data setting of that config; a config that does not pass
    gives the error "invalid metrics configuration: ...", which wraps
    the error of the validation. The config of a log or http check is
    used as it is: an http check always gets its analyzer, and a log
    check whenever its provider can be built. *)
Theorem only_metrics_checks_are_validated :
  (forall i m a,
      newAnalyzerForMetrics L e i m templateCfg = Ok a ->
      exists cfg,
        resolved_metrics L e templateCfg m = Some cfg /\
        AnalysisMetrics_Validate L cfg = None /\
        runs_with a (metrics_id i) (AnalysisMetrics.Query cfg)
          (AnalysisMetrics.Interval cfg) (AnalysisMetrics.FailureLimit cfg)
          (AnalysisMetrics.SkipOnNoData cfg)) /\
  (forall i m cfg err,
      resolved_metrics L e templateCfg m = Some cfg ->
      AnalysisMetrics_Validate L cfg = Some err ->
      newAnalyzerForMetrics L e i m templateCfg
        = Err (ErrWrap "invalid metrics configuration: " err) /\
      forall target,
        errors_Is (ErrWrap "invalid metrics configuration: " err) target
        = errors_Is err target) /\
  (forall i l cfg provider,
      resolved_log L e templateCfg l = Some cfg ->
      newLogProvider L e (AnalysisLog.Provider cfg) = Ok provider ->
      exists a,
        newAnalyzerForLog L e i l templateCfg = Ok a /\
        runs_with a (log_id i) (AnalysisLog.Query cfg) (AnalysisLog.Interval cfg)
          (AnalysisLog.FailureLimit cfg) (AnalysisLog.SkipOnNoData cfg)) /\
  (forall i h cfg,
      resolved_http L e templateCfg h = Some cfg ->
      exists a,
        newAnalyzerForHTTP L e i h templateCfg = Ok a /\
        runs_with a (http_id i) "" (AnalysisHTTP.Interval cfg)
          (AnalysisHTTP.FailureLimit cfg) (AnalysisHTTP.SkipOnNoData cfg)).
Proof.
  split; [|split; [|split]].
  - intros i m a. unfold newAnalyzerForMetrics. rewrite getMetricsConfig_resolved.
    destruct (resolved_metrics L e templateCfg m) as [cfg|];
      [|by destruct (render L e templateCfg _)].
    destruct (AnalysisMetrics_Validate L cfg) eqn:Hvalid; [done|].
    destruct (newMetricsProvider L e _ m) as [provider|]; [|done].
    intros [= <-]. exists cfg. by repeat split.
  - intros i m cfg err Hcfg Hvalid. split.
    + unfold newAnalyzerForMetrics. by rewrite getMetricsConfig_resolved, Hcfg, Hvalid.
    + intros target. cbn. by destruct err, target.
  - intros i l cfg provider Hcfg Hprovider. unfold newAnalyzerForLog.
    rewrite getLogConfig_resolved, Hcfg, Hprovider. eexists. by repeat split.
  - intros i h cfg Hcfg. unfold newAnalyzerForHTTP.
    rewrite getHTTPConfig_resolved, Hcfg. eexists. by repeat split.
Qed.

(** X10. A check that names a template takes nothing from the config
    written in the check itself: two checks with the same template
    reference resolve to the same config, whatever each of them has
    written beside the reference, and the analyzers of two such log
    checks, or http checks, are the same. *)
Theorem template_replaces_the_inline_config :
  (forall m1 m2,
      TemplatableAnalysisMetrics.Template m1 = TemplatableAnalysisMetrics.Template m2 ->
      AnalysisTemplateRef.Name (TemplatableAnalysisMetrics.Template m1) <> "" ->
      getMetricsConfig L e m1 templateCfg
        (AnalysisTemplateRef.Args (TemplatableAnalysisMetrics.Template m1))
      = getMetricsConfig L e m2 templateCfg
          (AnalysisTemplateRef.Args (TemplatableAnalysisMetrics.Template m2))) /\
  (forall i l1 l2,
      TemplatableAnalysisLog.Template l1 = TemplatableAnalysisLog.Template l2 ->
      AnalysisTemplateRef.Name (TemplatableAnalysisLog.Template l1) <> "" ->
      newAnalyzerForLog L e i l1 templateCfg = newAnalyzerForLog L e i l2 templateCfg) /\
  (forall i h1 h2,
      TemplatableAnalysisHTTP.Template h1 = TemplatableAnalysisHTTP.Template h2 ->
      AnalysisTemplateRef.Name (TemplatableAnalysisHTTP.Template h1) <> "" ->
      newAnalyzerForHTTP L e i h1 templateCfg = newAnalyzerForHTTP L e i h2 templateCfg).
Proof.
  split; [|split].
  - intros m1 m2 Href Hname. unfold getMetricsConfig. rewrite <- Href.
    by destruct (String.eqb_spec
                   (AnalysisTemplateRef.Name (TemplatableAnalysisMetrics.Template m1)) "").
  - intros i l1 l2 Href Hname. unfold newAnalyzerForLog, getLogConfig. rewrite <- Href.
    by destruct (String.eqb_spec
                   (AnalysisTemplateRef.Name (TemplatableAnalysisLog.Template l1)) "").
  - intros i h1 h2 Href Hname. unfold newAnalyzerForHTTP, getHTTPConfig. rewrite <- Href.
    by destruct (String.eqb_spec
                   (AnalysisTemplateRef.Name (TemplatableAnalysisHTTP.Template h1)) "").
Qed.

(** X11. The provider of a metrics or log check is the one the agent
    configuration has under the provider name of the resolved config;
    when it has none, the constructor returns the error "unknown
    provider name ..." without asking the provider factory. An http
    check needs no entry of the agent configuration. *)
Theorem unknown_provider_is_a_construction_error :
  (forall i m cfg,
      getMetricsConfig L e m templateCfg
        (AnalysisTemplateRef.Args (TemplatableAnalysisMetrics.Template m)) = Ok cfg ->
      Input.PipedConfig_GetAnalysisProvider (Executor.Input e) (AnalysisMetrics.Provider cfg)
        = None ->
      newAnalyzerForMetrics L e i m templateCfg
        = Err (unknown_provider (AnalysisMetrics.Provider cfg)) /\
      Error (unknown_provider (AnalysisMetrics.Provider cfg))
        = "unknown provider name " +:+ AnalysisMetrics.Provider cfg) /\
  (forall i l cfg,
      getLogConfig L e l templateCfg
        (AnalysisTemplateRef.Args (TemplatableAnalysisLog.Template l)) = Ok cfg ->
      Input.PipedConfig_GetAnalysisProvider (Executor.Input e) (AnalysisLog.Provider cfg)
        = None ->
      newAnalyzerForLog L e i l templateCfg
        = Err (unknown_provider (AnalysisLog.Provider cfg))) /\
  (forall i h,
      isOk (newAnalyzerForHTTP L e i h templateCfg)
      = isOk (getHTTPConfig L e h templateCfg
                (AnalysisTemplateRef.Args (TemplatableAnalysisHTTP.Template h)))).
Proof.
  split; [|split].
  - intros i m cfg Hcfg Hnone. split; [|done].
    unfold newAnalyzerForMetrics, newMetricsProvider. by rewrite Hcfg, Hnone.
  - intros i l cfg Hcfg Hnone.
    unfold newAnalyzerForLog, newLogProvider. by rewrite Hcfg, Hnone.
  - intros i h. unfold newAnalyzerForHTTP. by destruct (getHTTPConfig L e h templateCfg _).
Qed.

End Resolution.


(** A metrics check without expected range is refused; an http check
    with an interval of zero and a negative failure limit gets its
    analyzer. *)
Lemma an_http_check_is_not_validated :
  let L := Ref.lib (sample_backend []) in
  newAnalyzerForMetrics L sample_executor 0
    (TemplatableAnalysisMetrics.mk no_check (AnalysisTemplateRef.mk "" ∅)) sample_doc
  = Err (ErrWrap "invalid metrics configuration: " (ErrNew "expected range is undefined")) /\
  exists a,
    newAnalyzerForHTTP L sample_executor 0 (sample_http 0 (-1)) sample_doc = Ok a /\
    runs_with a (http_id 0) "" 0 (-1) false.
Proof.
  intros L.
  destruct (only_metrics_checks_are_validated L sample_executor sample_doc)
    as (_ & Hinvalid & _ & Hhttp).
  split.
  - apply (Hinvalid 0%nat
             (TemplatableAnalysisMetrics.mk no_check (AnalysisTemplateRef.mk "" ∅)) no_check);
      reflexivity.
  - apply (Hhttp 0%nat (sample_http 0 (-1))
             (TemplatableAnalysisHTTP.AnalysisHTTP (sample_http 0 (-1)))).
    reflexivity.
Defined.

(** The check of the sample stage, and the same check with settings of
    its own beside the template reference. *)
Lemma a_templated_check_ignores_its_own_settings :
  let L := Ref.lib (sample_backend []) in
  let m :=
    TemplatableAnalysisMetrics.mk
      (TemplatableAnalysisMetrics.AnalysisMetrics (inline_check "datadog"))
      (AnalysisTemplateRef.mk "http_error_rate" job_foo) in
  getMetricsConfig L sample_executor m sample_doc job_foo
  = getMetricsConfig L sample_executor sample_templatable sample_doc job_foo.
Proof.
  intros L m.
  destruct (template_replaces_the_inline_config L sample_executor sample_doc)
    as (Hmetrics & _).
  apply (Hmetrics m sample_templatable); [reflexivity|discriminate].
Defined.

(** A check for a provider that the agent configuration does not
    have. *)
Lemma a_check_for_an_unknown_provider :
  let L := Ref.lib (sample_backend []) in
  newAnalyzerForMetrics L sample_executor 1 (inline_check "datadog") sample_doc
  = Err (unknown_provider "datadog").
Proof.
  intros L.
  destruct (unknown_provider_is_a_construction_error L sample_executor sample_doc)
    as (Hmetrics & _).
  apply (Hmetrics 1%nat (inline_check "datadog")
           (TemplatableAnalysisMetrics.AnalysisMetrics (inline_check "datadog")));
    reflexivity.
Defined.

Section Rendering.
Context (L : Lib) (e : Executor.t).

(** X12. Rendering concerns the checks that name a template, and only
    them. The analyzer of a check that names none is built without the
    template document, so that it is the same whatever the document
    holds; and when the document cannot be rendered with the arguments
    of a check that names a template, the error of [render] is the error
    of the constructor of its analyzer. *)
Theorem only_templated_checks_are_rendered :
  (forall i m doc1 doc2,
      AnalysisTemplateRef.Name (TemplatableAnalysisMetrics.Template m) = "" ->
      newAnalyzerForMetrics L e i m doc1 = newAnalyzerForMetrics L e i m doc2) /\
  (forall i l doc1 doc2,
      AnalysisTemplateRef.Name (TemplatableAnalysisLog.Template l) = "" ->
      newAnalyzerForLog L e i l doc1 = newAnalyzerForLog L e i l doc2) /\
  (forall i h doc1 doc2,
      AnalysisTemplateRef.Name (TemplatableAnalysisHTTP.Template h) = "" ->
      newAnalyzerForHTTP L e i h doc1 = newAnalyzerForHTTP L e i h doc2) /\
  (forall i m doc err,
      AnalysisTemplateRef.Name (TemplatableAnalysisMetrics.Template m) <> "" ->
      render L e doc (AnalysisTemplateRef.Args (TemplatableAnalysisMetrics.Template m))
        = Err err ->
      newAnalyzerForMetrics L e i m doc = Err err) /\
  (forall i l doc err,
      AnalysisTemplateRef.Name (TemplatableAnalysisLog.Template l) <> "" ->
      render L e doc (AnalysisTemplateRef.Args (TemplatableAnalysisLog.Template l))
        = Err err ->
      newAnalyzerForLog L e i l doc = Err err) /\
  (forall i h doc err,
      AnalysisTemplateRef.Name (TemplatableAnalysisHTTP.Template h) <> "" ->
      render L e doc (AnalysisTemplateRef.Args (TemplatableAnalysisHTTP.Template h))
        = Err err ->
      newAnalyzerForHTTP L e i h doc = Err err).
Proof.
  split; [|split; [|split; [|split; [|split]]]].
  - intros i m doc1 doc2 Hname.
    unfold newAnalyzerForMetrics, getMetricsConfig. by rewrite Hname.
  - intros i l doc1 doc2 Hname.
    unfold newAnalyzerForLog, getLogConfig. by rewrite Hname.
  - intros i h doc1 doc2 Hname.
    unfold newAnalyzerForHTTP, getHTTPConfig. by rewrite Hname.
  - intros i m doc err Hname Hrender.
    unfold newAnalyzerForMetrics, getMetricsConfig. rewrite Hrender.
    by destruct (String.eqb_spec
                   (AnalysisTemplateRef.Name (TemplatableAnalysisMetrics.Template m)) "").
  - intros i l doc err Hname Hrender.
    unfold newAnalyzerForLog, getLogConfig. rewrite Hrender.
    by destruct (String.eqb_spec
                   (AnalysisTemplateRef.Name (TemplatableAnalysisLog.Template l)) "").
  - intros i h doc err Hname Hrender.
    unfold newAnalyzerForHTTP, getHTTPConfig. rewrite Hrender.
    by destruct (String.eqb_spec
                   (AnalysisTemplateRef.Name (TemplatableAnalysisHTTP.Template h)) "").
Qed.

End Rendering.


(** An http check written in the stage itself, with and without the
    template document. *)
Lemma an_inline_check_needs_no_template :
  let L := Ref.lib (sample_backend []) in
  newAnalyzerForHTTP L sample_executor 0 (sample_http (1 * Minute) 0) sample_doc
  = newAnalyzerForHTTP L sample_executor 0 (sample_http (1 * Minute) 0)
      AnalysisTemplateSpec.empty.
Proof.
  intros L.
  destruct (only_templated_checks_are_rendered L sample_executor) as (_ & _ & Hhttp & _).
  apply Hhttp. reflexivity.
Defined.

(** ** The Lambda deploy executor *)

Section Lambda.
Context {CloudProviderLambdaConfig FunctionManifest : Type}.
Context (env : lambda.Env CloudProviderLambdaConfig FunctionManifest).
Context (i : lambda.Input) (sig : StopSignalType).

Lemma lambda_decided_app (tr1 tr2 : list (lambda.event FunctionManifest)) :
  lambda.decided (tr1 ++ tr2) = lambda.decided tr1 ++ lambda.decided tr2.
Proof.
  induction tr1 as [|ev tr1 IH]; [done|].
  destruct ev; cbn; rewrite ?IH; done.
Qed.

Lemma lambda_synced_app (tr1 tr2 : list (lambda.event FunctionManifest)) :
  lambda.synced (tr1 ++ tr2) = lambda.synced tr1 ++ lambda.synced tr2.
Proof.
  induction tr1 as [|ev tr1 IH]; [done|].
  destruct ev; cbn; rewrite ?IH; done.
Qed.

Lemma lambda_Execute_prepared (e : lambda.deployExecutor CloudProviderLambdaConfig) :
  lambda.prepares env i e ->
  lambda.Execute env i sig =
    if String.eqb (lambda.Stage_Name i) (lambda.StageLambdaSync env) then
      (lambda.DetermineStageStatus env sig (lambda.Stage_Status i)
         (fst (lambda.ensureSync env e)),
       lambda.Call_findCloudProvider :: snd (lambda.ensureSync env e)
       ++ [lambda.Call_DetermineStageStatus sig (lambda.Stage_Status i)
             (fst (lambda.ensureSync env e))])
    else if String.eqb (lambda.Stage_Name i) (lambda.StageLambdaPromote env) then
      (lambda.DetermineStageStatus env sig (lambda.Stage_Status i) STAGE_FAILURE,
       [lambda.Call_findCloudProvider;
        lambda.LogPersister_Error "This stage is not implemented yet";
        lambda.Call_DetermineStageStatus sig (lambda.Stage_Status i) STAGE_FAILURE])
    else
      (STAGE_FAILURE,
       [lambda.Call_findCloudProvider;
        lambda.LogPersister_Error
          ("Unsupported stage " +:+ lambda.Stage_Name i +:+ " for lambda application")]).
Proof.
  destruct e as [i' ds deployCfg name cfg]. intros (Hi & Hds & Hspec & Hfind).
  cbn in Hi, Hds, Hspec, Hfind. subst i'.
  unfold lambda.Execute. rewrite Hds, Hspec, Hfind.
  destruct (String.eqb _ (lambda.StageLambdaSync env)).
  - by destruct (lambda.ensureSync env _).
  - reflexivity.
Qed.

Lemma lambda_Execute_unprepared :
  (forall e, ~ lambda.prepares env i e) ->
  fst (lambda.Execute env i sig) = STAGE_FAILURE /\
  lambda.decided (snd (lambda.Execute env i sig)) = [] /\
  lambda.synced (snd (lambda.Execute env i sig)) = [].
Proof.
  intros Hnot. unfold lambda.Execute.
  destruct (lambda.TargetDSP_GetReadOnly i) as [ds|err] eqn:Hds; [|done].
  destruct (lambda.DeploymentConfig_LambdaDeploymentSpec ds) as [deployCfg|] eqn:Hspec;
    [|done].
  destruct (lambda.findCloudProvider env i) as [[name cfg]|] eqn:Hfind; [|done].
  destruct (Hnot (lambda.mkExecutor i ds deployCfg name cfg)). done.
Qed.

(** What [ensureSync] has done when it returns. *)
Lemma lambda_ensureSync_cases (e : lambda.deployExecutor CloudProviderLambdaConfig) :
  let r := lambda.ensureSync env e in
  let loaded :=
    lambda.loadFunctionManifest env (lambda.Input_ e)
      (lambda.Input_FunctionManifestFile (lambda.deployCfg e)) (lambda.deploySource e) in
  lambda.decided (snd r) = [] /\
  lambda.synced (snd r) =
    match loaded with
    | Some fm => [(lambda.cloudProviderName e, fm)]
    | None => []
    end /\
  fst r =
    match loaded with
    | Some fm =>
        if lambda.sync env (lambda.Input_ e) (lambda.cloudProviderName e)
             (lambda.cloudProviderCfg e) fm
        then STAGE_SUCCESS else STAGE_FAILURE
    | None => STAGE_FAILURE
    end.
Proof.
  unfold lambda.ensureSync. cbn zeta.
  destruct (lambda.loadFunctionManifest env _ _ _) as [fm|]; [|done].
  by destruct (lambda.sync env _ _ _ fm).
Qed.

(** X13. The status of the stage. A run that does not get to the switch
    on the stage, for want of the deploy source, of the Lambda
    deployment spec or of the cloud provider, and a run for a stage that
    is neither the sync nor the promote stage, end with STAGE_FAILURE
    whatever the stop signal: the status helper is not asked. For the
    sync and the promote stage the helper is asked once, with the
    signal, the status the stage had and the status the stage has
    reached, and its answer is the status of the stage. *)
Theorem lambda_status_is_decided_by_the_helper
    (e : lambda.deployExecutor CloudProviderLambdaConfig) :
  let st := fst (lambda.Execute env i sig) in
  let tr := snd (lambda.Execute env i sig) in
  ((forall e', ~ lambda.prepares env i e') ->
   st = STAGE_FAILURE /\ lambda.decided tr = []) /\
  (lambda.prepares env i e ->
   (lambda.supported env i = false ->
    st = STAGE_FAILURE /\ lambda.decided tr = []) /\
   (lambda.supported env i = true ->
    exists reached,
      lambda.decided tr = [(sig, lambda.Stage_Status i, reached)] /\
      st = lambda.DetermineStageStatus env sig (lambda.Stage_Status i) reached /\
      (reached = STAGE_SUCCESS \/ reached = STAGE_FAILURE))).
Proof.
  cbn zeta. split.
  - intros Hnot. destruct (lambda_Execute_unprepared Hnot) as (Hst & Hdec & _). done.
  - intros Hprep. rewrite (lambda_Execute_prepared e Hprep). unfold lambda.supported.
    destruct (lambda_ensureSync_cases e) as (Hdec & _ & Hst). cbn zeta in *.
    destruct (String.eqb _ (lambda.StageLambdaSync env)).
    + split; [done|]. intros _. exists (fst (lambda.ensureSync env e)). cbn [fst snd].
      split; [|split; [done|]].
      * cbn [lambda.decided]. by rewrite !lambda_decided_app, Hdec.
      * rewrite Hst. repeat case_match; auto.
    + destruct (String.eqb _ (lambda.StageLambdaPromote env)); cbn.
      * split; [done|]. intros _. exists STAGE_FAILURE. auto.
      * done.
Qed.

(** X14. What reaches the cloud. [sync] is called at most once in a run,
    and only for the sync stage, with the cloud provider that was found
    and the function manifest that was loaded; the status the stage
    reaches is STAGE_SUCCESS exactly when [sync] was called and has
    accepted. The promote stage calls nothing and reaches STAGE_FAILURE. *)
Theorem lambda_sync_is_for_the_sync_stage
    (e : lambda.deployExecutor CloudProviderLambdaConfig) :
  let tr := snd (lambda.Execute env i sig) in
  ((forall e', ~ lambda.prepares env i e') -> lambda.synced tr = []) /\
  (lambda.prepares env i e ->
   (String.eqb (lambda.Stage_Name i) (lambda.StageLambdaSync env) = false ->
    lambda.synced tr = [] /\
    forall reached, In (sig, lambda.Stage_Status i, reached) (lambda.decided tr) ->
                    reached = STAGE_FAILURE) /\
   (forall name fm,
       In (name, fm) (lambda.synced tr) ->
       lambda.synced tr = [(lambda.cloudProviderName e, fm)] /\
       String.eqb (lambda.Stage_Name i) (lambda.StageLambdaSync env) = true /\
       lambda.loadFunctionManifest env i
         (lambda.Input_FunctionManifestFile (lambda.deployCfg e))
         (lambda.deploySource e) = Some fm) /\
   (In (sig, lambda.Stage_Status i, STAGE_SUCCESS) (lambda.decided tr) <->
    exists fm, lambda.syncs env e fm)).
Proof.
  cbn zeta. split.
  - intros Hnot. by destruct (lambda_Execute_unprepared Hnot) as (_ & _ & Hsync).
  - intros Hprep. rewrite (lambda_Execute_prepared e Hprep).
    destruct (lambda_ensureSync_cases e) as (Hdec & Hsync & Hst). cbn zeta in *.
    assert (Hi : lambda.Input_ e = i) by apply Hprep.
    unfold lambda.syncs. rewrite Hi in *.
    destruct (String.eqb _ (lambda.StageLambdaSync env)).
    + cbn [fst snd].
      cbn [lambda.decided lambda.synced].
      rewrite !lambda_synced_app, !lambda_decided_app, Hdec, Hsync, Hst. cbn.
      split; [done|].
      destruct (lambda.loadFunctionManifest env i _ _) as [fm|]; cbn.
      * split.
        { intros name fm' [[= <- <-]|[]]. done. }
        destruct (lambda.sync env i _ _ fm) eqn:Hs.
        -- split; [by exists fm|]. intros _. by left.
        -- split; [by intros [[=]|[]]|]. intros (fm' & _ & [= <-] & Hs'). congruence.
      * split; [by intros ? ? []|].
        split; [by intros [[=]|[]]|]. by intros (fm' & _ & [=] & _).
    + destruct (String.eqb _ (lambda.StageLambdaPromote env)); cbn.
      * split; [|split].
        -- split; [done|]. by intros reached [[= <-]|[]].
        -- by intros ? ? [].
        -- split; [by intros [[=]|[]]|]. by intros (fm & [=] & _).
      * split; [|split].
        -- split; [done|]. by intros reached [].
        -- by intros ? ? [].
        -- split; [by intros []|]. by intros (fm & [=] & _).
Qed.

End Lambda.


(** The promote stage under a cancel signal: the helper is asked about
    a failed stage. *)
Lemma the_promote_stage_is_decided_by_the_helper :
  let tr := snd (lambda.Execute (lambda_env true) (lambda_input "LAMBDA_PROMOTE")
                   StopSignalCancel) in
  exists reached,
    lambda.decided tr = [(StopSignalCancel, STAGE_RUNNING, reached)] /\
    fst (lambda.Execute (lambda_env true) (lambda_input "LAMBDA_PROMOTE") StopSignalCancel)
    = Ref.DetermineStageStatus StopSignalCancel STAGE_RUNNING reached.
Proof.
  intros tr.
  destruct (lambda_status_is_decided_by_the_helper (lambda_env true)
              (lambda_input "LAMBDA_PROMOTE") StopSignalCancel
              (lambda_executor "LAMBDA_PROMOTE")) as (_ & Hprepared).
  destruct Hprepared as (_ & Hsupported); [repeat split|].
  destruct (Hsupported eq_refl) as (reached & Hdecided & Hst & _).
  exists reached. split; [exact Hdecided|exact Hst].
Defined.

(** The sync stage of a function whose sync is accepted. *)
Lemma the_sync_stage_syncs :
  In (StopSignalNone, STAGE_RUNNING, STAGE_SUCCESS)
    (lambda.decided
       (snd (lambda.Execute (lambda_env true) (lambda_input "LAMBDA_SYNC") StopSignalNone))).
Proof.
  destruct (lambda_sync_is_for_the_sync_stage (lambda_env true)
              (lambda_input "LAMBDA_SYNC") StopSignalNone (lambda_executor "LAMBDA_SYNC"))
    as (_ & Hprepared).
  destruct Hprepared as (_ & _ & Hsuccess); [repeat split|].
  apply Hsuccess. exists "function.yaml". repeat split.
Defined.

(** ** The Kubernetes executor *)

Section Kubernetes.
Context {Manifest InputHelmChart : Type}.
Context (env : kubernetes.Env Manifest InputHelmChart).

(** X15. How the manifests are templated. A Helm chart, a Helm value
    file or a Helm version in the input of the deployment spec makes the
    method Helm, whatever the application directory holds: the file
    system is looked at only when none of them is set, and the method is
    then Kustomize when the directory has a [kustomization.yaml] that
    can be stat'ed, and none otherwise. Without a Kubernetes deployment
    spec the function panics. *)
Theorem helm_settings_come_before_kustomize
    (deploymentConfig : kubernetes.Config InputHelmChart) (appDirPath : string) :
  (kubernetes.Config_KubernetesDeploymentSpec deploymentConfig = None ->
   kubernetes.determineTemplatingMethod env deploymentConfig appDirPath = None) /\
  (forall spec,
      kubernetes.Config_KubernetesDeploymentSpec deploymentConfig = Some spec ->
      (kubernetes.uses_helm (kubernetes.Input spec) ->
       forall env' : kubernetes.Env Manifest InputHelmChart,
         kubernetes.determineTemplatingMethod env' deploymentConfig appDirPath
         = Some kubernetes.TemplatingMethodHelm) /\
      (~ kubernetes.uses_helm (kubernetes.Input spec) ->
       kubernetes.determineTemplatingMethod env deploymentConfig appDirPath =
         Some (match kubernetes.os_Stat env
                       (kubernetes.filepath_Join env appDirPath "kustomization.yaml") with
               | None => kubernetes.TemplatingMethodKustomize
               | Some _ => kubernetes.TemplatingMethodNone
               end))).
Proof.
  unfold kubernetes.determineTemplatingMethod, kubernetes.uses_helm. split.
  - by intros ->.
  - intros spec ->. split.
    + intros [[chart Hchart]|[Hfiles|Hversion]] env'.
      * by rewrite Hchart.
      * destruct (kubernetes.HelmChart _); [done|].
        destruct (kubernetes.HelmValueFiles _); [done|]. done.
      * destruct (kubernetes.HelmChart _); [done|].
        destruct (0 <? _)%nat; [done|].
        by destruct (String.eqb_spec (kubernetes.HelmVersion (kubernetes.Input spec)) "").
    + intros Hno.
      destruct (kubernetes.HelmChart _) as [chart|] eqn:Hchart;
        [destruct Hno; left; by exists chart|].
      destruct (kubernetes.HelmValueFiles _) as [|f files] eqn:Hfiles;
        [|destruct Hno; right; left; done].
      cbn. destruct (String.eqb_spec (kubernetes.HelmVersion (kubernetes.Input spec)) "");
        [|destruct Hno; right; right; done].
      cbn. by destruct (kubernetes.os_Stat env _).
Qed.

(** X16. The stages of the executor. Without a Kubernetes deployment
    spec the stage fails with one error line and nothing else is done.
    With one, the executor determines the templating method, without
    panicking, logs the start of the stage, and then: for the primary
    update it does what [ensurePrimaryUpdate] does; for the stage
    rollout, the stage clean, the baseline rollout, the baseline clean
    and the traffic split it returns STAGE_SUCCESS and does nothing; for
    any other stage it fails with the error line "Unsupported stage
    ...". *)
Theorem kubernetes_stages (i : kubernetes.Input_ InputHelmChart) :
  (kubernetes.Config_KubernetesDeploymentSpec (kubernetes.DeploymentConfig i) = None ->
   kubernetes.Execute env i =
     Some (STAGE_FAILURE,
           [kubernetes.LogPersister_AppendError
              "Malformed deployment configuration: missing KubernetesDeploymentSpec"])) /\
  (forall spec,
      kubernetes.Config_KubernetesDeploymentSpec (kubernetes.DeploymentConfig i)
        = Some spec ->
      let appDirPath :=
        kubernetes.filepath_Join env (kubernetes.RepoDir i)
          (kubernetes.Deployment_GitPath_Path i) in
      exists method st rest,
        kubernetes.determineTemplatingMethod env (kubernetes.DeploymentConfig i) appDirPath
          = Some method /\
        kubernetes.Execute env i =
          Some (st,
                kubernetes.Logger_Info "start executing kubernetes stage"
                  [("stage-name", kubernetes.Stage_Name i);
                   ("app-dir-path", appDirPath);
                   ("templating-method", method)] :: rest) /\
        (kubernetes.Stage_Name i = kubernetes.StageK8sPrimaryUpdate env ->
         (st, rest)
         = kubernetes.ensurePrimaryUpdate env
             (kubernetes.mkExecutor i appDirPath method spec)) /\
        (kubernetes.is_placeholder_stage env (kubernetes.Stage_Name i) ->
         st = STAGE_SUCCESS /\ rest = []) /\
        (kubernetes.is_unsupported_stage env (kubernetes.Stage_Name i) ->
         st = STAGE_FAILURE /\
         rest = [kubernetes.LogPersister_AppendError
                   ("Unsupported stage " +:+ kubernetes.Stage_Name i
                    +:+ " for kubernetes application")])).
Proof.
  split.
  - intros Hnone. unfold kubernetes.Execute. by rewrite Hnone.
  - intros spec Hspec appDirPath.
    assert (Hmethod : exists method,
              kubernetes.determineTemplatingMethod env (kubernetes.DeploymentConfig i)
                appDirPath = Some method).
    { unfold kubernetes.determineTemplatingMethod. rewrite Hspec.
      repeat case_match; by eexists. }
    destruct Hmethod as [method Hmethod]. exists method.
    unfold kubernetes.Execute. rewrite Hspec. fold appDirPath. rewrite Hmethod.
    unfold kubernetes.is_placeholder_stage, kubernetes.is_unsupported_stage.
    destruct (String.eqb_spec (kubernetes.Stage_Name i) (kubernetes.StageK8sPrimaryUpdate env)).
    { eexists _, _. split; [done|]. split; [done|].
      split; [intros _; by destruct (kubernetes.ensurePrimaryUpdate env _)|].
      split; [by intros [? _]|by intros [? _]]. }
    destruct (String.eqb_spec (kubernetes.Stage_Name i) (kubernetes.StageK8sStageRollout env)).
    { eexists _, _. split; [done|]. split; [done|]. split; [done|].
      split; [done|]. by intros (_ & ? & _). }
    destruct (String.eqb_spec (kubernetes.Stage_Name i) (kubernetes.StageK8sStageClean env)).
    { eexists _, _. split; [done|]. split; [done|]. split; [done|].
      split; [done|]. by intros (_ & _ & ? & _). }
    destruct (String.eqb_spec (kubernetes.Stage_Name i) (kubernetes.StageK8sBaselineRollout env)).
    { eexists _, _. split; [done|]. split; [done|]. split; [done|].
      split; [done|]. by intros (_ & _ & _ & ? & _). }
    destruct (String.eqb_spec (kubernetes.Stage_Name i) (kubernetes.StageK8sBaselineClean env)).
    { eexists _, _. split; [done|]. split; [done|]. split; [done|].
      split; [done|]. by intros (_ & _ & _ & _ & ? & _). }
    destruct (String.eqb_spec (kubernetes.Stage_Name i) (kubernetes.StageK8sTrafficSplit env)).
    { eexists _, _. split; [done|]. split; [done|]. split; [done|].
      split; [done|]. by intros (_ & _ & _ & _ & _ & ?). }
    eexists _, _. split; [done|]. split; [done|]. split; [done|].
    split; [|done]. intros (_ & [?|[?|[?|[?|?]]]]); done.
Qed.

Lemma kubernetes_applied_app (tr1 tr2 : list (kubernetes.event Manifest)) :
  kubernetes.applied (tr1 ++ tr2) = kubernetes.applied tr1 ++ kubernetes.applied tr2.
Proof.
  induction tr1 as [|ev tr1 IH]; [done|].
  destruct ev; cbn; rewrite ?IH; done.
Qed.

Lemma kubernetes_annotated_app (tr1 tr2 : list (kubernetes.event Manifest)) :
  kubernetes.annotated (tr1 ++ tr2)
  = kubernetes.annotated tr1 ++ kubernetes.annotated tr2.
Proof.
  induction tr1 as [|ev tr1 IH]; [done|].
  destruct ev; cbn; rewrite ?IH; done.
Qed.

Lemma kubernetes_appended_errors_app (tr1 tr2 : list (kubernetes.event Manifest)) :
  kubernetes.appended_errors (tr1 ++ tr2)
  = kubernetes.appended_errors tr1 ++ kubernetes.appended_errors tr2.
Proof.
  induction tr1 as [|ev tr1 IH]; [done|].
  destruct ev; cbn; rewrite ?IH; done.
Qed.

Lemma kubernetes_readers_findKubectl (version : string) :
  let r := kubernetes.findKubectl env version in
  kubernetes.applied (snd r) = [] /\ kubernetes.annotated (snd r) = [] /\
  (isErr (fst r) = true -> kubernetes.appended_errors (snd r) <> []).
Proof.
  unfold kubernetes.findKubectl. cbn zeta.
  destruct (kubernetes.toolregistry_Kubectl env version) as [[path installed]|err];
    [|done].
  by destruct installed.
Qed.

Lemma kubernetes_readers_annotations (f : Manifest -> gmap string string)
    (manifests : list Manifest) :
  let tr := map (fun m => kubernetes.AddAnnotations m (f m)) manifests in
  kubernetes.applied tr = [] /\
  kubernetes.annotated tr = map (fun m => (m, f m)) manifests /\
  kubernetes.appended_errors tr = [].
Proof.
  induction manifests as [|m l (IH1 & IH2 & IH3)]; [done|].
  cbn in *. by rewrite IH2.
Qed.


End Kubernetes.


(** A deployment that names a Helm version, in a directory with a
    kustomization file. *)
Lemma a_helm_version_makes_it_helm :
  kubernetes.determineTemplatingMethod (kubernetes_env true)
    (kubernetes.mkConfig (Some (kubernetes_spec "3.1.1"))) "/repo/demo-app"
  = Some kubernetes.TemplatingMethodHelm.
Proof.
  destruct (helm_settings_come_before_kustomize (kubernetes_env true)
              (kubernetes.mkConfig (Some (kubernetes_spec "3.1.1"))) "/repo/demo-app")
    as (_ & Hspec).
  destruct (Hspec (kubernetes_spec "3.1.1") eq_refl) as (Hhelm & _).
  apply Hhelm. right. right. discriminate.
Defined.

(** The stage rollout does nothing but log its start. *)
Lemma the_stage_rollout_is_a_placeholder :
  exists method,
    kubernetes.Execute (kubernetes_env true) (kubernetes_input "K8S_STAGE_ROLLOUT")
    = Some (STAGE_SUCCESS,
            [kubernetes.Logger_Info "start executing kubernetes stage"
               [("stage-name", "K8S_STAGE_ROLLOUT");
                ("app-dir-path", "/repo/demo-app");
                ("templating-method", method)]]).
Proof.
  destruct (kubernetes_stages (kubernetes_env true) (kubernetes_input "K8S_STAGE_ROLLOUT"))
    as (_ & Hspec).
  destruct (Hspec (kubernetes_spec "") eq_refl)
    as (method & st & rest & _ & Hexecute & _ & Hplaceholder & _).
  destruct Hplaceholder as [-> ->]; [split; [discriminate|left; reflexivity]|].
  exists method. exact Hexecute.
Defined.

